(** * kNN-DTA: the dual-encoder model, its weight transfer and its hub wrapper

    A shallow embedding of
    - [knn_dta/models/dti_knn_from_pretrained_roberta_no_cross_attn_1.py]
      ([build_model], [forward], [upgrade_state_dict_with_roberta_weights],
      the two encoder constructors), and
    - [knn_dta/models/custom_roberta/hub_interface.py]
      ([myextract_features_separate]).

    Python exceptions are values of [pyerr]; a call that can raise returns a
    [result].  Dictionaries whose iteration order is observable are
    insertion-ordered association lists ([pydict]); the others are [gmap]s.
    Tensor entries range over an arbitrary scalar type [F] with its own
    arithmetic (class [Scalar]); nothing is assumed about that arithmetic
    unless a statement says so. *)

From stdpp Require Import gmap strings list fin_maps pretty.
From Stdlib Require Import QArith Floats.

Local Open Scope Z_scope.
Local Open Scope string_scope.
Local Open Scope stdpp_scope.

(** ** Exceptions and results *)

Inductive pyerr : Type :=
  | UnboundLocalError (var : string)
  | KeyError (key : string)
  | AttributeError (attr : string)
  | AssertionError
  | IndexError
  | TypeError
  | RuntimeError
  | ValueError (msg : string)
  | IOError (msg : string).

Inductive result (A : Type) : Type :=
  | Ok (a : A)
  | Raise (e : pyerr).
Arguments Ok {A} a.
Arguments Raise {A} e.

#[global] Instance result_ret : MRet result := λ A a, Ok a.
#[global] Instance result_bind : MBind result := λ A B f r,
  match r with
  | Ok a => f a
  | Raise e => Raise e
  end.
#[global] Instance result_fmap : FMap result := λ A B f r,
  match r with
  | Ok a => Ok (f a)
  | Raise e => Raise e
  end.

Definition from_option {A} (e : pyerr) (o : option A) : result A :=
  match o with
  | Some a => Ok a
  | None => Raise e
  end.

(** [d[k]] on a dictionary held as a finite map. *)
Definition getitem {A} (d : gmap string A) (k : string) : result A :=
  from_option (KeyError k) (d !! k).

Fixpoint traverse {A B} (f : A → result B) (l : list A) : result (list B) :=
  match l with
  | [] => Ok []
  | a :: l' => b ← f a; bs ← traverse f l'; Ok (b :: bs)
  end.

(** ** Scalars, attribute values, tensors *)

(** The arithmetic of tensor entries and of Python floats.  [flit q] is the
    scalar a decimal literal denotes; [fone] and [fzero] are the Python
    integers 1 and 0 once they meet a float. *)
Class Scalar (F : Type) : Type := {
  fzero : F;
  fone : F;
  fadd : F → F → F;
  fsub : F → F → F;
  fmul : F → F → F;
  fis_zero : F → bool;
  flit : Q → F
}.

(** Exact rational arithmetic, kept in lowest terms. *)
#[global] Instance Q_scalar : Scalar Q := {|
  fzero := 0%Q;
  fone := 1%Q;
  fadd := λ a b, Qred (a + b)%Q;
  fsub := λ a b, Qred (a - b)%Q;
  fmul := λ a b, Qred (a * b)%Q;
  fis_zero := λ a, (Qnum a =? 0)%Z;
  flit := Qred
|}.

(** Binary64, the arithmetic of Python floats; a literal is the quotient of
    its numerator and denominator, rounded once. *)
Definition float_of_Z (z : Z) : float :=
  match z with
  | Z0 => PrimFloat.zero
  | Zpos p => PrimFloat.of_uint63 (Uint63.of_Z (Zpos p))
  | Zneg p => PrimFloat.opp (PrimFloat.of_uint63 (Uint63.of_Z (Zpos p)))
  end.

#[global] Instance binary64_scalar : Scalar float := {|
  fzero := PrimFloat.zero;
  fone := PrimFloat.one;
  fadd := PrimFloat.add;
  fsub := PrimFloat.sub;
  fmul := PrimFloat.mul;
  fis_zero := λ a, PrimFloat.eqb a PrimFloat.zero;
  flit := λ q, PrimFloat.div (float_of_Z (Qnum q)) (float_of_Z (Zpos (Qden q)))
|}.

(** Values of the attributes of an [argparse.Namespace]. *)
Inductive pyattr (F : Type) : Type :=
  | PNone
  | PBool (b : bool)
  | PInt (z : Z)
  | PFloat (x : F)
  | PStr (s : string).
Arguments PNone {F}.
Arguments PBool {F} b.
Arguments PInt {F} z.
Arguments PFloat {F} x.
Arguments PStr {F} s.

(** Python truthiness. *)
Definition truthy `{Scalar F} (v : pyattr F) : bool :=
  match v with
  | PNone => false
  | PBool b => b
  | PInt z => negb (z =? 0)%Z
  | PFloat x => negb (fis_zero x)
  | PStr s => negb (String.eqb s "")
  end.

Abbreviation namespace F := (gmap string (pyattr F)).

Definition hasattr {F} (args : namespace F) (name : string) : bool :=
  bool_decide (is_Some (args !! name)).

(** [args.name] *)
Definition getattr {F} (args : namespace F) (name : string) : result (pyattr F) :=
  from_option (AttributeError name) (args !! name).

(** [getattr(args, name, default)] *)
Definition getattr_default {F} (args : namespace F) (name : string)
    (dflt : pyattr F) : pyattr F :=
  default dflt (args !! name).

(** ** Tensors

    A floating tensor of rank 2 (batch x width) is the list of its rows, one
    of rank 3 (batch x positions x width) the list of its batch entries.  An
    integer token tensor is kept with its shape, since only its rank and the
    size of its last dimension are looked at. *)

Abbreviation tensor F := (list (list F)).
Abbreviation tensor3 F := (list (list (list F))).

Record token_tensor : Type := {
  tok_shape : list nat;
  tok_data : list Z
}.

(** What may be passed for [knn_cls_0], [cls_0] and the like: a Python number
    (the default is [0]) or a tensor of rank 2. *)
Inductive pyval (F : Type) : Type :=
  | Num (x : F)
  | Tens (t : tensor F).
Arguments Num {F} x.
Arguments Tens {F} t.

Inductive forward_ret (F : Type) : Type :=
  | RetCls (x_0 : tensor F)
  | RetTriple (x : tensor3 F) (out_0 out_1 : pyval F).
Arguments RetCls {F} x_0.
Arguments RetTriple {F} x out_0 out_1.

Section TensorOps.
Context `{Scalar F}.

(** [a * v] for a Python float [a]. *)
Definition smul (a : F) (v : pyval F) : pyval F :=
  match v with
  | Num x => Num (fmul a x)
  | Tens t => Tens (map (map (fmul a)) t)
  end.

(** One dimension of torch broadcasting: sizes must agree, or one of
    them is 1. *)
Definition broadcast {A B C} (f : A → B → result C)
    (l1 : list A) (l2 : list B) : result (list C) :=
  if decide (length l1 = length l2) then
    traverse (λ p, f p.1 p.2) (zip l1 l2)
  else
    match l1, l2 with
    | [a], _ => traverse (f a) l2
    | _, [b] => traverse (λ a, f a b) l1
    | _, _ => Raise RuntimeError
    end.

Definition tadd (t1 t2 : tensor F) : result (tensor F) :=
  broadcast (broadcast (λ a b, Ok (fadd a b))) t1 t2.

(** [u + v] *)
Definition vadd (u v : pyval F) : result (pyval F) :=
  match u, v with
  | Num a, Num b => Ok (Num (fadd a b))
  | Num a, Tens t => Ok (Tens (map (map (fadd a)) t))
  | Tens t, Num b => Ok (Tens (map (map (λ x, fadd x b)) t))
  | Tens t1, Tens t2 => Tens <$> tadd t1 t2
  end.

(** [torch.cat((u, v), 1)] *)
Definition cat1 (u v : pyval F) : result (tensor F) :=
  match u, v with
  | Tens a, Tens b =>
      if decide (length a = length b) then Ok (zip_with app a b)
      else Raise RuntimeError
  | _, _ => Raise TypeError
  end.

(** [t.unsqueeze(1)] *)
Definition unsqueeze1 (t : tensor F) : tensor3 F := map (λ row, [row]) t.

(** [x[:, 0, :]] *)
Definition select_first (x : tensor3 F) : result (tensor F) :=
  traverse (λ positions, from_option IndexError (head positions)) x.

(** Modelled from the spec: [GradMultiply.apply] belongs to the framework;
    the glossary has it scale gradients "without changing forward values". *)
Definition GradMultiply_apply (x : tensor3 F) (scale : pyattr F) : tensor3 F := x.
End TensorOps.

(** ** The model *)

(** A module of the network: its own parameters and its children, in the
    order [children()] yields them.  A parameter is named by its identity,
    so that one shared by two modules is one parameter. *)
#[warnings="-register-all"] Inductive module : Type :=
  | Module (own_parameters : list positive) (children : list module).

Definition children (m : module) : list module :=
  match m with Module _ cs => cs end.

Fixpoint parameters (m : module) : list positive :=
  match m with
  | Module own cs => own ++ concat (map parameters cs)
  end.

(** What the encoder of a branch offers to this code: the call itself, its
    sentence encoder and [max_positions()]. *)
Record encoder (F : Type) : Type := {
  enc_call : token_tensor → bool → bool → tensor3 F * list (tensor3 F);
  sentence_encoder : module;
  max_positions : Z
}.
Arguments enc_call {F} e.
Arguments sentence_encoder {F} e.
Arguments max_positions {F} e.

Record model (F : Type) : Type := {
  args : namespace F;
  encoder_0 : encoder F;
  encoder_1 : encoder F;
  classification_heads : gmap string (tensor3 F → tensor3 F)
}.
Arguments args {F} m.
Arguments encoder_0 {F} m.
Arguments encoder_1 {F} m.
Arguments classification_heads {F} m.

(** The keyword arguments of [forward]. *)
Record forward_kwargs (F : Type) : Type := {
  knn_cls_0 : pyval F;
  knn_cls_1 : pyval F;
  features_only : bool;
  return_all_hiddens : bool;
  classification_head_name : option string;
  use_which_embedding : string;
  knn_embedding_weight_0 : F;
  knn_embedding_weight_1 : F;
  alpha : F;
  use_only_mlp : bool;
  get_only_mol_cls : bool;
  cls_0 : pyval F;
  cls_1 : pyval F
}.
Arguments knn_cls_0 {F} f.
Arguments knn_cls_1 {F} f.
Arguments features_only {F} f.
Arguments return_all_hiddens {F} f.
Arguments classification_head_name {F} f.
Arguments use_which_embedding {F} f.
Arguments knn_embedding_weight_0 {F} f.
Arguments knn_embedding_weight_1 {F} f.
Arguments alpha {F} f.
Arguments use_only_mlp {F} f.
Arguments get_only_mol_cls {F} f.
Arguments cls_0 {F} f.
Arguments cls_1 {F} f.

Section Forward.
Context `{Scalar F}.

(** The defaults of the signature of [forward]. *)
Definition forward_defaults : forward_kwargs F := {|
  knn_cls_0 := Num fzero;
  knn_cls_1 := Num fzero;
  features_only := false;
  return_all_hiddens := false;
  classification_head_name := None;
  use_which_embedding := "no";
  knn_embedding_weight_0 := flit 0.8;
  knn_embedding_weight_1 := flit 0.8;
  alpha := flit 0.707;
  use_only_mlp := false;
  get_only_mol_cls := false;
  cls_0 := Num fzero;
  cls_1 := Num fzero
|}.

(** [forward].  The local [x] is bound only under
    [if classification_head_name is not None]; it is an [option] here and
    reading it unbound raises.  What [torch.cat] returns is a [Tensor], so
    [GradMultiply] is always applied. *)
Definition forward (self : model F) (src_tokens_0 src_tokens_1 : token_tensor)
    (kw : forward_kwargs F) : result (forward_ret F) :=
  let w0 := knn_embedding_weight_0 kw in
  let w1 := knn_embedding_weight_1 kw in
  let a := alpha kw in
  if get_only_mol_cls kw then
    let features_only :=
      if classification_head_name kw is Some _ then true else features_only kw in
    let '(x_0, extra_0) :=
      enc_call (encoder_0 self) src_tokens_0 features_only (return_all_hiddens kw) in
    c ← select_first x_0;
    Ok (RetCls c)
  else if negb (use_only_mlp kw) then
    let features_only :=
      if classification_head_name kw is Some _ then true else features_only kw in
    let '(x_0, extra_0) :=
      enc_call (encoder_0 self) src_tokens_0 features_only (return_all_hiddens kw) in
    let '(x_1, extra_1) :=
      enc_call (encoder_1 self) src_tokens_1 features_only (return_all_hiddens kw) in
    x ← match classification_head_name kw with
        | Some name =>
            x ← (if String.eqb (use_which_embedding kw) "mol_pro" then
                   e0 ← select_first x_0;
                   s0 ← vadd (smul w0 (Tens e0)) (smul (fsub fone w0) (knn_cls_0 kw));
                   e1 ← select_first x_1;
                   s1 ← vadd (smul w1 (Tens e1)) (smul (fsub fone w1) (knn_cls_1 kw));
                   c ← cat1 (smul a s0) (smul a s1);
                   Ok (unsqueeze1 c)
                 else
                   e0 ← select_first x_0;
                   e1 ← select_first x_1;
                   c ← cat1 (Tens e0) (Tens e1);
                   Ok (unsqueeze1 c));
            scale ← getattr (args self) "grad_multiply";
          let x := GradMultiply_apply x scale in
          head ← getitem (classification_heads self) name;
          Ok (Some (head x))
        | None => Ok None
        end;
    x ← from_option (UnboundLocalError "x") x;
    e0 ← select_first x_0;
    e1 ← select_first x_1;
    Ok (RetTriple x (Tens e0) (Tens e1))
  else
    x ← match classification_head_name kw with
        | Some name =>
            x ← (if String.eqb (use_which_embedding kw) "mol_pro" then
                   s0 ← vadd (smul w0 (cls_0 kw)) (smul (fsub fone w0) (knn_cls_0 kw));
                   s1 ← vadd (smul w1 (cls_1 kw)) (smul (fsub fone w1) (knn_cls_1 kw));
                   c ← cat1 (smul a s0) (smul a s1);
                   Ok (unsqueeze1 c)
                 else
                   c ← cat1 (cls_1 kw) (cls_1 kw);
                   Ok (unsqueeze1 c));
            scale ← getattr (args self) "grad_multiply";
          let x := GradMultiply_apply x scale in
          head ← getitem (classification_heads self) name;
          Ok (Some (head x))
        | None => Ok None
        end;
    x ← from_option (UnboundLocalError "x") x;
    s0 ← vadd (smul w0 (cls_0 kw)) (smul (fsub fone w0) (knn_cls_0 kw));
    s1 ← vadd (smul w1 (cls_1 kw)) (smul (fsub fone w1) (knn_cls_1 kw));
    Ok (RetTriple x (smul a s0) (smul a s1)).

(** The fusion rule in the spec's words:
    [scale * (w * own_embedding + (1 - w) * knn_embedding)]. *)
Definition branch_fused (scale w : F) (own_embedding knn_embedding : pyval F)
    : result (pyval F) :=
  s ← vadd (smul w own_embedding) (smul (fsub fone w) knn_embedding);
  Ok (smul scale s).

(** One entry of a fused embedding. *)
Definition fused_entry (scale w own knn : F) : F :=
  fmul scale (fadd (fmul w own) (fmul (fsub fone w) knn)).

(** The pooled embedding of a branch: the first position of what its
    encoder returns. *)
Definition pooled (enc : encoder F) (tokens : token_tensor)
    (features_only return_all_hiddens : bool) : result (tensor F) :=
  select_first (enc_call enc tokens features_only return_all_hiddens).1.
End Forward.


(** ** The hub wrapper *)

Definition dim (t : token_tensor) : nat := length (tok_shape t).

(** [t.unsqueeze(0)] *)
Definition unsqueeze0 (t : token_tensor) : token_tensor :=
  {| tok_shape := 1%nat :: tok_shape t; tok_data := tok_data t |}.

(** [t.size(-1)] *)
Definition size_last (t : token_tensor) : result Z :=
  from_option IndexError (Z.of_nat <$> last (tok_shape t)).

(** [ValueError("<name> exceeds maximum length: {} > {}".format(n, limit))] *)
Definition length_exceeded (name : string) (n limit : Z) : pyerr :=
  ValueError (name +:+ " exceeds maximum length: " +:+ pretty n +:+ " > " +:+ pretty limit).

Section Hub.
Context `{Scalar F}.

(** [RobertaHubInterface.myextract_features_separate], with [self.model]
    for [self]; moving a tensor to the device leaves it as it is. *)
Definition myextract_features_separate (self : model F)
    (tokens_0 tokens_1 : token_tensor) (return_all_hiddens : bool)
    (classification_head_name : option string) : result (tensor3 F) :=
  let tokens_0 := if decide (dim tokens_0 = 1%nat) then unsqueeze0 tokens_0 else tokens_0 in
  let tokens_1 := if decide (dim tokens_1 = 1%nat) then unsqueeze0 tokens_1 else tokens_1 in
  n0 ← size_last tokens_0;
  if decide (n0 > max_positions (encoder_0 self)) then
    Raise (length_exceeded "tokens_0" n0 (max_positions (encoder_0 self)))
  else
    n1 ← size_last tokens_1;
    if decide (n1 > max_positions (encoder_1 self)) then
      Raise (length_exceeded "tokens_1" n1 (max_positions (encoder_1 self)))
    else
      r ← forward self tokens_0 tokens_1 {|
             knn_cls_0 := knn_cls_0 forward_defaults;
             knn_cls_1 := knn_cls_1 forward_defaults;
             features_only := true;
             return_all_hiddens := return_all_hiddens;
             classification_head_name := classification_head_name;
             use_which_embedding := use_which_embedding forward_defaults;
             knn_embedding_weight_0 := knn_embedding_weight_0 forward_defaults;
             knn_embedding_weight_1 := knn_embedding_weight_1 forward_defaults;
             alpha := alpha forward_defaults;
             use_only_mlp := use_only_mlp forward_defaults;
             get_only_mol_cls := get_only_mol_cls forward_defaults;
             cls_0 := cls_0 forward_defaults;
             cls_1 := cls_1 forward_defaults
           |};
      match r with
      | RetTriple features extra_0 extra_1 =>
          if return_all_hiddens then
            (* [extra_0["inner_states"]]: a tensor indexed by a string *)
            match extra_0 with
            | Tens _ => Raise IndexError
            | Num _ => Raise TypeError
            end
          else Ok features
      | RetCls _ =>
          (* not reached: [get_only_mol_cls] keeps its default *)
          Raise RuntimeError
      end.
End Hub.

(** A call that does not raise [ValueError]. *)
Definition no_ValueError {A} (r : result A) : Prop :=
  ∀ msg, r ≠ Raise (ValueError msg).

(** ** Weight transfer *)

(** A Python [dict] whose order of iteration is observed: the entries in
    insertion order, each key once. *)
Abbreviation pydict V := (list (string * V)).

Section PyDict.
Context {V : Type}.

Definition dict_keys (d : pydict V) : list string := d.*1.

Definition dict_contains (d : pydict V) (k : string) : bool :=
  bool_decide (k ∈ dict_keys d).

Fixpoint dict_get (d : pydict V) (k : string) : option V :=
  match d with
  | [] => None
  | (k', v) :: d' => if decide (k' = k) then Some v else dict_get d' k
  end.

Fixpoint dict_delete (d : pydict V) (k : string) : pydict V :=
  match d with
  | [] => []
  | (k', v) :: d' => if decide (k' = k) then d' else (k', v) :: dict_delete d' k
  end.

(** [d.pop(k)] *)
Definition dict_pop (d : pydict V) (k : string) : result (V * pydict V) :=
  v ← from_option (KeyError k) (dict_get d k);
  Ok (v, dict_delete d k).

(** [d[k] = v]: in place for a key that is there, at the end for a new one. *)
Fixpoint dict_set (d : pydict V) (k : string) (v : V) : pydict V :=
  match d with
  | [] => [(k, v)]
  | (k', v') :: d' =>
      if decide (k' = k) then (k, v) :: d' else (k', v') :: dict_set d' k v
  end.
End PyDict.

(** [s[n:]] *)
Fixpoint drop_chars (n : nat) (s : string) : string :=
  match n, s with
  | O, _ => s
  | S n', String _ s' => drop_chars n' s'
  | S _, EmptyString => EmptyString
  end.

Section WeightTransfer.
Context {V : Type}.
(** [checkpoint_utils.load_checkpoint_to_cpu], and [os.path.exists] with
    it: [None] for a path with no file, else the loaded state, the entries
    of which are dictionaries. *)
Context (load_checkpoint_to_cpu : string → option (gmap string (pydict V))).

(** The two [if ... in roberta_state_dict.keys()] renames. *)
Definition rename_key (d : pydict V) (old new : string) : result (pydict V) :=
  if dict_contains d old then
    '(v, d') ← dict_pop d old;
    Ok (dict_set d' new v)
  else Ok d.

(** The body of [for key in roberta_state_dict.keys()]. *)
Definition transfer_key (roberta_state_dict : pydict V)
    (acc : result (gmap string V * nat)) (key : string)
    : result (gmap string V * nat) :=
  '(state_dict, i) ← acc;
  if String.prefix "encoder" key then
    let subkey := drop_chars (String.length "encoder" + 1) key in
    if bool_decide (is_Some (state_dict !! subkey)) then
      v ← from_option (KeyError key) (dict_get roberta_state_dict key);
      Ok (<[subkey := v]> state_dict, S i)
    else Ok (state_dict, i)
  else Ok (state_dict, i).

Definition transfer (roberta_state_dict : pydict V) (state_dict : gmap string V)
    : result (gmap string V * nat) :=
  foldl (transfer_key roberta_state_dict) (Ok (state_dict, 0%nat))
    (dict_keys roberta_state_dict).

(** [upgrade_state_dict_with_roberta_weights]: the state dict it returns,
    and the count [i] it logs. *)
Definition upgrade_state_dict_with_roberta_weights (state_dict : gmap string V)
    (pretrained_roberta_checkpoint : string) : result (gmap string V * nat) :=
  state ← from_option
    (IOError ("Model file not found: " +:+ pretrained_roberta_checkpoint))
    (load_checkpoint_to_cpu pretrained_roberta_checkpoint);
  roberta_state_dict ← getitem state "model";
  roberta_state_dict ← rename_key roberta_state_dict
    "encoder.sentence_encoder.layernorm_embedding.weight"
    "encoder.sentence_encoder.emb_layer_norm.weight";
  roberta_state_dict ← rename_key roberta_state_dict
    "encoder.sentence_encoder.layernorm_embedding.bias"
    "encoder.sentence_encoder.emb_layer_norm.bias";
  transfer roberta_state_dict state_dict.
End WeightTransfer.

(** The transfer as the code performs it, key by key: a checkpoint key
    reaches the target key [k] when it begins with ["encoder"] and [k] is
    what follows its first eight characters; of several such keys the last
    one iterated over wins. *)
Definition reaches (key k : string) : bool :=
  String.prefix "encoder" key && bool_decide (drop_chars 8 key = k).

Definition source_for (keys : list string) (k : string) : option string :=
  last (filter (λ key, reaches key k = true) keys).

(** The transfer in the spec's words: a target key is overwritten with the
    tensor of the checkpoint key that is ["encoder."] followed by it, when
    the checkpoint has that key; every other entry is left as it is. *)
Definition spec_transfer {V} (roberta_state_dict : pydict V)
    (state_dict : gmap string V) : gmap string V :=
  map_imap (λ k v, Some (default v (dict_get roberta_state_dict ("encoder." +:+ k))))
    state_dict.

(** ** Building the model *)

Definition DEFAULT_MAX_MOLECULE_POSITIONS : Z := 512.
Definition DEFAULT_MAX_PROTEIN_POSITIONS : Z := 1024.

(** [enumerate(l)] *)
Definition enumerate {A} (l : list A) : list (nat * A) := imap pair l.

(** The [requires_grad] flag of every parameter. *)
Abbreviation grad_flags := (gmap positive bool).

(** [for param in ps: param.requires_grad = False] *)
Definition no_grad (rg : grad_flags) (ps : list positive) : grad_flags :=
  foldl (λ rg param, <[param := false]> rg) rg ps.

(** The freezing loop of [build_model] over [sentence_encoder.children()]. *)
Definition freeze (rg : grad_flags) (sentence_encoder : module) : grad_flags :=
  foldl (λ rg '(i, child),
           if decide (i ≤ 3)%nat then no_grad rg (parameters child)
           else
             foldl (λ rg '(j, child_child),
                      if decide (j ≤ 11)%nat then no_grad rg (parameters child_child)
                      else rg)
                   rg (enumerate (children child)))
        rg (enumerate (children sentence_encoder)).

(** The frozen prefix in the spec's words: the first 4 top-level children
    entirely and, within the remaining ones, the first 12 sub-children. *)
Definition frozen_prefix (sentence_encoder : module) : list positive :=
  concat (map parameters (take 4 (children sentence_encoder)))
  ++ concat (map (λ child, concat (map parameters (take 12 (children child))))
                 (drop 4 (children sentence_encoder))).

Record task (dictionary : Type) : Type := {
  source_dictionary_0 : dictionary;
  source_dictionary_1 : dictionary
}.
Arguments source_dictionary_0 {dictionary} t.
Arguments source_dictionary_1 {dictionary} t.

Section Build.
Context `{Scalar F} {V dictionary : Type}.
(** What the framework supplies: the architecture defaults, the encoder
    class the two branch encoders derive from (called with [args], the
    dictionary and the value given for [max_positions]), its [state_dict()]
    and [load_state_dict(_, strict=False)], and the checkpoint loader. *)
Context (roberta_base_architecture : namespace F → namespace F)
        (DTIRobertaEncoder : namespace F → dictionary → pyattr F → encoder F)
        (state_dict : encoder F → gmap string V)
        (load_state_dict : encoder F → gmap string V → encoder F)
        (load_checkpoint_to_cpu : string → option (gmap string (pydict V))).

Definition base_architecture (args : namespace F) : namespace F :=
  roberta_base_architecture args.

(** [MoleculeEncoderFromPretrainedRoberta.__init__]; [self] is what
    [super().__init__(args, dictionary, args.max_positions_molecule)]
    constructs. *)
Definition MoleculeEncoderFromPretrainedRoberta (args : namespace F)
    (dict : dictionary) : result (encoder F) :=
  max_positions_molecule ← getattr args "max_positions_molecule";
  let self := DTIRobertaEncoder args dict max_positions_molecule in
  if truthy (getattr_default args "init_protein_encoder_only" (PBool false)) then
    Ok self
  else if negb (hasattr args "pretrained_molecule_roberta_checkpoint") then
    Raise AssertionError
  else
    path ← getattr args "pretrained_molecule_roberta_checkpoint";
    match path with
    | PStr path =>
        '(roberta_loaded_state_dict, _) ←
          upgrade_state_dict_with_roberta_weights load_checkpoint_to_cpu
            (state_dict self) path;
        Ok (load_state_dict self roberta_loaded_state_dict)
    | _ => Raise TypeError
    end.

(** [ProteinEncoderFromPretrainedRoberta.__init__] *)
Definition ProteinEncoderFromPretrainedRoberta (args : namespace F)
    (dict : dictionary) : result (encoder F) :=
  max_positions_protein ← getattr args "max_positions_protein";
  let self := DTIRobertaEncoder args dict max_positions_protein in
  if truthy (getattr_default args "init_molecule_encoder_only" (PBool false)) then
    Ok self
  else if negb (hasattr args "pretrained_protein_roberta_checkpoint") then
    Raise AssertionError
  else
    path ← getattr args "pretrained_protein_roberta_checkpoint";
    match path with
    | PStr path =>
        '(roberta_loaded_state_dict, _) ←
          upgrade_state_dict_with_roberta_weights load_checkpoint_to_cpu
            (state_dict self) path;
        Ok (load_state_dict self roberta_loaded_state_dict)
    | _ => Raise TypeError
    end.

(** [build_model], on the flags the constructors left in [rg]; it returns
    the model and the flags after freezing. *)
Definition build_model (args : namespace F) (task : task dictionary)
    (rg : grad_flags) : result (model F * grad_flags) :=
  if negb (hasattr args "pretrained_molecule_roberta_checkpoint") then
    Raise AssertionError
  else if negb (hasattr args "pretrained_protein_roberta_checkpoint") then
    Raise AssertionError
  else if truthy (getattr_default args "init_molecule_encoder_only" (PBool false))
          && truthy (getattr_default args "init_protein_encoder_only" (PBool false)) then
    Raise AssertionError
  else
    let args := base_architecture args in
    let args :=
      if negb (hasattr args "max_positions_molecule") then
        <["max_source_positions" := PInt DEFAULT_MAX_MOLECULE_POSITIONS]> args
      else args in
    let args :=
      if negb (hasattr args "max_positions_protein") then
        <["max_target_positions" := PInt DEFAULT_MAX_PROTEIN_POSITIONS]> args
      else args in
    encoder_0 ← MoleculeEncoderFromPretrainedRoberta args (source_dictionary_0 task);
    encoder_1 ← ProteinEncoderFromPretrainedRoberta args (source_dictionary_1 task);
    let rg := freeze rg (sentence_encoder encoder_0) in
    let rg := freeze rg (sentence_encoder encoder_1) in
    Ok ({| args := args;
           encoder_0 := encoder_0;
           encoder_1 := encoder_1;
           classification_heads := ∅ |}, rg).
End Build.

(** ** A small model to run the definitions on *)

Module Sample.
(** Batch of one, two positions, width two. *)
Definition mol_encoder : encoder Q := {|
  enc_call := λ _ _ _, ([[[1; 2]; [9; 9]]]%Q, []);
  sentence_encoder := Module [] [];
  max_positions := 512
|}.

Definition pro_encoder : encoder Q := {|
  enc_call := λ _ _ _, ([[[3; 4]]]%Q, []);
  sentence_encoder := Module [] [];
  max_positions := 1024
|}.

(** A head that hands back what it is given. *)
Definition dti : model Q := {|
  args := {["grad_multiply" := PFloat 1%Q]};
  encoder_0 := mol_encoder;
  encoder_1 := pro_encoder;
  classification_heads := {["h" := λ x, x]}
|}.

Definition tokens (n : nat) : token_tensor :=
  {| tok_shape := [n]; tok_data := replicate n 0 |}.

Definition kwargs (mode : string) (head : option string) (only_mlp : bool)
    : forward_kwargs Q := {|
  knn_cls_0 := Tens [[10; 20]]%Q;
  knn_cls_1 := Tens [[30; 40]]%Q;
  features_only := false;
  return_all_hiddens := false;
  classification_head_name := head;
  use_which_embedding := mode;
  knn_embedding_weight_0 := 0.8%Q;
  knn_embedding_weight_1 := 0.5%Q;
  alpha := 2%Q;
  use_only_mlp := only_mlp;
  get_only_mol_cls := false;
  cls_0 := Tens [[5; 6]]%Q;
  cls_1 := Tens [[7; 8]]%Q
|}.

(** Two checkpoint files: one with the legacy layer-norm key, one whose
    only key begins with ["encoder"] but not with ["encoder."]. *)
Definition roberta_checkpoint : pydict nat :=
  [("encoder.sentence_encoder.layernorm_embedding.weight", 11%nat);
   ("encoder.sentence_encoder.embed_tokens.weight", 12%nat);
   ("decoder.lm_head.bias", 13%nat)].

Definition files (path : string) : option (gmap string (pydict nat)) :=
  if String.eqb path "roberta.pt" then
    Some {["model" := roberta_checkpoint]}
  else if String.eqb path "odd.pt" then
    Some {["model" := [("encoderXa", 7%nat)]]}
  else None.

Definition target : gmap string nat :=
  {["sentence_encoder.emb_layer_norm.weight" := 1%nat;
    "sentence_encoder.embed_tokens.weight" := 2%nat;
    "lm_head.bias" := 3%nat]}.

(** A sentence encoder of five children, the fifth holding thirteen
    layers; a branch has its own parameters, numbered from [base]. *)
Definition layer (base : positive) (i : positive) : module :=
  Module [(base + i)%positive] [].

Definition sentence (base : positive) : module :=
  Module [(base + 100)%positive]
    [layer base 1; layer base 2; layer base 3; layer base 4;
     Module [(base + 50)%positive]
       (map (layer base) [5; 6; 7; 8; 9; 10; 11; 12; 13; 14; 15; 16; 17]%positive)].

(** The encoder class, for dictionaries that are just the base number of
    the branch. *)
Definition make_encoder (args : namespace Q) (dict : positive)
    (max_positions : pyattr Q) : encoder Q := {|
  enc_call := λ _ _ _, ([[[1; 2]]]%Q, []);
  sentence_encoder := sentence dict;
  max_positions := match max_positions with PInt z => z | _ => 0 end
|}.

Definition dictionaries : task positive :=
  {| source_dictionary_0 := 1000%positive; source_dictionary_1 := 2000%positive |}.

(** Arguments with the two checkpoints only, and with both limits too. *)
Definition bare_args : namespace Q :=
  {["pretrained_molecule_roberta_checkpoint" := PStr "roberta.pt";
    "pretrained_protein_roberta_checkpoint" := PStr "roberta.pt"]}.

Definition full_args : namespace Q :=
  <["max_positions_molecule" := PInt 512]>
    (<["max_positions_protein" := PInt 1024]> bare_args).

Definition build (args : namespace Q) (rg : grad_flags)
    : result (model Q * grad_flags) :=
  build_model (λ args, args) make_encoder (λ _, target) (λ self _, self) files
    args dictionaries rg.

(** Every parameter tracked at first. *)
Definition all_tracked : grad_flags :=
  list_to_map (map (λ p, (p, true))
    (parameters (sentence 1000) ++ parameters (sentence 2000))).
End Sample.

(** * The rest of the two files *)

(** ** The other feature extractors of the hub wrapper *)

(** [v.to(device=self.device)] on what is passed for an embedding: a Python
    number has no [to]. *)
Definition to_device {F} (v : pyval F) : result (pyval F) :=
  match v with
  | Tens t => Ok (Tens t)
  | Num _ => Raise (AttributeError "to")
  end.

Section HubVariants.
Context `{Scalar F}.
(** [F.log_softmax(_, dim=-1)], which is torch's. *)
Context (log_softmax : tensor3 F → tensor3 F).

(** [self.model(tokens_0, tokens_1, knn_cls_0=.., knn_cls_1=..,
    features_only=True, return_all_hiddens=.., classification_head_name=..,
    use_which_embedding=..)], the other keywords at their defaults. *)
Definition model_call (self : model F) (tokens_0 tokens_1 : token_tensor)
    (knn_0 knn_1 : pyval F) (return_all_hiddens : bool)
    (classification_head_name : option string) (mode : string)
    : result (forward_ret F) :=
  forward self tokens_0 tokens_1 {|
    knn_cls_0 := knn_0;
    knn_cls_1 := knn_1;
    features_only := true;
    return_all_hiddens := return_all_hiddens;
    classification_head_name := classification_head_name;
    use_which_embedding := mode;
    knn_embedding_weight_0 := knn_embedding_weight_0 forward_defaults;
    knn_embedding_weight_1 := knn_embedding_weight_1 forward_defaults;
    alpha := alpha forward_defaults;
    use_only_mlp := use_only_mlp forward_defaults;
    get_only_mol_cls := get_only_mol_cls forward_defaults;
    cls_0 := cls_0 forward_defaults;
    cls_1 := cls_1 forward_defaults
  |}.

(** What [forward] takes for a neighbour embedding that is not passed. *)
Definition default_knn_cls_0 : pyval F := knn_cls_0 forward_defaults.
Definition default_knn_cls_1 : pyval F := knn_cls_1 forward_defaults.

(** [a, b, c = r] and [a, b, c, d, e = r] on what [forward] returns. *)
Definition unpack3 (r : forward_ret F) : result (tensor3 F * pyval F * pyval F) :=
  match r with
  | RetTriple x out_0 out_1 => Ok (x, out_0, out_1)
  | RetCls _ =>
      (* not reached: [get_only_mol_cls] keeps its default *)
      Raise RuntimeError
  end.

Definition unpack5 (r : forward_ret F)
    : result (tensor3 F * pyval F * pyval F * pyval F * pyval F) :=
  match r with
  | RetTriple _ _ _ =>
      Raise (ValueError "not enough values to unpack (expected 5, got 3)")
  | RetCls _ => Raise RuntimeError
  end.

(** [extra["inner_states"]] on the tensor or number that [extra] is. *)
Definition inner_states {A} (extra : pyval F) : result A :=
  match extra with
  | Tens _ => Raise IndexError
  | Num _ => Raise TypeError
  end.

(** [myextract_features_separate_batch]: no [unsqueeze], no length check. *)
Definition myextract_features_separate_batch (self : model F)
    (tokens_0 tokens_1 : token_tensor) (return_all_hiddens : bool)
    (classification_head_name : option string) : result (tensor3 F) :=
  r ← model_call self tokens_0 tokens_1 default_knn_cls_0
        default_knn_cls_1 return_all_hiddens classification_head_name
        (use_which_embedding forward_defaults);
  '(features, extra_0, extra_1) ← unpack3 r;
  if return_all_hiddens then inner_states extra_0 else Ok features.

(** [myextract_features_separate_pro_hidden] *)
Definition myextract_features_separate_pro_hidden (self : model F)
    (tokens_0 tokens_1 : token_tensor) (return_all_hiddens : bool)
    (classification_head_name : option string) : result (pyval F) :=
  let tokens_0 := if decide (dim tokens_0 = 1%nat) then unsqueeze0 tokens_0 else tokens_0 in
  let tokens_1 := if decide (dim tokens_1 = 1%nat) then unsqueeze0 tokens_1 else tokens_1 in
  n0 ← size_last tokens_0;
  if decide (n0 > max_positions (encoder_0 self)) then
    Raise (length_exceeded "tokens_0" n0 (max_positions (encoder_0 self)))
  else
    n1 ← size_last tokens_1;
    if decide (n1 > max_positions (encoder_1 self)) then
      Raise (length_exceeded "tokens_1" n1 (max_positions (encoder_1 self)))
    else
      r ← model_call self tokens_0 tokens_1 default_knn_cls_0
            default_knn_cls_1 return_all_hiddens classification_head_name
            (use_which_embedding forward_defaults);
      '(features, extra_0, extra_1) ← unpack3 r;
      if return_all_hiddens then inner_states extra_0 else Ok extra_1.

(** [myextract_features_separate_spec_pro]: [final_hidden_1] goes in as
    the third positional argument of [forward], which is [knn_cls_0]. *)
Definition myextract_features_separate_spec_pro (self : model F)
    (tokens_0 tokens_1 : token_tensor) (final_hidden_1 : pyval F)
    (return_all_hiddens : bool) (classification_head_name : option string)
    : result (tensor3 F) :=
  let tokens_0 := if decide (dim tokens_0 = 1%nat) then unsqueeze0 tokens_0 else tokens_0 in
  let tokens_1 := if decide (dim tokens_1 = 1%nat) then unsqueeze0 tokens_1 else tokens_1 in
  n0 ← size_last tokens_0;
  if decide (n0 > max_positions (encoder_0 self)) then
    Raise (length_exceeded "tokens_0" n0 (max_positions (encoder_0 self)))
  else
    n1 ← size_last tokens_1;
    if decide (n1 > max_positions (encoder_1 self)) then
      Raise (length_exceeded "tokens_1" n1 (max_positions (encoder_1 self)))
    else
      final_hidden_1 ← to_device final_hidden_1;
      r ← model_call self tokens_0 tokens_1 final_hidden_1
            default_knn_cls_1 return_all_hiddens classification_head_name
            (use_which_embedding forward_defaults);
      '(features, extra_0, extra_1) ← unpack3 r;
      if return_all_hiddens then inner_states extra_0 else Ok features.

(** [myextract_features_separate_cls] *)
Definition myextract_features_separate_cls (self : model F)
    (tokens_0 tokens_1 : token_tensor) (return_all_hiddens : bool)
    (classification_head_name : option string)
    : result (tensor3 F * pyval F * pyval F) :=
  let tokens_0 := if decide (dim tokens_0 = 1%nat) then unsqueeze0 tokens_0 else tokens_0 in
  let tokens_1 := if decide (dim tokens_1 = 1%nat) then unsqueeze0 tokens_1 else tokens_1 in
  n0 ← size_last tokens_0;
  if decide (n0 > max_positions (encoder_0 self)) then
    Raise (length_exceeded "tokens_0" n0 (max_positions (encoder_0 self)))
  else
    n1 ← size_last tokens_1;
    if decide (n1 > max_positions (encoder_1 self)) then
      Raise (length_exceeded "tokens_1" n1 (max_positions (encoder_1 self)))
    else
      r ← model_call self tokens_0 tokens_1 default_knn_cls_0
            default_knn_cls_1 return_all_hiddens classification_head_name
            (use_which_embedding forward_defaults);
      unpack3 r.

(** [myextract_features_separate_cls_attn] *)
Definition myextract_features_separate_cls_attn (self : model F)
    (tokens_0 tokens_1 : token_tensor) (return_all_hiddens : bool)
    (classification_head_name : option string)
    : result (tensor3 F * pyval F * pyval F * pyval F * pyval F) :=
  let tokens_0 := if decide (dim tokens_0 = 1%nat) then unsqueeze0 tokens_0 else tokens_0 in
  let tokens_1 := if decide (dim tokens_1 = 1%nat) then unsqueeze0 tokens_1 else tokens_1 in
  n0 ← size_last tokens_0;
  if decide (n0 > max_positions (encoder_0 self)) then
    Raise (length_exceeded "tokens_0" n0 (max_positions (encoder_0 self)))
  else
    n1 ← size_last tokens_1;
    if decide (n1 > max_positions (encoder_1 self)) then
      Raise (length_exceeded "tokens_1" n1 (max_positions (encoder_1 self)))
    else
      r ← model_call self tokens_0 tokens_1 default_knn_cls_0
            default_knn_cls_1 return_all_hiddens classification_head_name
            (use_which_embedding forward_defaults);
      unpack5 r.

(** [myextract_features_separate_knn_cls] *)
Definition myextract_features_separate_knn_cls (self : model F)
    (tokens_0 tokens_1 : token_tensor) (knn_cls_0 knn_cls_1 : pyval F)
    (return_all_hiddens : bool) (classification_head_name : option string)
    (use_which_embedding : string)
    : result (tensor3 F * pyval F * pyval F * pyval F * pyval F) :=
  let tokens_0 := if decide (dim tokens_0 = 1%nat) then unsqueeze0 tokens_0 else tokens_0 in
  let tokens_1 := if decide (dim tokens_1 = 1%nat) then unsqueeze0 tokens_1 else tokens_1 in
  n0 ← size_last tokens_0;
  if decide (n0 > max_positions (encoder_0 self)) then
    Raise (length_exceeded "tokens_0" n0 (max_positions (encoder_0 self)))
  else
    n1 ← size_last tokens_1;
    if decide (n1 > max_positions (encoder_1 self)) then
      Raise (length_exceeded "tokens_1" n1 (max_positions (encoder_1 self)))
    else
      r ← (if String.eqb use_which_embedding "mol" then
             knn_cls_0 ← to_device knn_cls_0;
             model_call self tokens_0 tokens_1 knn_cls_0 default_knn_cls_1
               return_all_hiddens classification_head_name "mol"
           else if String.eqb use_which_embedding "pro" then
             knn_cls_1 ← to_device knn_cls_1;
             model_call self tokens_0 tokens_1 default_knn_cls_0 knn_cls_1
               return_all_hiddens classification_head_name "pro"
           else if String.eqb use_which_embedding "mol_pro" then
             knn_cls_0 ← to_device knn_cls_0;
             knn_cls_1 ← to_device knn_cls_1;
             model_call self tokens_0 tokens_1 knn_cls_0 knn_cls_1
               return_all_hiddens classification_head_name "mol_pro"
           else
             model_call self tokens_0 tokens_1 default_knn_cls_0
               default_knn_cls_1
               return_all_hiddens classification_head_name "no");
      unpack5 r.

(** [mypredict_separate]: neither [return_logits] nor [head] is passed
    on. *)
Definition mypredict_separate (self : model F) (tokens_0 tokens_1 : token_tensor)
    (return_logits : bool) (head : string) : result (tensor3 F) :=
  features ← myextract_features_separate self tokens_0 tokens_1 false
               (Some "sentence_classification_head");
  Ok (log_softmax features).
End HubVariants.

(** ** Encoding and decoding sentences *)

(** [np.split(l, cuts)] for ascending [cuts]: the pieces [l[:c0]],
    [l[c0:c1]], ..., [l[ck:]].  [l] is what is left from index [start] on. *)
Fixpoint np_split_from {A} (start : nat) (l : list A) (cuts : list nat)
    : list (list A) :=
  match cuts with
  | [] => [l]
  | c :: cuts' => take (c - start) l :: np_split_from c (drop (c - start) l) cuts'
  end.

Definition np_split {A} (l : list A) (cuts : list nat) : list (list A) :=
  np_split_from 0 l cuts.

(** [mask.nonzero()[0]]: the indices at which [mask] holds. *)
Definition nonzero (mask : list bool) : list nat :=
  (imap (λ i (b : bool), if b then [i] else []) mask) ≫= id.

(** What [decode] returns: one sentence, or the list of them. *)
Inductive decoded : Type :=
  | OneSentence (s : string)
  | Sentences (l : list string).

Section HubText.
Context {dictionary : Type}.
(** The dictionary and the BPE of the task, which the framework supplies:
    [encode_line(_, append_eos=False, add_if_not_exist=False)], [string],
    [bos()], [eos()], and [bpe.encode], [bpe.decode]. *)
Context (encode_line : dictionary → string → token_tensor)
        (dictionary_string : dictionary → list Z → string)
        (bos eos : dictionary → Z)
        (bpe_encode bpe_decode : string → string).
Context (source_dictionary source_dictionary_0 source_dictionary_1 : dictionary).

(** [encode(sentence, *addl_sentences, no_separator=..)] *)
Definition encode (sentence : string) (addl_sentences : list string)
    (no_separator : bool) : token_tensor :=
  let bpe_sentence := "<s> " +:+ bpe_encode sentence +:+ " </s>" in
  let bpe_sentence :=
    foldl (λ bpe_sentence s,
             let bpe_sentence :=
               bpe_sentence +:+ (if negb no_separator then " </s>" else "") in
             bpe_sentence +:+ (" " +:+ bpe_encode s +:+ " </s>"))
          bpe_sentence addl_sentences in
  encode_line source_dictionary bpe_sentence.

(** [myencode_share]: the same, on sentences that are BPE-encoded
    already. *)
Definition myencode_share (sentence : string) (addl_sentences : list string)
    (no_separator : bool) : token_tensor :=
  let bpe_sentence := "<s> " +:+ sentence +:+ " </s>" in
  let bpe_sentence :=
    foldl (λ bpe_sentence s,
             let bpe_sentence :=
               bpe_sentence +:+ (if negb no_separator then " </s>" else "") in
             bpe_sentence +:+ (" " +:+ s +:+ " </s>"))
          bpe_sentence addl_sentences in
  encode_line source_dictionary bpe_sentence.

Definition myencode_mol (sentence_0 : string) : token_tensor :=
  let sentence_0 := "<s> " +:+ sentence_0 +:+ " </s>" in
  encode_line source_dictionary_0 sentence_0.

Definition myencode_pro (sentence_1 : string) : token_tensor :=
  let sentence_1 := "<s> " +:+ sentence_1 +:+ " </s>" in
  encode_line source_dictionary_1 sentence_1.

Definition myencode_separate (sentence_0 sentence_1 : string)
    : token_tensor * token_tensor :=
  let sentence_0 := "<s> " +:+ sentence_0 +:+ " </s>" in
  let sentence_1 := "<s> " +:+ sentence_1 +:+ " </s>" in
  let tokens_0 := encode_line source_dictionary_0 sentence_0 in
  let tokens_1 := encode_line source_dictionary_1 sentence_1 in
  (tokens_0, tokens_1).

(** [myencode_separate_batch]: the loop over [zip(sentence_0, sentence_1)]
    appending to the two lists. *)
Definition myencode_separate_batch (sentence_0 sentence_1 : list string)
    : list token_tensor * list token_tensor :=
  foldl (λ '(tokens_0_list, tokens_1_list) '(s_0, s_1),
           let s_0 := "<s> " +:+ s_0 +:+ " </s>" in
           let s_1 := "<s> " +:+ s_1 +:+ " </s>" in
           let tokens_0 := encode_line source_dictionary_0 s_0 in
           let tokens_1 := encode_line source_dictionary_1 s_1 in
           ((tokens_0_list ++ [tokens_0])%list, (tokens_1_list ++ [tokens_1])%list))
        ([], []) (zip sentence_0 sentence_1).

(** [decode]; [tokens.numpy()] is the data of the tensor of rank 1. *)
Definition decode (tokens : token_tensor) : result decoded :=
  if negb (dim tokens =? 1)%nat then Raise AssertionError
  else
    let tokens := tok_data tokens in
    first ← from_option IndexError (head tokens);
    let tokens :=
      if (first =? bos source_dictionary)%Z then drop 1 tokens else tokens in
    let eos_mask := map (λ t, (t =? eos source_dictionary)%Z) tokens in
    let doc_mask :=
      zip_with andb (drop 1 eos_mask) (take (length eos_mask - 1) eos_mask) in
    let sentences := np_split tokens (map S (nonzero doc_mask)) in
    let sentences :=
      map (λ s, bpe_decode (dictionary_string source_dictionary s)) sentences in
    match sentences with
    | [s] => Ok (OneSentence s)
    | _ => Ok (Sentences sentences)
    end.
End HubText.

(** ** Registering a classification head *)

(** A head as this code sees it: its call, [out_proj.out_features] and
    [dense.out_features]. *)
Record classification_head (F : Type) : Type := {
  head_forward : tensor3 F → tensor3 F;
  out_proj_out_features : Z;
  dense_out_features : Z
}.
Arguments head_forward {F} c.
Arguments out_proj_out_features {F} c.
Arguments dense_out_features {F} c.

(** The double quote, as a string. *)
Definition double_quote : string := String (Ascii.ascii_of_nat 34) EmptyString.

(** [str(x)] of an integer or [None]. *)
Definition str_int_or_None (x : option Z) : string :=
  match x with
  | Some z => pretty z
  | None => "None"
  end.

Section Register.
Context `{Scalar F}.
(** [RobertaClassificationHead(input_dim=.., inner_dim=.., num_classes=..,
    activation_fn=.., pooler_dropout=.., q_noise=.., qn_block_size=..,
    do_spectral_norm=..)], which the framework supplies. *)
Context (RobertaClassificationHead :
           pyattr F → pyattr F → option Z → pyattr F → pyattr F → pyattr F →
           pyattr F → pyattr F → classification_head F).

(** [2 * v] *)
Definition twice (v : pyattr F) : result (pyattr F) :=
  match v with
  | PNone => Raise TypeError
  | PBool b => Ok (PInt (2 * Z.b2z b))
  | PInt z => Ok (PInt (2 * z))
  | PFloat x => Ok (PFloat (fmul (flit 2) x))
  | PStr s => Ok (PStr (s +:+ s))
  end.

(** [my_register_classification_head], on the table of heads: the
    warnings it logs, and the table it leaves unless it raises. *)
Definition my_register_classification_head (args : namespace F)
    (classification_heads : gmap string (classification_head F))
    (name : string) (num_classes inner_dim : option Z)
    : list string * result (gmap string (classification_head F)) :=
  let warnings :=
    match classification_heads !! name with
    | Some prev =>
        let prev_num_classes := out_proj_out_features prev in
        let prev_inner_dim := dense_out_features prev in
        if bool_decide (num_classes ≠ Some prev_num_classes)
           || bool_decide (inner_dim ≠ Some prev_inner_dim)
        then
          ["re-registering head " +:+ double_quote +:+ name +:+ double_quote
           +:+ " with num_classes "
           +:+ str_int_or_None num_classes +:+ " (prev: " +:+ pretty prev_num_classes
           +:+ ") and inner_dim " +:+ str_int_or_None inner_dim
           +:+ " (prev: " +:+ pretty prev_inner_dim +:+ ")"]
        else []
    | None => []
    end in
  (warnings,
   encoder_embed_dim ← getattr args "encoder_embed_dim";
   input_dim ← twice encoder_embed_dim;
   inner_dim ← match inner_dim with
               | Some z => if (z =? 0)%Z then getattr args "encoder_embed_dim"
                           else Ok (PInt z)
               | None => getattr args "encoder_embed_dim"
               end;
   activation_fn ← getattr args "pooler_activation_fn";
   pooler_dropout ← getattr args "pooler_dropout";
   q_noise ← getattr args "quant_noise_pq";
   qn_block_size ← getattr args "quant_noise_pq_block_size";
   do_spectral_norm ← getattr args "spectral_norm_classification_head";
   Ok (<[name := RobertaClassificationHead input_dim inner_dim num_classes
                   activation_fn pooler_dropout q_noise qn_block_size
                   do_spectral_norm]> classification_heads)).

(** The model with a table of heads: [forward] only calls them. *)
Definition with_heads (self : model F)
    (heads : gmap string (classification_head F)) : model F :=
  {| args := args self;
     encoder_0 := encoder_0 self;
     encoder_1 := encoder_1 self;
     classification_heads := head_forward <$> heads |}.
End Register.

(** ** Notions the statements below use *)

(** A call that, when it raises, raises one of the exceptions in [P]. *)
Definition raises_only {A} (P : pyerr → Prop) (r : result A) : Prop :=
  ∀ e, r = Raise e → P e.

(** A tensor of [rows] rows, each [width] wide. *)
Definition has_shape {F} (rows width : nat) (t : tensor F) : Prop :=
  length t = rows ∧ Forall (λ row, length row = width) t.

(** A neighbour embedding that can be blended with a [rows] x [width]
    embedding without broadcasting over rows or columns: a number, or a
    tensor of that shape. *)
Definition fits {F} (rows width : nat) (v : pyval F) : Prop :=
  match v with
  | Num _ => True
  | Tens t => has_shape rows width t
  end.

(** A head input of [rows] batch entries, each of one position, [width]
    wide. *)
Definition head_input_shape {F} (rows width : nat) (x : tensor3 F) : Prop :=
  length x = rows ∧ Forall (λ entry, ∃ row, entry = [row] ∧ length row = width) x.

(** The exceptions of [forward]: those of the tensor operations, and three
    of its own, each for one reason. *)
Definition forward_error `{Scalar F} (self : model F) (kw : forward_kwargs F)
    (e : pyerr) : Prop :=
  e = IndexError ∨ e = RuntimeError ∨ e = TypeError
  ∨ (e = UnboundLocalError "x" ∧ classification_head_name kw = None)
  ∨ (e = AttributeError "grad_multiply" ∧ args self !! "grad_multiply" = None
     ∧ is_Some (classification_head_name kw))
  ∨ (∃ name, e = KeyError name ∧ classification_head_name kw = Some name
     ∧ classification_heads self !! name = None
     ∧ is_Some (args self !! "grad_multiply")).

(** A checkpoint key the loop transfers into [state_dict]: it begins with
    ["encoder"] and what follows its first eight characters is a key of
    [state_dict]. *)
Definition transfers {V} (state_dict : gmap string V) (key : string) : bool :=
  String.prefix "encoder" key && bool_decide (is_Some (state_dict !! drop_chars 8 key)).

(** The checkpoint files the two constructors open for [args]: a branch
    whose loading the other branch's [init_..._encoder_only] switches off
    opens none. *)
Definition checkpoints_read `{Scalar F} (args : namespace F) : list string :=
  (if truthy (getattr_default args "init_protein_encoder_only" (PBool false)) then []
   else match args !! "pretrained_molecule_roberta_checkpoint" with
        | Some (PStr path) => [path]
        | _ => []
        end)
  ++ (if truthy (getattr_default args "init_molecule_encoder_only" (PBool false)) then []
      else match args !! "pretrained_protein_roberta_checkpoint" with
           | Some (PStr path) => [path]
           | _ => []
           end).

(** ** More values to run the definitions on *)

Module Sample2.
(** Keywords with every embedding left at its default number. *)
Definition bare_kwargs (mode : string) (head : option string)
    (only_mlp only_mol : bool) : forward_kwargs Q := {|
  knn_cls_0 := Num 0%Q;
  knn_cls_1 := Num 0%Q;
  features_only := false;
  return_all_hiddens := false;
  classification_head_name := head;
  use_which_embedding := mode;
  knn_embedding_weight_0 := 0.8%Q;
  knn_embedding_weight_1 := 0.8%Q;
  alpha := 0.707%Q;
  use_only_mlp := only_mlp;
  get_only_mol_cls := only_mol;
  cls_0 := Num 0%Q;
  cls_1 := Num 0%Q
|}.

(** A head class that records the widths it is built with. *)
Definition make_head (input_dim inner_dim : pyattr Q) (num_classes : option Z)
    (activation_fn pooler_dropout q_noise qn_block_size do_spectral_norm : pyattr Q)
    : classification_head Q := {|
  head_forward := λ x, x;
  out_proj_out_features := default 0 num_classes;
  dense_out_features := match inner_dim with PInt z => z | _ => 0 end
|}.

Definition head_args : namespace Q :=
  {["encoder_embed_dim" := PInt 768;
    "pooler_activation_fn" := PStr "tanh";
    "pooler_dropout" := PFloat 0%Q;
    "quant_noise_pq" := PFloat 0%Q;
    "quant_noise_pq_block_size" := PInt 8;
    "spectral_norm_classification_head" := PBool false;
    "grad_multiply" := PFloat 1%Q]}.

Definition dti : model Q := {|
  args := head_args;
  encoder_0 := Sample.mol_encoder;
  encoder_1 := Sample.pro_encoder;
  classification_heads := ∅
|}.
(** A checkpoint in the old naming that also has the new name, and a
    target in the new naming. *)
Definition legacy_checkpoint : pydict nat :=
  [("encoder.sentence_encoder.layernorm_embedding.weight", 11%nat);
   ("encoder.sentence_encoder.emb_layer_norm.weight", 21%nat);
   ("encoder.sentence_encoder.layernorm_embedding.bias", 12%nat);
   ("decoder.lm_head.bias", 13%nat)].

Definition legacy_files (path : string) : option (gmap string (pydict nat)) :=
  if String.eqb path "legacy.pt" then Some {["model" := legacy_checkpoint]}
  else if String.eqb path "empty.pt" then Some ∅
  else None.

Definition new_target : gmap string nat :=
  {["sentence_encoder.emb_layer_norm.weight" := 1%nat;
    "sentence_encoder.emb_layer_norm.bias" := 2%nat;
    "sentence_encoder.layernorm_embedding.weight" := 3%nat]}.

Definition loaded_target : gmap string nat :=
  {["sentence_encoder.emb_layer_norm.weight" := 11%nat;
    "sentence_encoder.embed_tokens.weight" := 12%nat;
    "lm_head.bias" := 3%nat]}.

(** Arguments that load the protein branch only and name a molecule
    checkpoint that is not there; a second file system, in which it is. *)
Definition only_protein_args : namespace Q :=
  <["init_protein_encoder_only" := PBool true]>
    (<["pretrained_molecule_roberta_checkpoint" := PStr "none.pt"]> Sample.full_args).

Definition missing_molecule_args : namespace Q :=
  <["pretrained_molecule_roberta_checkpoint" := PStr "none.pt"]> Sample.full_args.

Definition other_files (path : string) : option (gmap string (pydict nat)) :=
  if String.eqb path "none.pt" then Some ∅ else Sample.files path.

Definition build_with (load : string → option (gmap string (pydict nat)))
    (args : namespace Q) (rg : grad_flags) : result (model Q * grad_flags) :=
  build_model (λ args, args) Sample.make_encoder (λ _, Sample.target) (λ self _, self)
    load args Sample.dictionaries rg.

(** A dictionary for [decode]: [bos] is 0, [eos] is 2, and a sentence is
    shown as its numbers. *)
Definition dictionary_string (d : unit) (l : list Z) : string :=
  String.concat " " (map pretty l).

Definition decode_tokens (tokens : token_tensor) : result decoded :=
  decode dictionary_string (λ _, 0) (λ _, 2) (λ s, s) () tokens.

(** [<s> 5 6 </s> </s> 7 </s>] *)
Definition pair_tokens : token_tensor :=
  {| tok_shape := [7%nat]; tok_data := [0; 5; 6; 2; 2; 7; 2] |}.

Definition no_tokens : token_tensor := {| tok_shape := [0%nat]; tok_data := [] |}.
End Sample2.

(** * Properties *)

(** ** Facts about the tensor operations *)

Section TensorFacts.
Context `{Scalar F}.

Lemma traverse_Ok {A B} (f : A → B) (l : list A) :
  traverse (λ a, Ok (f a)) l = Ok (map f l).
Proof. induction l as [|a l IH]; simpl; [done|]. by rewrite IH. Qed.

Lemma broadcast_same_length {A B C} (f : A → B → result C) l1 l2 :
  length l1 = length l2 →
  broadcast f l1 l2 = traverse (λ p, f p.1 p.2) (zip l1 l2).
Proof. intros Hlen. unfold broadcast. by rewrite decide_True. Qed.

Lemma tadd_same_shape (t1 t2 : tensor F) :
  Forall2 (λ r1 r2, length r1 = length r2) t1 t2 →
  tadd t1 t2 = Ok (zip_with (zip_with fadd) t1 t2).
Proof.
  intros Hsh. unfold tadd.
  rewrite broadcast_same_length by (by eapply Forall2_length).
  induction Hsh as [|r1 r2 t1 t2 Hr _ IH]; simpl; [done|].
  rewrite broadcast_same_length by done.
  rewrite (traverse_Ok (λ p, fadd p.1 p.2)). simpl.
  rewrite IH. simpl. f_equal. f_equal.
  clear. revert r2. induction r1 as [|a r1 IHr]; intros [|b r2]; simpl; [done..|].
  by rewrite IHr.
Qed.

Lemma map_zip_with_fused (scale w : F) (r1 r2 : list F) :
  map (fmul scale)
      (zip_with fadd (map (fmul w) r1) (map (fmul (fsub fone w)) r2))
  = zip_with (fused_entry scale w) r1 r2.
Proof.
  revert r2. induction r1 as [|a r1 IH]; intros [|b r2]; simpl; [done..|].
  by rewrite IH.
Qed.

Lemma branch_fused_same_shape (scale w : F) (e k : tensor F) :
  Forall2 (λ r1 r2, length r1 = length r2) e k →
  branch_fused scale w (Tens e) (Tens k)
  = Ok (Tens (zip_with (zip_with (fused_entry scale w)) e k)).
Proof.
  intros Hsh. unfold branch_fused. simpl.
  rewrite tadd_same_shape.
  - simpl. do 2 f_equal.
    clear Hsh. revert k. induction e as [|r1 e IH]; intros [|r2 k]; simpl; [done..|].
    by rewrite map_zip_with_fused, IH.
  - clear -Hsh. induction Hsh; simpl; constructor; [|done].
    by rewrite !length_map.
Qed.

(** With a Python number for the neighbour (the default [0]), it is
    broadcast over the whole embedding. *)
Lemma branch_fused_number (scale w : F) (e : tensor F) (k : F) :
  branch_fused scale w (Tens e) (Num k)
  = Ok (Tens (map (map (λ x,
      fmul scale (fadd (fmul w x) (fmul (fsub fone w) k)))) e)).
Proof.
  unfold branch_fused. simpl. do 2 f_equal.
  rewrite <- !list_fmap_compose. apply list_fmap_ext. intros _ r _. simpl.
  rewrite <- !list_fmap_compose. by apply list_fmap_ext.
Qed.
End TensorFacts.


(** ** The forward pass *)

Section ForwardFacts.
Context `{Scalar F}.
Implicit Types (self : model F) (kw : forward_kwargs F).

#[local] Arguments cat1 : simpl never.
#[local] Arguments vadd : simpl never.
#[local] Arguments smul : simpl never.
#[local] Arguments select_first : simpl never.
#[local] Arguments unsqueeze1 : simpl never.

Lemma branch_fused_Ok (scale w : F) (own knn f : pyval F) :
  branch_fused scale w own knn = Ok f →
  ∃ s, vadd (smul w own) (smul (fsub fone w) knn) = Ok s ∧ f = smul scale s.
Proof.
  unfold branch_fused. destruct (vadd _ _) as [s|e]; simpl; [|done].
  intros [= <-]. by exists s.
Qed.

(** Full mode, a head given, any mode but [mol_pro]. *)
Lemma forward_full_plain self t0 t1 kw name head scale e0 e1 c :
  get_only_mol_cls kw = false →
  use_only_mlp kw = false →
  classification_head_name kw = Some name →
  use_which_embedding kw ≠ "mol_pro" →
  args self !! "grad_multiply" = Some scale →
  classification_heads self !! name = Some head →
  pooled (encoder_0 self) t0 true (return_all_hiddens kw) = Ok e0 →
  pooled (encoder_1 self) t1 true (return_all_hiddens kw) = Ok e1 →
  cat1 (Tens e0) (Tens e1) = Ok c →
  forward self t0 t1 kw = Ok (RetTriple (head (unsqueeze1 c)) (Tens e0) (Tens e1)).
Proof.
  intros Hmol Hmlp Hname Hmode Hscale Hhead He0 He1 Hc.
  unfold forward, pooled in *. rewrite Hmol, Hmlp, Hname. simpl.
  destruct (enc_call (encoder_0 self) t0 true (return_all_hiddens kw)) as [x_0 extra_0].
  destruct (enc_call (encoder_1 self) t1 true (return_all_hiddens kw)) as [x_1 extra_1].
  simpl in *. apply String.eqb_neq in Hmode. rewrite Hmode, He0, He1. simpl.
  rewrite Hc. simpl.
  unfold getattr, getitem. by rewrite Hscale, Hhead.
Qed.

(** Full mode, a head given, mode [mol_pro]. *)
Lemma forward_full_mol_pro self t0 t1 kw name head scale e0 e1 f0 f1 c :
  get_only_mol_cls kw = false →
  use_only_mlp kw = false →
  classification_head_name kw = Some name →
  use_which_embedding kw = "mol_pro" →
  args self !! "grad_multiply" = Some scale →
  classification_heads self !! name = Some head →
  pooled (encoder_0 self) t0 true (return_all_hiddens kw) = Ok e0 →
  pooled (encoder_1 self) t1 true (return_all_hiddens kw) = Ok e1 →
  branch_fused (alpha kw) (knn_embedding_weight_0 kw) (Tens e0) (knn_cls_0 kw) = Ok f0 →
  branch_fused (alpha kw) (knn_embedding_weight_1 kw) (Tens e1) (knn_cls_1 kw) = Ok f1 →
  cat1 f0 f1 = Ok c →
  forward self t0 t1 kw = Ok (RetTriple (head (unsqueeze1 c)) (Tens e0) (Tens e1)).
Proof.
  intros Hmol Hmlp Hname Hmode Hscale Hhead He0 He1
    (s0 & Hs0 & ->)%branch_fused_Ok (s1 & Hs1 & ->)%branch_fused_Ok Hc.
  unfold forward, pooled in *. rewrite Hmol, Hmlp, Hname, Hmode. simpl.
  destruct (enc_call (encoder_0 self) t0 true (return_all_hiddens kw)) as [x_0 extra_0].
  destruct (enc_call (encoder_1 self) t1 true (return_all_hiddens kw)) as [x_1 extra_1].
  simpl in *. rewrite He0, He1. simpl. rewrite Hs0. simpl. rewrite Hs1. simpl.
  rewrite Hc. simpl.
  unfold getattr, getitem. by rewrite Hscale, Hhead.
Qed.

(** Precomputed mode, a head given, mode [mol_pro]. *)
Lemma forward_mlp_mol_pro self t0 t1 kw name head scale f0 f1 c :
  get_only_mol_cls kw = false →
  use_only_mlp kw = true →
  classification_head_name kw = Some name →
  use_which_embedding kw = "mol_pro" →
  args self !! "grad_multiply" = Some scale →
  classification_heads self !! name = Some head →
  branch_fused (alpha kw) (knn_embedding_weight_0 kw) (cls_0 kw) (knn_cls_0 kw) = Ok f0 →
  branch_fused (alpha kw) (knn_embedding_weight_1 kw) (cls_1 kw) (knn_cls_1 kw) = Ok f1 →
  cat1 f0 f1 = Ok c →
  forward self t0 t1 kw = Ok (RetTriple (head (unsqueeze1 c)) f0 f1).
Proof.
  intros Hmol Hmlp Hname Hmode Hscale Hhead
    (s0 & Hs0 & ->)%branch_fused_Ok (s1 & Hs1 & ->)%branch_fused_Ok Hc.
  unfold forward. rewrite Hmol, Hmlp, Hname, Hmode. simpl.
  rewrite Hs0. simpl. rewrite Hs1. simpl. rewrite Hc. simpl.
  unfold getattr, getitem. by rewrite Hscale, Hhead.
Qed.

(** Precomputed mode, a head given, any mode but [mol_pro]. *)
Lemma forward_mlp_plain self t0 t1 kw name head scale f0 f1 c :
  get_only_mol_cls kw = false →
  use_only_mlp kw = true →
  classification_head_name kw = Some name →
  use_which_embedding kw ≠ "mol_pro" →
  args self !! "grad_multiply" = Some scale →
  classification_heads self !! name = Some head →
  cat1 (cls_1 kw) (cls_1 kw) = Ok c →
  branch_fused (alpha kw) (knn_embedding_weight_0 kw) (cls_0 kw) (knn_cls_0 kw) = Ok f0 →
  branch_fused (alpha kw) (knn_embedding_weight_1 kw) (cls_1 kw) (knn_cls_1 kw) = Ok f1 →
  forward self t0 t1 kw = Ok (RetTriple (head (unsqueeze1 c)) f0 f1).
Proof.
  intros Hmol Hmlp Hname Hmode Hscale Hhead Hc
    (s0 & Hs0 & ->)%branch_fused_Ok (s1 & Hs1 & ->)%branch_fused_Ok.
  unfold forward. rewrite Hmol, Hmlp, Hname. apply String.eqb_neq in Hmode.
  rewrite Hmode. simpl. rewrite Hc. simpl.
  unfold getattr, getitem. rewrite Hscale, Hhead. simpl.
  rewrite Hs0. simpl. by rewrite Hs1.
Qed.

(** With no head named, [x] is never bound and the [return] raises. *)
Lemma forward_no_head self t0 t1 kw :
  get_only_mol_cls kw = false →
  classification_head_name kw = None →
  forward self t0 t1 kw = Raise (UnboundLocalError "x").
Proof.
  intros Hmol Hname. unfold forward. rewrite Hmol, Hname.
  destruct (use_only_mlp kw); simpl; [done|].
  destruct (enc_call (encoder_0 self) t0 _ _).
  by destruct (enc_call (encoder_1 self) t1 _ _).
Qed.

(** Whatever precomputed mode returns carries the two blends. *)
Lemma forward_mlp_returns self t0 t1 kw v :
  get_only_mol_cls kw = false →
  use_only_mlp kw = true →
  forward self t0 t1 kw = Ok v →
  ∃ x f0 f1, v = RetTriple x f0 f1
    ∧ branch_fused (alpha kw) (knn_embedding_weight_0 kw) (cls_0 kw) (knn_cls_0 kw) = Ok f0
    ∧ branch_fused (alpha kw) (knn_embedding_weight_1 kw) (cls_1 kw) (knn_cls_1 kw) = Ok f1.
Proof.
  intros Hmol Hmlp. unfold forward, branch_fused. rewrite Hmol, Hmlp. simpl.
  destruct (match classification_head_name kw with Some _ => _ | None => _ end)
    as [[x|]|]; simpl; [|done..].
  destruct (vadd (smul _ (cls_0 kw)) _) as [s0|]; simpl; [|done].
  destruct (vadd (smul _ (cls_1 kw)) _) as [s1|]; simpl; [|done].
  intros [= <-]. by exists x, (smul (alpha kw) s0), (smul (alpha kw) s1).
Qed.
End ForwardFacts.

Section ForwardReturns.
Context `{Scalar F}.
Implicit Types (self : model F) (kw : forward_kwargs F).

#[local] Arguments cat1 : simpl never.
#[local] Arguments vadd : simpl never.
#[local] Arguments smul : simpl never.
#[local] Arguments select_first : simpl never.
#[local] Arguments unsqueeze1 : simpl never.

(** Whatever full mode returns under a named head: the output of that
    head, and the two pooled embeddings as the encoders gave them. *)
Lemma forward_full_returns self t0 t1 kw name v :
  get_only_mol_cls kw = false →
  use_only_mlp kw = false →
  classification_head_name kw = Some name →
  forward self t0 t1 kw = Ok v →
  ∃ head input e0 e1,
    v = RetTriple (head input) (Tens e0) (Tens e1)
    ∧ classification_heads self !! name = Some head
    ∧ pooled (encoder_0 self) t0 true (return_all_hiddens kw) = Ok e0
    ∧ pooled (encoder_1 self) t1 true (return_all_hiddens kw) = Ok e1.
Proof.
  intros Hmol Hmlp Hname. unfold forward, pooled. rewrite Hmol, Hmlp, Hname. simpl.
  destruct (enc_call (encoder_0 self) t0 true _) as [x_0 extra_0].
  destruct (enc_call (encoder_1 self) t1 true _) as [x_1 extra_1]. simpl.
  destruct (select_first x_0) as [e0|]; simpl.
  2:{ by destruct (_ =? _). }
  destruct (select_first x_1) as [e1|]; simpl.
  2:{ destruct (_ =? _); simpl; [|done]. by destruct (vadd _ _). }
  destruct (mbind _ (if _ =? _ then _ else _)) as [[x|]|] eqn:Hx; simpl; [|done..].
  intros [= <-].
  destruct (if _ =? _ then _ else _) as [input|]; simpl in Hx; [|done].
  unfold getattr, getitem in Hx.
  destruct (args self !! "grad_multiply"); simpl in Hx; [|done].
  destruct (classification_heads self !! name) as [head|]; simpl in Hx; [|done].
  injection Hx as <-. by exists head, input, e0, e1.
Qed.
End ForwardReturns.

(** C1.  With a head named and mode [mol_pro], the head is given the
    concatenation of the two fused embeddings
    [alpha * (w * own + (1 - w) * knn)], one per branch, in full mode (own =
    the pooled embedding) and in precomputed mode (own = [cls_0], [cls_1]).
    Entry by entry a fused embedding is [fused_entry]; with the default
    weight 0.8 and scale 0.707, in an arithmetic where [1 - 0.8] is [0.2],
    that is [0.707 * (0.8 * e + 0.2 * k)]. *)
Theorem mol_pro_head_input `{Scalar F} :
  (∀ (self : model F) t0 t1 kw name head scale e0 e1 f0 f1 c,
     get_only_mol_cls kw = false →
     use_only_mlp kw = false →
     classification_head_name kw = Some name →
     use_which_embedding kw = "mol_pro" →
     args self !! "grad_multiply" = Some scale →
     classification_heads self !! name = Some head →
     pooled (encoder_0 self) t0 true (return_all_hiddens kw) = Ok e0 →
     pooled (encoder_1 self) t1 true (return_all_hiddens kw) = Ok e1 →
     branch_fused (alpha kw) (knn_embedding_weight_0 kw) (Tens e0) (knn_cls_0 kw) = Ok f0 →
     branch_fused (alpha kw) (knn_embedding_weight_1 kw) (Tens e1) (knn_cls_1 kw) = Ok f1 →
     cat1 f0 f1 = Ok c →
     forward self t0 t1 kw = Ok (RetTriple (head (unsqueeze1 c)) (Tens e0) (Tens e1)))
  ∧ (∀ (self : model F) t0 t1 kw name head scale f0 f1 c,
     get_only_mol_cls kw = false →
     use_only_mlp kw = true →
     classification_head_name kw = Some name →
     use_which_embedding kw = "mol_pro" →
     args self !! "grad_multiply" = Some scale →
     classification_heads self !! name = Some head →
     branch_fused (alpha kw) (knn_embedding_weight_0 kw) (cls_0 kw) (knn_cls_0 kw) = Ok f0 →
     branch_fused (alpha kw) (knn_embedding_weight_1 kw) (cls_1 kw) (knn_cls_1 kw) = Ok f1 →
     cat1 f0 f1 = Ok c →
     forward self t0 t1 kw = Ok (RetTriple (head (unsqueeze1 c)) f0 f1))
  ∧ (∀ (scale w : F) (e k : tensor F),
     Forall2 (λ r1 r2, length r1 = length r2) e k →
     branch_fused scale w (Tens e) (Tens k)
     = Ok (Tens (zip_with (zip_with (fused_entry scale w)) e k)))
  ∧ (fsub fone (flit 0.8) = flit 0.2 →
     ∀ e k : F,
       fused_entry (alpha forward_defaults) (knn_embedding_weight_0 forward_defaults) e k
       = fmul (flit 0.707) (fadd (fmul (flit 0.8) e) (fmul (flit 0.2) k))).
Proof.
  split_and!.
  - intros. by eapply forward_full_mol_pro.
  - intros. by eapply forward_mlp_mol_pro.
  - apply branch_fused_same_shape.
  - intros Hsub e k. unfold fused_entry. simpl. by rewrite Hsub.
Qed.

Lemma mol_pro_head_input_witness :
  forward Sample.dti (Sample.tokens 3) (Sample.tokens 4)
    (Sample.kwargs "mol_pro" (Some "h") false)
  = Ok (RetTriple [[[28 # 5; 56 # 5; 33; 44]]]%Q (Tens [[1; 2]]%Q) (Tens [[3; 4]]%Q))
  ∧ forward Sample.dti (Sample.tokens 3) (Sample.tokens 4)
      (Sample.kwargs "mol_pro" (Some "h") true)
    = Ok (RetTriple [[[12; 88 # 5; 37; 48]]]%Q (Tens [[12; 88 # 5]]%Q) (Tens [[37; 48]]%Q))
  ∧ branch_fused 2%Q 0.8%Q (Tens [[1; 2]]%Q) (Tens [[10; 20]]%Q)
    = Ok (Tens [[28 # 5; 56 # 5]]%Q)
  ∧ fused_entry (alpha forward_defaults) (knn_embedding_weight_0 forward_defaults)
      1%Q 10%Q
    = (4949 # 2500)%Q.
Proof.
  destruct (@mol_pro_head_input Q _) as (Hfull & Hmlp & Hentries & Hdefault).
  split_and!.
  - apply (Hfull Sample.dti _ _ _ "h" (λ x, x) (PFloat 1%Q) [[1; 2]]%Q [[3; 4]]%Q
             (Tens [[28 # 5; 56 # 5]]%Q) (Tens [[33; 44]]%Q) [[28 # 5; 56 # 5; 33; 44]]%Q);
      vm_compute; reflexivity.
  - apply (Hmlp Sample.dti _ _ _ "h" (λ x, x) (PFloat 1%Q)
             (Tens [[12; 88 # 5]]%Q) (Tens [[37; 48]]%Q) [[12; 88 # 5; 37; 48]]%Q);
      vm_compute; reflexivity.
  - rewrite Hentries; [reflexivity|]. repeat constructor.
  - rewrite (Hdefault eq_refl 1%Q 10%Q). reflexivity.
Defined.

(** In binary64 [1 - 0.8] is not [0.2] but the float below it, so that with
    the defaults an entry agrees with [0.707 * (0.8 * e + 0.2 * k)] only up
    to rounding: at [e = 0], [k = 1] the two differ in the last place. *)
Remark binary64_default_weight :
  fsub fone (flit 0.8) ≠ (flit 0.2 : float)
  ∧ fused_entry (alpha forward_defaults) (knn_embedding_weight_0 forward_defaults)
      PrimFloat.zero PrimFloat.one
    ≠ fmul (flit 0.707)
        (fadd (fmul (flit 0.8) PrimFloat.zero) (fmul (flit 0.2) PrimFloat.one)).
Proof.
  split; intros Heq.
  - apply (f_equal (PrimFloat.eqb (flit 0.2))) in Heq.
    vm_compute in Heq. discriminate.
  - apply (f_equal (PrimFloat.eqb (fmul (flit 0.707) (flit 0.2)))) in Heq.
    vm_compute in Heq. discriminate.
Qed.

(** C2.  In full dual-branch mode a call that names a head returns, when it
    returns, that head's output together with the two pooled embeddings as
    the encoders gave them (first positions, not blended).  A call that names
    no head does not return a triple with none in front: the local [x] was
    never bound and the call raises [UnboundLocalError]. *)
Theorem forward_full_triple `{Scalar F} (self : model F) t0 t1 kw :
  get_only_mol_cls kw = false →
  use_only_mlp kw = false →
  (∀ name v,
     classification_head_name kw = Some name →
     forward self t0 t1 kw = Ok v →
     ∃ head input e0 e1,
       v = RetTriple (head input) (Tens e0) (Tens e1)
       ∧ classification_heads self !! name = Some head
       ∧ pooled (encoder_0 self) t0 true (return_all_hiddens kw) = Ok e0
       ∧ pooled (encoder_1 self) t1 true (return_all_hiddens kw) = Ok e1)
  ∧ (classification_head_name kw = None →
     forward self t0 t1 kw = Raise (UnboundLocalError "x")).
Proof.
  intros Hmol Hmlp. split.
  - intros name v Hname Hv. by eapply forward_full_returns.
  - intros Hname. by apply forward_no_head.
Qed.

Lemma forward_full_triple_witness :
  forward Sample.dti (Sample.tokens 3) (Sample.tokens 4) forward_defaults
  = Raise (UnboundLocalError "x")
  ∧ ∃ head input,
      Ok (RetTriple [[[1; 2; 3; 4]]]%Q (Tens [[1; 2]]%Q) (Tens [[3; 4]]%Q))
      = Ok (RetTriple (head input) (Tens [[1; 2]]%Q) (Tens [[3; 4]]%Q))
      ∧ classification_heads Sample.dti !! "h" = Some head.
Proof.
  split.
  - apply (forward_full_triple Sample.dti (Sample.tokens 3) (Sample.tokens 4)
             forward_defaults eq_refl eq_refl).
    reflexivity.
  - destruct (forward_full_triple Sample.dti (Sample.tokens 3) (Sample.tokens 4)
                (Sample.kwargs "no" (Some "h") false) eq_refl eq_refl) as [Hsome _].
    destruct (Hsome "h" (RetTriple [[[1; 2; 3; 4]]]%Q (Tens [[1; 2]]%Q) (Tens [[3; 4]]%Q))
                eq_refl) as (head & input & e0 & e1 & Hv & Hhead & He0 & He1).
    { vm_compute; reflexivity. }
    injection He0 as <-. injection He1 as <-.
    exists head, input. split; [by rewrite <- Hv | exact Hhead].
Defined.

(** C3.  In precomputed mode, with a head named and a mode other than
    [mol_pro], the head is given [cls_1] concatenated with itself; [cls_0]
    does not enter it. *)
Theorem forward_mlp_head_input `{Scalar F}
    (self : model F) t0 t1 kw name head scale f0 f1 c :
  get_only_mol_cls kw = false →
  use_only_mlp kw = true →
  classification_head_name kw = Some name →
  use_which_embedding kw ≠ "mol_pro" →
  args self !! "grad_multiply" = Some scale →
  classification_heads self !! name = Some head →
  cat1 (cls_1 kw) (cls_1 kw) = Ok c →
  branch_fused (alpha kw) (knn_embedding_weight_0 kw) (cls_0 kw) (knn_cls_0 kw) = Ok f0 →
  branch_fused (alpha kw) (knn_embedding_weight_1 kw) (cls_1 kw) (knn_cls_1 kw) = Ok f1 →
  forward self t0 t1 kw = Ok (RetTriple (head (unsqueeze1 c)) f0 f1).
Proof. apply forward_mlp_plain. Qed.

Lemma forward_mlp_head_input_witness :
  forward Sample.dti (Sample.tokens 3) (Sample.tokens 4)
    (Sample.kwargs "mol" (Some "h") true)
  = Ok (RetTriple [[[7; 8; 7; 8]]]%Q (Tens [[12; 88 # 5]]%Q) (Tens [[37; 48]]%Q)).
Proof.
  apply (forward_mlp_head_input Sample.dti _ _ _ "h" (λ x, x) (PFloat 1%Q)
           (Tens [[12; 88 # 5]]%Q) (Tens [[37; 48]]%Q) [[7; 8; 7; 8]]%Q);
    vm_compute; first [reflexivity | discriminate].
Defined.

(** C4.  In precomputed mode the second and third components returned are
    the two blends [alpha * (w * cls + (1 - w) * knn_cls)], whatever
    [use_which_embedding] is; and with a head registered under the given
    name the call does return them, as soon as the blends and the head input
    can be formed. *)
Theorem forward_mlp_outputs `{Scalar F} (self : model F) t0 t1 kw :
  get_only_mol_cls kw = false →
  use_only_mlp kw = true →
  (∀ v, forward self t0 t1 kw = Ok v →
     ∃ x f0 f1, v = RetTriple x f0 f1
       ∧ branch_fused (alpha kw) (knn_embedding_weight_0 kw) (cls_0 kw) (knn_cls_0 kw) = Ok f0
       ∧ branch_fused (alpha kw) (knn_embedding_weight_1 kw) (cls_1 kw) (knn_cls_1 kw) = Ok f1)
  ∧ (∀ name head scale f0 f1 c,
       classification_head_name kw = Some name →
       args self !! "grad_multiply" = Some scale →
       classification_heads self !! name = Some head →
       branch_fused (alpha kw) (knn_embedding_weight_0 kw) (cls_0 kw) (knn_cls_0 kw) = Ok f0 →
       branch_fused (alpha kw) (knn_embedding_weight_1 kw) (cls_1 kw) (knn_cls_1 kw) = Ok f1 →
       (if String.eqb (use_which_embedding kw) "mol_pro"
        then cat1 f0 f1 else cat1 (cls_1 kw) (cls_1 kw)) = Ok c →
       forward self t0 t1 kw = Ok (RetTriple (head (unsqueeze1 c)) f0 f1)).
Proof.
  intros Hmol Hmlp. split.
  - intros v Hv. by eapply forward_mlp_returns.
  - intros name head scale f0 f1 c Hname Hscale Hhead Hf0 Hf1 Hc.
    destruct (String.eqb_spec (use_which_embedding kw) "mol_pro") as [Hmode|Hmode].
    + by eapply forward_mlp_mol_pro.
    + by eapply forward_mlp_plain.
Qed.

Lemma forward_mlp_outputs_witness :
  (∃ x, forward Sample.dti (Sample.tokens 3) (Sample.tokens 4)
          (Sample.kwargs "pro" (Some "h") true)
        = Ok (RetTriple x (Tens [[12; 88 # 5]]%Q) (Tens [[37; 48]]%Q)))
  ∧ branch_fused 2%Q 0.8%Q (Tens [[5; 6]]%Q) (Tens [[10; 20]]%Q)
    = Ok (Tens [[12; 88 # 5]]%Q).
Proof.
  destruct (forward_mlp_outputs Sample.dti (Sample.tokens 3) (Sample.tokens 4)
              (Sample.kwargs "pro" (Some "h") true) eq_refl eq_refl)
    as [Hany Hreturns].
  assert (forward Sample.dti (Sample.tokens 3) (Sample.tokens 4)
            (Sample.kwargs "pro" (Some "h") true)
          = Ok (RetTriple [[[7; 8; 7; 8]]]%Q (Tens [[12; 88 # 5]]%Q) (Tens [[37; 48]]%Q)))
    as Hrun.
  { apply (Hreturns "h" (λ x, x) (PFloat 1%Q) _ _ [[7; 8; 7; 8]]%Q);
      vm_compute; reflexivity. }
  split; [by eexists|].
  destruct (Hany _ Hrun) as (x & f0 & f1 & Hv & Hf0 & Hf1).
  injection Hv as _ <- _. exact Hf0.
Defined.

(** C9.  In full dual-branch mode, with a head named and mode [no], [mol]
    or [pro], the head is given the two pooled embeddings concatenated as
    they are: the neighbour embeddings, the weights and the scale, whatever
    they are, do not enter it. *)
Theorem forward_full_head_input `{Scalar F}
    (self : model F) t0 t1 kw name head scale e0 e1 c :
  get_only_mol_cls kw = false →
  use_only_mlp kw = false →
  classification_head_name kw = Some name →
  use_which_embedding kw ∈ ["no"; "mol"; "pro"] →
  args self !! "grad_multiply" = Some scale →
  classification_heads self !! name = Some head →
  pooled (encoder_0 self) t0 true (return_all_hiddens kw) = Ok e0 →
  pooled (encoder_1 self) t1 true (return_all_hiddens kw) = Ok e1 →
  cat1 (Tens e0) (Tens e1) = Ok c →
  forward self t0 t1 kw = Ok (RetTriple (head (unsqueeze1 c)) (Tens e0) (Tens e1)).
Proof.
  intros Hmol Hmlp Hname Hmode. apply forward_full_plain; try done.
  intros Heq. rewrite Heq, !elem_of_cons, elem_of_nil in Hmode.
  by destruct Hmode as [[=]|[[=]|[[=]|[]]]].
Qed.

Lemma forward_full_head_input_witness :
  forward Sample.dti (Sample.tokens 3) (Sample.tokens 4)
    (Sample.kwargs "mol" (Some "h") false)
  = Ok (RetTriple [[[1; 2; 3; 4]]]%Q (Tens [[1; 2]]%Q) (Tens [[3; 4]]%Q)).
Proof.
  apply (forward_full_head_input Sample.dti _ _ _ "h" (λ x, x) (PFloat 1%Q)
           [[1; 2]]%Q [[3; 4]]%Q [[1; 2; 3; 4]]%Q);
    try (vm_compute; reflexivity).
  apply list_elem_of_further, list_elem_of_here.
Defined.

(** ** The length check of the hub wrapper *)

Section NoValueError.
Context `{Scalar F}.

Lemma no_ValueError_Ok {A} (a : A) : no_ValueError (Ok a).
Proof. by intros msg. Qed.

Lemma no_ValueError_bind {A B} (r : result A) (f : A → result B) :
  no_ValueError r → (∀ a, no_ValueError (f a)) → no_ValueError (r ≫= f).
Proof.
  intros Hr Hf msg. destruct r as [a|e]; simpl.
  - apply Hf.
  - intros [= ->]. by eapply Hr.
Qed.

Lemma no_ValueError_fmap {A B} (r : result A) (f : A → B) :
  no_ValueError r → no_ValueError (f <$> r).
Proof. intros Hr msg. destruct r as [a|e]; simpl; [done|]. intros [= ->]. by eapply Hr. Qed.

Lemma no_ValueError_traverse {A B} (f : A → result B) (l : list A) :
  (∀ a, no_ValueError (f a)) → no_ValueError (traverse f l).
Proof.
  intros Hf. induction l as [|a l IH]; simpl; [apply no_ValueError_Ok|].
  apply no_ValueError_bind; [done|]. intros b.
  apply no_ValueError_bind; [done|]. intros bs. apply no_ValueError_Ok.
Qed.

Lemma no_ValueError_broadcast {A B C} (f : A → B → result C) l1 l2 :
  (∀ a b, no_ValueError (f a b)) → no_ValueError (broadcast f l1 l2).
Proof.
  intros Hf. unfold broadcast.
  destruct (decide _); [by apply no_ValueError_traverse|].
  destruct l1 as [|a [|a' l1]], l2 as [|b [|b' l2]];
    try (by intros msg); by apply no_ValueError_traverse.
Qed.

Lemma no_ValueError_vadd (u v : pyval F) : no_ValueError (vadd u v).
Proof.
  destruct u, v; simpl; try apply no_ValueError_Ok.
  apply no_ValueError_fmap, no_ValueError_broadcast. intros r1 r2.
  apply no_ValueError_broadcast. intros a b. apply no_ValueError_Ok.
Qed.

Lemma no_ValueError_cat1 (u v : pyval F) : no_ValueError (cat1 u v).
Proof. destruct u, v; simpl; try (by intros msg). by destruct (decide _). Qed.

Lemma no_ValueError_select_first (x : tensor3 F) : no_ValueError (select_first x).
Proof. apply no_ValueError_traverse. by intros [|r l] msg. Qed.

Lemma no_ValueError_forward (self : model F) t0 t1 kw :
  no_ValueError (forward self t0 t1 kw).
Proof.
  pose proof no_ValueError_vadd. pose proof no_ValueError_cat1.
  pose proof no_ValueError_select_first. pose proof @no_ValueError_Ok.
  unfold forward, getattr, getitem.
  repeat first
    [ done
    | apply no_ValueError_bind; [|intros ?]
    | apply no_ValueError_fmap
    | match goal with
      | |- no_ValueError (from_option _ ?o) => destruct o; by intros msg
      | |- no_ValueError (let '(_, _) := ?p in _) => destruct p
      | |- no_ValueError (if ?b then _ else _) => destruct b
      | |- no_ValueError (match ?o with Some _ => _ | None => _ end) => destruct o
      end ].
Qed.

Lemma size_last_normalised (t : token_tensor) (n : nat) :
  last (tok_shape t) = Some n →
  size_last (if decide (dim t = 1%nat) then unsqueeze0 t else t) = Ok (Z.of_nat n).
Proof.
  intros Hn. unfold size_last. destruct (decide _); simpl; [|by rewrite Hn].
  destruct (tok_shape t) as [|d sh]; [done|]. simpl in *. by rewrite Hn.
Qed.
End NoValueError.

(** C7.  For token tensors of rank at least one, with [n0] and [n1] the
    sizes of their last dimension: if [n0] exceeds the limit of the molecule
    encoder the call raises the length error naming [tokens_0], [n0] and that
    limit; otherwise, if [n1] exceeds the limit of the protein encoder, the
    one naming [tokens_1], [n1] and that limit; and with both within their
    limits the call raises no [ValueError] at all. *)
Theorem myextract_features_separate_length_check `{Scalar F}
    (self : model F) tokens_0 tokens_1 return_all_hiddens name (n0 n1 : nat) :
  last (tok_shape tokens_0) = Some n0 →
  last (tok_shape tokens_1) = Some n1 →
  ((Z.of_nat n0 > max_positions (encoder_0 self))%Z →
   myextract_features_separate self tokens_0 tokens_1 return_all_hiddens name
   = Raise (length_exceeded "tokens_0" (Z.of_nat n0) (max_positions (encoder_0 self))))
  ∧ ((Z.of_nat n0 ≤ max_positions (encoder_0 self))%Z →
     (Z.of_nat n1 > max_positions (encoder_1 self))%Z →
     myextract_features_separate self tokens_0 tokens_1 return_all_hiddens name
     = Raise (length_exceeded "tokens_1" (Z.of_nat n1) (max_positions (encoder_1 self))))
  ∧ ((Z.of_nat n0 ≤ max_positions (encoder_0 self))%Z →
     (Z.of_nat n1 ≤ max_positions (encoder_1 self))%Z →
     no_ValueError
       (myextract_features_separate self tokens_0 tokens_1 return_all_hiddens name)).
Proof.
  intros Hn0 Hn1. unfold myextract_features_separate.
  rewrite (size_last_normalised _ _ Hn0), (size_last_normalised _ _ Hn1). simpl.
  split_and!.
  - intros Hgt. by rewrite decide_True.
  - intros Hle Hgt. rewrite decide_False by lia. by rewrite decide_True.
  - intros Hle0 Hle1. rewrite !decide_False by lia.
    apply no_ValueError_bind; [apply no_ValueError_forward|].
    intros [x_0|features [b|t] extra_1]; try (by intros msg);
      destruct return_all_hiddens; by intros msg.
Qed.

Lemma myextract_features_separate_length_check_witness :
  myextract_features_separate Sample.dti (Sample.tokens 513) (Sample.tokens 4)
    false (Some "h")
  = Raise (ValueError "tokens_0 exceeds maximum length: 513 > 512")
  ∧ myextract_features_separate Sample.dti (Sample.tokens 512) (Sample.tokens 1025)
      false (Some "h")
    = Raise (ValueError "tokens_1 exceeds maximum length: 1025 > 1024")
  ∧ no_ValueError
      (myextract_features_separate Sample.dti (Sample.tokens 512) (Sample.tokens 1024)
         false (Some "h")).
Proof.
  split_and!.
  - apply (myextract_features_separate_length_check Sample.dti (Sample.tokens 513)
             (Sample.tokens 4) false (Some "h") 513 4 eq_refl eq_refl).
    simpl. lia.
  - apply (myextract_features_separate_length_check Sample.dti (Sample.tokens 512)
             (Sample.tokens 1025) false (Some "h") 512 1025 eq_refl eq_refl);
      simpl; lia.
  - apply (myextract_features_separate_length_check Sample.dti (Sample.tokens 512)
             (Sample.tokens 1024) false (Some "h") 512 1024 eq_refl eq_refl);
      simpl; lia.
Defined.

(** ** Weight transfer *)

Section PyDictFacts.
Context {V : Type}.
Implicit Types (d : pydict V) (k : string).

Lemma dict_get_is_Some d k : k ∈ dict_keys d → is_Some (dict_get d k).
Proof.
  unfold dict_keys. induction d as [|[k' v] d IH]; simpl.
  - by intros ?%elem_of_nil.
  - intros Hin. destruct (decide (k' = k)) as [->|Hne]; [by eexists|].
    apply IH. apply elem_of_cons in Hin as [->|Hin]; done.
Qed.

Lemma dict_get_None d k : k ∉ dict_keys d → dict_get d k = None.
Proof.
  unfold dict_keys. induction d as [|[k' v] d IH]; simpl; [done|].
  intros Hnin. apply not_elem_of_cons in Hnin as [Hne Hnin].
  rewrite decide_False by done. by apply IH.
Qed.

Lemma rename_key_Ok d old new : ∃ d', rename_key d old new = Ok d'.
Proof.
  unfold rename_key, dict_contains, dict_pop.
  destruct (bool_decide_reflect (old ∈ dict_keys d)) as [Hin|Hnin]; [|by eexists].
  destruct (dict_get_is_Some _ _ Hin) as [v ->]. simpl. by eexists.
Qed.
End PyDictFacts.

Section TransferFacts.
Context {V : Type}.
Implicit Types (src : pydict V) (sd : gmap string V) (keys : list string).

#[local] Arguments drop_chars : simpl never.
#[local] Arguments String.prefix : simpl never.
#[local] Arguments String.length : simpl never.

Lemma transfer_key_Ok src sd i key :
  key ∈ dict_keys src →
  ∃ sd' i', transfer_key src (Ok (sd, i)) key = Ok (sd', i') ∧ dom sd' = dom sd.
Proof.
  intros Hin. unfold transfer_key.
  change (String.length "encoder" + 1)%nat with 8%nat. simpl.
  destruct (String.prefix "encoder" key); [|by eexists _, _].
  destruct (bool_decide_reflect (is_Some (sd !! drop_chars 8 key))) as [Hsome|Hnone];
    [|by eexists _, _].
  destruct (dict_get_is_Some _ _ Hin) as [v ->]. simpl.
  eexists _, _. split; [done|].
  rewrite dom_insert_L. apply elem_of_dom in Hsome.
  by apply subseteq_union_1_L, singleton_subseteq_l.
Qed.

Lemma transfer_fold_Ok src keys sd i :
  Forall (λ key, key ∈ dict_keys src) keys →
  ∃ sd' i', foldl (transfer_key src) (Ok (sd, i)) keys = Ok (sd', i')
            ∧ dom sd' = dom sd.
Proof.
  intros Hkeys. revert sd i.
  induction Hkeys as [|key keys Hin _ IH]; intros sd i; cbn [foldl]; [by eexists _, _|].
  destruct (transfer_key_Ok src sd i key Hin) as (sd1 & i1 & -> & Hdom1).
  destruct (IH sd1 i1) as (sd' & i' & -> & Hdom). eexists _, _.
  split; [done|]. by rewrite Hdom.
Qed.

Lemma transfer_Ok src sd :
  ∃ sd' n, transfer src sd = Ok (sd', n) ∧ dom sd' = dom sd.
Proof. apply transfer_fold_Ok. by apply Forall_forall. Qed.

(** A checkpoint none of whose keys leads to a key of the target. *)
Lemma transfer_fold_no_overlap src keys sd i :
  Forall (λ key, String.prefix "encoder" key = true →
                 sd !! drop_chars 8 key = None) keys →
  foldl (transfer_key src) (Ok (sd, i)) keys = Ok (sd, i).
Proof.
  induction 1 as [|key keys Hkey _ IH]; cbn [foldl]; [done|].
  replace (transfer_key src (Ok (sd, i)) key) with (Ok (A:=gmap string V * nat) (sd, i));
    [done|].
  unfold transfer_key.
  change (String.length "encoder" + 1)%nat with 8%nat. simpl.
  destruct (String.prefix "encoder" key); [|done].
  rewrite Hkey by done. by rewrite bool_decide_eq_false_2 by (by intros [??]).
Qed.
End TransferFacts.

(** C10.  The state dict returned has the keys of the one passed in, no more
    and no fewer, whatever the checkpoint holds; and it is returned whenever
    the checkpoint file is there and has a ["model"] entry. *)
Theorem upgrade_state_dict_keys {V}
    (load_checkpoint_to_cpu : string → option (gmap string (pydict V)))
    (state_dict : gmap string V) (path : string) :
  (∀ state_dict' n,
     upgrade_state_dict_with_roberta_weights load_checkpoint_to_cpu state_dict path
     = Ok (state_dict', n) →
     dom state_dict' = dom state_dict)
  ∧ (∀ state roberta_state_dict,
       load_checkpoint_to_cpu path = Some state →
       state !! "model" = Some roberta_state_dict →
       ∃ state_dict' n,
         upgrade_state_dict_with_roberta_weights load_checkpoint_to_cpu state_dict path
         = Ok (state_dict', n)
         ∧ dom state_dict' = dom state_dict).
Proof.
  assert (∀ state roberta_state_dict,
            load_checkpoint_to_cpu path = Some state →
            state !! "model" = Some roberta_state_dict →
            ∃ state_dict' n,
              upgrade_state_dict_with_roberta_weights load_checkpoint_to_cpu state_dict path
              = Ok (state_dict', n)
              ∧ dom state_dict' = dom state_dict) as Hreturns.
  { intros state src Hload Hmodel.
    unfold upgrade_state_dict_with_roberta_weights, getitem.
    rewrite Hload. simpl. rewrite Hmodel. simpl.
    destruct (rename_key_Ok src "encoder.sentence_encoder.layernorm_embedding.weight"
                "encoder.sentence_encoder.emb_layer_norm.weight") as [src1 ->].
    simpl.
    destruct (rename_key_Ok src1 "encoder.sentence_encoder.layernorm_embedding.bias"
                "encoder.sentence_encoder.emb_layer_norm.bias") as [src2 ->].
    simpl. apply transfer_Ok. }
  split; [|done].
  intros sd' n Hrun.
  destruct (load_checkpoint_to_cpu path) as [state|] eqn:Hload.
  2:{ unfold upgrade_state_dict_with_roberta_weights in Hrun. by rewrite Hload in Hrun. }
  destruct (state !! "model") as [src|] eqn:Hmodel.
  2:{ unfold upgrade_state_dict_with_roberta_weights, getitem in Hrun.
      rewrite Hload in Hrun. simpl in Hrun. by rewrite Hmodel in Hrun. }
  destruct (Hreturns state src eq_refl Hmodel) as (sd'' & n' & Hrun' & Hdom).
  rewrite Hrun in Hrun'. by injection Hrun' as -> ->.
Qed.

Lemma prefix_drop_chars (p s : string) :
  String.prefix p s = true → s = p +:+ drop_chars (String.length p) s.
Proof.
  revert s. induction p as [|a p IH]; intros s; [done|].
  destruct s as [|b s]; [done|]. cbn.
  destruct (Ascii.ascii_dec a b) as [->|]; [|done].
  intros Hp. change (String b s = String b (p +:+ drop_chars (String.length p) s)).
  f_equal. by apply IH.
Qed.

Lemma reaches_encoder_dot (k : string) : reaches ("encoder." +:+ k) k = true.
Proof. unfold reaches. cbn. by rewrite bool_decide_eq_true_2. Qed.


Section TransferLookup.
Context {V : Type}.
Implicit Types (src : pydict V) (sd : gmap string V) (keys : list string).

#[local] Arguments drop_chars : simpl never.
#[local] Arguments String.prefix : simpl never.
#[local] Arguments String.length : simpl never.

Lemma reaches_well_prefixed (key k : string) :
  reaches key k = true →
  String.prefix "encoder." key = true →
  key = "encoder." +:+ k.
Proof.
  unfold reaches. intros [_ Hk%bool_decide_eq_true_1]%andb_true_iff Hp.
  apply prefix_drop_chars in Hp. by rewrite <- Hk.
Qed.

Lemma source_for_cons key keys k :
  source_for (key :: keys) k
  = if reaches key k then Some (default key (source_for keys k))
    else source_for keys k.
Proof.
  unfold source_for. destruct (reaches key k) eqn:Hreach.
  - rewrite filter_cons_True by done. rewrite last_cons. by destruct (last _).
  - rewrite filter_cons_False; [done|]. by rewrite Hreach.
Qed.

Lemma source_for_elem keys k key :
  source_for keys k = Some key → key ∈ keys ∧ reaches key k = true.
Proof.
  unfold source_for. intros Hlast.
  apply last_Some in Hlast as [l Hl].
  assert (key ∈ filter (λ key, reaches key k = true) keys) as Hin.
  { rewrite Hl. apply elem_of_app. right. apply list_elem_of_here. }
  by apply list_elem_of_filter in Hin as [??].
Qed.

(** What the loop leaves under each key of the target. *)
Lemma transfer_fold_lookup src keys sd i :
  Forall (λ key, key ∈ dict_keys src) keys →
  ∃ sd' i', foldl (transfer_key src) (Ok (sd, i)) keys = Ok (sd', i')
    ∧ ∀ k, sd' !! k
           = (v ← sd !! k; Some (default v (source_for keys k ≫= dict_get src))).
Proof.
  intros Hkeys. revert sd i.
  induction Hkeys as [|key keys Hin Hkeys IH]; intros sd i; cbn [foldl].
  { eexists _, _. split; [done|]. intros k. by destruct (sd !! k). }
  assert (∃ sd1 i1, transfer_key src (Ok (sd, i)) key = Ok (sd1, i1)
            ∧ ∀ k, sd1 !! k
                   = (v ← sd !! k;
                      Some (if reaches key k then default v (dict_get src key) else v)))
    as (sd1 & i1 & -> & Hsd1).
  { unfold transfer_key, reaches.
    change (String.length "encoder" + 1)%nat with 8%nat. simpl.
    destruct (String.prefix "encoder" key); simpl.
    2:{ eexists _, _. split; [done|]. intros k. by destruct (sd !! k). }
    destruct (bool_decide_reflect (is_Some (sd !! drop_chars 8 key))) as [Hsome|Hnone].
    - destruct (dict_get_is_Some _ _ Hin) as [v Hv]. rewrite Hv. simpl.
      eexists _, _. split; [done|]. intros k.
      destruct (decide (drop_chars 8 key = k)) as [<-|Hne].
      + rewrite lookup_insert_eq, bool_decide_eq_true_2 by done.
        by destruct Hsome as [v' ->].
      + rewrite lookup_insert_ne, bool_decide_eq_false_2 by done.
        by destruct (sd !! k).
    - eexists _, _. split; [done|]. intros k.
      destruct (decide (drop_chars 8 key = k)) as [<-|Hne].
      + apply eq_None_not_Some in Hnone. by rewrite Hnone.
      + rewrite bool_decide_eq_false_2 by done. by destruct (sd !! k). }
  destruct (IH sd1 i1) as (sd' & i' & -> & Hsd').
  eexists _, _. split; [done|]. intros k.
  rewrite Hsd', Hsd1, source_for_cons.
  destruct (sd !! k) as [v|]; simpl; [|done].
  destruct (reaches key k); [|done]. simpl.
  destruct (source_for keys k) as [key'|] eqn:Hsource; simpl; [|done].
  apply source_for_elem in Hsource as [Hin' _].
  rewrite Forall_forall in Hkeys.
  by destruct (dict_get_is_Some src key' (Hkeys _ Hin')) as [v' ->].
Qed.

Lemma transfer_lookup src sd :
  ∃ sd' n, transfer src sd = Ok (sd', n)
    ∧ ∀ k, sd' !! k
           = (v ← sd !! k;
              Some (default v (source_for (dict_keys src) k ≫= dict_get src))).
Proof. apply transfer_fold_lookup. by apply Forall_forall. Qed.

(** On a checkpoint whose keys beginning with ["encoder"] all begin with
    ["encoder."], the loop is the transfer the spec describes. *)
Lemma transfer_spec_transfer src sd :
  Forall (λ key, String.prefix "encoder" key = true →
                 String.prefix "encoder." key = true) (dict_keys src) →
  ∃ n, transfer src sd = Ok (spec_transfer src sd, n).
Proof.
  intros Hwf. destruct (transfer_lookup src sd) as (sd' & n & Hrun & Hsd').
  exists n. rewrite Hrun. do 2 f_equal. apply map_eq. intros k.
  unfold spec_transfer. rewrite Hsd', map_lookup_imap.
  destruct (sd !! k) as [v|]; simpl; [|done]. do 2 f_equal.
  rewrite Forall_forall in Hwf.
  destruct (source_for (dict_keys src) k) as [key|] eqn:Hsource; simpl.
  - apply source_for_elem in Hsource as [Hin Hreach].
    rewrite (reaches_well_prefixed key k); [done..|].
    apply Hwf; [done|]. unfold reaches in Hreach.
    by apply andb_true_iff in Hreach as [??].
  - symmetry. apply dict_get_None. intros Hin.
    unfold source_for in Hsource. apply last_None in Hsource.
    assert ("encoder." +:+ k ∈ filter (λ key, reaches key k = true) (dict_keys src)) as Hf.
    { apply list_elem_of_filter. split; [apply reaches_encoder_dot|done]. }
    rewrite Hsource in Hf. by apply elem_of_nil in Hf.
Qed.
End TransferLookup.

Section RenameFacts.
Context {V : Type}.
Implicit Types (d : pydict V) (k : string).

Lemma dict_delete_keys d k k' :
  k' ∈ dict_keys (dict_delete d k) → k' ∈ dict_keys d.
Proof.
  unfold dict_keys. induction d as [|[k0 v0] d IH]; simpl; [done|].
  destruct (decide (k0 = k)); simpl.
  - apply list_elem_of_further.
  - rewrite !elem_of_cons. intros [->|Hin]; [by left|right; by apply IH].
Qed.

Lemma dict_set_keys d k v k' :
  k' ∈ dict_keys (dict_set d k v) → k' ∈ dict_keys d ∨ k' = k.
Proof.
  unfold dict_keys. induction d as [|[k0 v0] d IH]; simpl.
  - rewrite list_elem_of_singleton. by right.
  - destruct (decide (k0 = k)) as [->|Hne]; simpl; rewrite !elem_of_cons.
    + intros [->|Hin]; [by right|left; by right].
    + intros [->|Hin]; [left; by left|].
      destruct (IH Hin) as [?|?]; [left; by right|by right].
Qed.

Lemma dict_get_set d k v k' :
  dict_get (dict_set d k v) k' = if decide (k = k') then Some v else dict_get d k'.
Proof.
  induction d as [|[k0 v0] d IH]; simpl.
  - by destruct (decide (k = k')).
  - destruct (decide (k0 = k)) as [->|Hne]; simpl.
    + by destruct (decide (k = k')).
    + rewrite IH. destruct (decide (k0 = k')) as [->|?]; [|done].
      by rewrite decide_False by done.
Qed.

Lemma dict_get_delete_ne d k k' :
  k ≠ k' → dict_get (dict_delete d k) k' = dict_get d k'.
Proof.
  intros Hne. induction d as [|[k0 v0] d IH]; simpl; [done|].
  destruct (decide (k0 = k)) as [->|?]; simpl.
  - by rewrite decide_False by done.
  - by rewrite IH.
Qed.

Lemma dict_get_delete_eq d k :
  NoDup (dict_keys d) → dict_get (dict_delete d k) k = None.
Proof.
  unfold dict_keys. induction d as [|[k0 v0] d IH]; simpl; [done|].
  intros [Hnin Hnd]%NoDup_cons.
  destruct (decide (k0 = k)) as [->|Hne]; simpl.
  - by apply dict_get_None.
  - rewrite decide_False by done. by apply IH.
Qed.

(** What a rename leaves in a dictionary with each key once. *)
Lemma rename_key_get d old new d' k :
  NoDup (dict_keys d) →
  old ≠ new →
  rename_key d old new = Ok d' →
  dict_get d' k
  = match dict_get d old with
    | Some v => if decide (k = new) then Some v
                else if decide (k = old) then None else dict_get d k
    | None => dict_get d k
    end.
Proof.
  intros Hnd Hne. unfold rename_key, dict_contains, dict_pop.
  destruct (bool_decide_reflect (old ∈ dict_keys d)) as [Hin|Hnin].
  - destruct (dict_get_is_Some _ _ Hin) as [v ->]. simpl. intros [= <-].
    rewrite dict_get_set.
    destruct (decide (new = k)) as [->|?]; [by rewrite decide_True|].
    rewrite decide_False by done.
    destruct (decide (k = old)) as [->|?]; [by apply dict_get_delete_eq|].
    by apply dict_get_delete_ne.
  - intros [= <-]. by rewrite (dict_get_None _ _ Hnin).
Qed.

Lemma rename_key_keys d old new d' k :
  rename_key d old new = Ok d' →
  k ∈ dict_keys d' → k ∈ dict_keys d ∨ k = new.
Proof.
  unfold rename_key, dict_contains, dict_pop.
  destruct (bool_decide (old ∈ dict_keys d)); [|intros [= <-]; by left].
  destruct (dict_get d old) as [v|]; simpl; [|done].
  intros [= <-] [Hin| ->]%dict_set_keys; [left|by right].
  by eapply dict_delete_keys.
Qed.
End RenameFacts.

Section UpgradeFacts.
Context {V : Type}.
Context (load_checkpoint_to_cpu : string → option (gmap string (pydict V))).
Implicit Types (src : pydict V) (sd : gmap string V).

(** The dictionary the loop runs over: the checkpoint's, after the two
    renames. *)
Lemma upgrade_state_dict_unfold sd path state src :
  load_checkpoint_to_cpu path = Some state →
  state !! "model" = Some src →
  ∃ renamed_weight renamed,
    rename_key src "encoder.sentence_encoder.layernorm_embedding.weight"
      "encoder.sentence_encoder.emb_layer_norm.weight" = Ok renamed_weight
    ∧ rename_key renamed_weight "encoder.sentence_encoder.layernorm_embedding.bias"
        "encoder.sentence_encoder.emb_layer_norm.bias" = Ok renamed
    ∧ upgrade_state_dict_with_roberta_weights load_checkpoint_to_cpu sd path
      = transfer renamed sd
    ∧ ∀ key, key ∈ dict_keys renamed →
        key ∈ dict_keys src
        ∨ key = "encoder.sentence_encoder.emb_layer_norm.weight"
        ∨ key = "encoder.sentence_encoder.emb_layer_norm.bias".
Proof.
  intros Hload Hmodel. unfold upgrade_state_dict_with_roberta_weights, getitem.
  rewrite Hload. simpl. rewrite Hmodel. simpl.
  destruct (rename_key_Ok src "encoder.sentence_encoder.layernorm_embedding.weight"
              "encoder.sentence_encoder.emb_layer_norm.weight") as [src1 Hsrc1].
  rewrite Hsrc1. simpl.
  destruct (rename_key_Ok src1 "encoder.sentence_encoder.layernorm_embedding.bias"
              "encoder.sentence_encoder.emb_layer_norm.bias") as [src2 Hsrc2].
  rewrite Hsrc2. simpl. exists src1, src2. split_and!; [done..|]. intros key Hin.
  destruct (rename_key_keys _ _ _ _ _ Hsrc2 Hin) as [Hin1| ->]; [|right; by right].
  destruct (rename_key_keys _ _ _ _ _ Hsrc1 Hin1) as [Hin0| ->]; [by left|right; by left].
Qed.
End UpgradeFacts.

(** C5.  On a checkpoint whose keys that begin with ["encoder"] all begin
    with ["encoder."], the function overwrites exactly the target keys that
    follow ["encoder."] in a checkpoint key (after the two legacy renames)
    and leaves the others; and when no checkpoint key leads to a target key
    the target comes back as it was, with a count of 0.  But the prefix the
    code tests is ["encoder"], without the dot, and it then drops eight
    characters whatever the eighth is: the key ["encoderXa"] overwrites the
    target key ["a"], which the transfer of the spec leaves alone. *)
Theorem upgrade_state_dict_matching {V} :
  (∀ load_checkpoint_to_cpu (state_dict : gmap string V) path state roberta_state_dict,
     load_checkpoint_to_cpu path = Some state →
     state !! "model" = Some roberta_state_dict →
     Forall (λ key, String.prefix "encoder" key = true →
                    String.prefix "encoder." key = true)
       (dict_keys roberta_state_dict) →
     ∃ renamed_weight renamed n,
       rename_key roberta_state_dict "encoder.sentence_encoder.layernorm_embedding.weight"
         "encoder.sentence_encoder.emb_layer_norm.weight" = Ok renamed_weight
       ∧ rename_key renamed_weight "encoder.sentence_encoder.layernorm_embedding.bias"
           "encoder.sentence_encoder.emb_layer_norm.bias" = Ok renamed
       ∧ upgrade_state_dict_with_roberta_weights load_checkpoint_to_cpu state_dict path
         = Ok (spec_transfer renamed state_dict, n))
  ∧ (∀ load_checkpoint_to_cpu (state_dict : gmap string V) path state roberta_state_dict,
       load_checkpoint_to_cpu path = Some state →
       state !! "model" = Some roberta_state_dict →
       (∀ key k, reaches key k = true → is_Some (state_dict !! k) →
          (key ∉ dict_keys roberta_state_dict)
          ∧ key ≠ "encoder.sentence_encoder.emb_layer_norm.weight"
          ∧ key ≠ "encoder.sentence_encoder.emb_layer_norm.bias") →
       upgrade_state_dict_with_roberta_weights load_checkpoint_to_cpu state_dict path
       = Ok (state_dict, 0%nat))
  ∧ (∀ old new : V,
       upgrade_state_dict_with_roberta_weights
         (λ _, Some {["model" := [("encoderXa", new)]]}) {["a" := old]} "odd.pt"
       = Ok ({["a" := new]}, 1%nat)
       ∧ spec_transfer [("encoderXa", new)] {["a" := old]} = {["a" := old]}).
Proof.
  split_and!.
  - intros load sd path state src Hload Hmodel Hwf.
    destruct (upgrade_state_dict_unfold load sd path state src Hload Hmodel)
      as (renamed_weight & renamed & Hweight & Hbias & -> & Hkeys).
    destruct (transfer_spec_transfer renamed sd) as [n Hrun].
    { rewrite Forall_forall in Hwf. apply Forall_forall. intros key Hin Hp.
      destruct (Hkeys key Hin) as [Hsrc|[->| ->]]; [by apply Hwf|done..]. }
    by exists renamed_weight, renamed, n.
  - intros load sd path state src Hload Hmodel Hnone.
    destruct (upgrade_state_dict_unfold load sd path state src Hload Hmodel)
      as (renamed_weight & renamed & _ & _ & -> & Hkeys).
    apply transfer_fold_no_overlap. apply Forall_forall. intros key Hin Hp.
    apply eq_None_not_Some. intros Hsome.
    destruct (Hnone key (drop_chars 8 key)) as (Hsrc & Hw & Hb); [|done|].
    { unfold reaches. rewrite Hp. simpl. by apply bool_decide_eq_true_2. }
    by destruct (Hkeys key Hin) as [?|[?|?]].
  - intros old new. split; reflexivity.
Qed.

Lemma upgrade_state_dict_matching_witness :
  (∃ n,
     upgrade_state_dict_with_roberta_weights Sample.files Sample.target "roberta.pt"
     = Ok ({["sentence_encoder.emb_layer_norm.weight" := 11%nat;
             "sentence_encoder.embed_tokens.weight" := 12%nat;
             "lm_head.bias" := 3%nat]}, n))
  ∧ upgrade_state_dict_with_roberta_weights Sample.files {["lm_head.bias" := 3%nat]}
      "roberta.pt"
    = Ok ({["lm_head.bias" := 3%nat]}, 0%nat)
  ∧ upgrade_state_dict_with_roberta_weights Sample.files {["a" := 1%nat]} "odd.pt"
    = Ok ({["a" := 7%nat]}, 1%nat).
Proof.
  destruct (@upgrade_state_dict_matching nat) as (Hspec & Hnone & Hodd).
  assert (Sample.files "roberta.pt" = Some {["model" := Sample.roberta_checkpoint]})
    as Hload by reflexivity.
  assert (({["model" := Sample.roberta_checkpoint]} : gmap string (pydict nat)) !! "model"
          = Some Sample.roberta_checkpoint) as Hmodel by reflexivity.
  split_and!.
  - assert (Forall (λ key, String.prefix "encoder" key = true →
                           String.prefix "encoder." key = true)
              (dict_keys Sample.roberta_checkpoint)) as Hwf.
    { unfold dict_keys. simpl.
      repeat (apply Forall_cons_2; [by vm_compute|]). apply Forall_nil_2. }
    destruct (Hspec Sample.files Sample.target "roberta.pt" _ _ Hload Hmodel Hwf)
      as (renamed_weight & renamed & n & Hweight & Hbias & Hrun).
    injection Hweight as <-. injection Hbias as <-.
    exists n. rewrite Hrun. reflexivity.
  - apply (Hnone Sample.files {["lm_head.bias" := 3%nat]} "roberta.pt" _ _ Hload Hmodel).
    intros key k Hreach [v Hv].
    apply lookup_singleton_Some in Hv as [<- _].
    split_and!.
    + unfold dict_keys. simpl. rewrite !elem_of_cons, elem_of_nil.
      intros [->|[->|[->|[]]]]; by vm_compute in Hreach.
    + intros ->. by vm_compute in Hreach.
    + intros ->. by vm_compute in Hreach.
  - apply (Hodd 1%nat 7%nat).
Defined.

Lemma upgrade_state_dict_keys_witness :
  (∃ state_dict' n,
     upgrade_state_dict_with_roberta_weights Sample.files Sample.target "roberta.pt"
     = Ok (state_dict', n)
     ∧ dom state_dict' = dom Sample.target)
  ∧ dom ({["a" := 7%nat]} : gmap string nat) = dom ({["a" := 1%nat]} : gmap string nat).
Proof.
  split.
  - destruct (upgrade_state_dict_keys Sample.files Sample.target "roberta.pt")
      as [_ Hreturns].
    apply (Hreturns {["model" := Sample.roberta_checkpoint]} Sample.roberta_checkpoint);
      reflexivity.
  - destruct (upgrade_state_dict_keys Sample.files {["a" := 1%nat]} "odd.pt")
      as [Hkeys _].
    apply (Hkeys {["a" := 7%nat]} 1%nat). reflexivity.
Defined.

(** ** Freezing *)

Section FreezeFacts.
Implicit Types (rg : grad_flags) (ps : list positive) (p : positive).

Lemma no_grad_app rg ps1 ps2 : no_grad rg (ps1 ++ ps2) = no_grad (no_grad rg ps1) ps2.
Proof. apply foldl_app. Qed.

Lemma no_grad_lookup rg ps p :
  no_grad rg ps !! p = if decide (p ∈ ps) then Some false else rg !! p.
Proof.
  revert rg. induction ps as [|q ps IH]; intros rg.
  - destruct (decide (p ∈ [])) as [Hin|_]; [|done]. by apply elem_of_nil in Hin.
  - change (no_grad rg (q :: ps)) with (no_grad (<[q:=false]> rg) ps).
    rewrite IH.
    destruct (decide (p ∈ ps)) as [Hin|Hnin], (decide (p ∈ q :: ps)) as [Hin'|Hnin'];
      try done.
    + exfalso. apply Hnin'. by right.
    + apply elem_of_cons in Hin' as [->|?]; [|done]. by rewrite lookup_insert_eq.
    + rewrite lookup_insert_ne; [done|]. intros <-. apply Hnin'. by left.
Qed.

(** A loop over [enumerate] that freezes [f x] up to index [n] and [g x]
    beyond it. *)
Lemma foldl_enumerate_cutoff {A} (n : nat) (f g : A → list positive)
    (step : grad_flags → nat * A → grad_flags) (l : list A) (k : nat) rg :
  (∀ rg i x, step rg (i, x)
             = if decide (i ≤ n)%nat then no_grad rg (f x) else no_grad rg (g x)) →
  foldl step rg (imap (λ i x, ((k + i)%nat, x)) l)
  = no_grad rg (concat (map f (take (S n - k) l))
                ++ concat (map g (drop (S n - k) l))).
Proof.
  intros Hstep. revert k rg.
  induction l as [|x l IH]; intros k rg.
  { by rewrite take_nil, drop_nil. }
  cbn [imap foldl]. rewrite Hstep.
  rewrite (imap_ext _ (λ i x, ((S k + i)%nat, x))) by (intros i y _; simpl; f_equal; lia).
  rewrite IH. destruct (decide (k + 0 ≤ n)%nat) as [Hle|Hgt].
  - replace (S n - k)%nat with (S (S n - S k)) by lia. cbn [take drop map concat].
    rewrite <- app_assoc. symmetry. apply no_grad_app.
  - replace (S n - k)%nat with 0%nat by lia.
    replace (S n - S k)%nat with 0%nat by lia.
    cbn [take drop map concat app]. symmetry. apply no_grad_app.
Qed.

Lemma freeze_frozen_prefix rg (m : module) : freeze rg m = no_grad rg (frozen_prefix m).
Proof.
  unfold freeze, frozen_prefix, enumerate.
  apply (foldl_enumerate_cutoff 3 parameters
           (λ child, concat (map parameters (take 12 (children child)))) _ _ 0).
  intros rg' i child. destruct (decide (i ≤ 3)%nat); [done|].
  rewrite (foldl_enumerate_cutoff 11 parameters (λ _, []) _ _ 0).
  - change (12 - 0)%nat with 12%nat.
    rewrite no_grad_app.
    replace (concat (map (λ _ : module, []) (drop 12 (children child))))
      with (@nil positive); [done|].
    by induction (drop 12 (children child)).
  - intros rg'' j cc. by destruct (decide (j ≤ 11)%nat).
Qed.

Lemma freeze_lookup rg (m : module) p :
  freeze rg m !! p = if decide (p ∈ frozen_prefix m) then Some false else rg !! p.
Proof. by rewrite freeze_frozen_prefix, no_grad_lookup. Qed.
End FreezeFacts.

(** ** Building the model *)

Section BuildFacts.
Context `{Scalar F} {V dictionary : Type}.
Context (roberta_base_architecture : namespace F → namespace F)
        (DTIRobertaEncoder : namespace F → dictionary → pyattr F → encoder F)
        (state_dict : encoder F → gmap string V)
        (load_state_dict : encoder F → gmap string V → encoder F)
        (load_checkpoint_to_cpu : string → option (gmap string (pydict V))).

Local Abbreviation build :=
  (build_model roberta_base_architecture DTIRobertaEncoder state_dict
     load_state_dict load_checkpoint_to_cpu).
Local Abbreviation MoleculeEncoder :=
  (MoleculeEncoderFromPretrainedRoberta DTIRobertaEncoder state_dict
     load_state_dict load_checkpoint_to_cpu).
Local Abbreviation ProteinEncoder :=
  (ProteinEncoderFromPretrainedRoberta DTIRobertaEncoder state_dict
     load_state_dict load_checkpoint_to_cpu).

Lemma hasattr_false (a : namespace F) name : a !! name = None → hasattr a name = false.
Proof. intros Hnone. unfold hasattr. rewrite Hnone. by apply bool_decide_eq_false_2, is_Some_None. Qed.

Lemma hasattr_true (a : namespace F) name v : a !! name = Some v → hasattr a name = true.
Proof. intros Hsome. unfold hasattr. rewrite Hsome. by apply bool_decide_eq_true_2. Qed.

(** A constructor reads the limit of its branch from [args], and nowhere
    else. *)
Lemma MoleculeEncoder_absent (a : namespace F) dict :
  a !! "max_positions_molecule" = None →
  MoleculeEncoder a dict = Raise (AttributeError "max_positions_molecule").
Proof.
  intros Hnone. unfold MoleculeEncoderFromPretrainedRoberta, getattr. by rewrite Hnone.
Qed.

Lemma ProteinEncoder_absent (a : namespace F) dict :
  a !! "max_positions_protein" = None →
  ProteinEncoder a dict = Raise (AttributeError "max_positions_protein").
Proof.
  intros Hnone. unfold ProteinEncoderFromPretrainedRoberta, getattr. by rewrite Hnone.
Qed.

Lemma MoleculeEncoder_Ok (a : namespace F) dict e :
  MoleculeEncoder a dict = Ok e →
  ∃ v, a !! "max_positions_molecule" = Some v
    ∧ (e = DTIRobertaEncoder a dict v
       ∨ ∃ sd, e = load_state_dict (DTIRobertaEncoder a dict v) sd).
Proof.
  unfold MoleculeEncoderFromPretrainedRoberta, getattr.
  destruct (a !! "max_positions_molecule") as [v|]; simpl; [|done].
  intros Hrun. exists v. split; [done|].
  destruct (truthy _); [left; by injection Hrun|].
  destruct (negb _); [done|].
  destruct (a !! "pretrained_molecule_roberta_checkpoint") as [[| | | |path]|];
    simpl in Hrun; try done.
  destruct (upgrade_state_dict_with_roberta_weights _ _ _) as [[sd n]|];
    simpl in Hrun; [|done].
  right. exists sd. by injection Hrun.
Qed.

Lemma ProteinEncoder_Ok (a : namespace F) dict e :
  ProteinEncoder a dict = Ok e →
  ∃ v, a !! "max_positions_protein" = Some v
    ∧ (e = DTIRobertaEncoder a dict v
       ∨ ∃ sd, e = load_state_dict (DTIRobertaEncoder a dict v) sd).
Proof.
  unfold ProteinEncoderFromPretrainedRoberta, getattr.
  destruct (a !! "max_positions_protein") as [v|]; simpl; [|done].
  intros Hrun. exists v. split; [done|].
  destruct (truthy _); [left; by injection Hrun|].
  destruct (negb _); [done|].
  destruct (a !! "pretrained_protein_roberta_checkpoint") as [[| | | |path]|];
    simpl in Hrun; try done.
  destruct (upgrade_state_dict_with_roberta_weights _ _ _) as [[sd n]|];
    simpl in Hrun; [|done].
  right. exists sd. by injection Hrun.
Qed.

(** A model that was built: both limits were among the arguments, no
    default was written, and the flags are those of the two freezing
    loops. *)
Lemma build_model_Ok a task rg m rg' :
  build a task rg = Ok (m, rg') →
  args m = roberta_base_architecture a
  ∧ MoleculeEncoder (args m) (source_dictionary_0 task) = Ok (encoder_0 m)
  ∧ ProteinEncoder (args m) (source_dictionary_1 task) = Ok (encoder_1 m)
  ∧ rg' = freeze (freeze rg (sentence_encoder (encoder_0 m)))
            (sentence_encoder (encoder_1 m)).
Proof.
  unfold build_model, base_architecture.
  destruct (negb (hasattr a "pretrained_molecule_roberta_checkpoint")); [done|].
  destruct (negb (hasattr a "pretrained_protein_roberta_checkpoint")); [done|].
  destruct (_ && _); [done|].
  set (a' := roberta_base_architecture a). cbv zeta.
  destruct (a' !! "max_positions_molecule") as [v0|] eqn:Hmol.
  2:{ rewrite (hasattr_false _ _ Hmol). simpl.
      rewrite MoleculeEncoder_absent; [done|].
      destruct (negb _); by rewrite ?lookup_insert_ne. }
  rewrite (hasattr_true _ _ _ Hmol). simpl.
  destruct (a' !! "max_positions_protein") as [v1|] eqn:Hpro.
  2:{ rewrite (hasattr_false _ _ Hpro). simpl.
      rewrite ProteinEncoder_absent by (by rewrite lookup_insert_ne).
      by destruct (MoleculeEncoder _ _). }
  rewrite (hasattr_true _ _ _ Hpro). simpl.
  destruct (MoleculeEncoder a' _) as [e0|] eqn:He0; simpl; [|done].
  destruct (ProteinEncoder a' _) as [e1|] eqn:He1; simpl; [|done].
  by intros [= <- <-].
Qed.
End BuildFacts.

(** C6.  The two defaults do not become the limits of the branches.  When
    the arguments (after the architecture defaults) carry no
    [max_positions_molecule], [build_model] stores 512 under another name,
    [max_source_positions], and the molecule constructor, which reads
    [args.max_positions_molecule], raises [AttributeError]; a model is built
    only when both limits are among the arguments, and then no default is
    written and each encoder is constructed with the value supplied. *)
Theorem build_model_default_positions `{Scalar F} {V dictionary : Type}
    (roberta_base_architecture : namespace F → namespace F)
    (DTIRobertaEncoder : namespace F → dictionary → pyattr F → encoder F)
    (state_dict : encoder F → gmap string V)
    (load_state_dict : encoder F → gmap string V → encoder F)
    (load_checkpoint_to_cpu : string → option (gmap string (pydict V)))
    (a : namespace F) (task : task dictionary) (rg : grad_flags) :
  hasattr a "pretrained_molecule_roberta_checkpoint" = true →
  hasattr a "pretrained_protein_roberta_checkpoint" = true →
  truthy (getattr_default a "init_molecule_encoder_only" (PBool false))
  && truthy (getattr_default a "init_protein_encoder_only" (PBool false)) = false →
  (roberta_base_architecture a !! "max_positions_molecule" = None →
   build_model roberta_base_architecture DTIRobertaEncoder state_dict load_state_dict
     load_checkpoint_to_cpu a task rg
   = Raise (AttributeError "max_positions_molecule"))
  ∧ (∀ m rg',
       build_model roberta_base_architecture DTIRobertaEncoder state_dict load_state_dict
         load_checkpoint_to_cpu a task rg
       = Ok (m, rg') →
       args m = roberta_base_architecture a
       ∧ ∃ v0 v1,
           args m !! "max_positions_molecule" = Some v0
           ∧ args m !! "max_positions_protein" = Some v1
           ∧ (encoder_0 m = DTIRobertaEncoder (args m) (source_dictionary_0 task) v0
              ∨ ∃ sd, encoder_0 m
                      = load_state_dict
                          (DTIRobertaEncoder (args m) (source_dictionary_0 task) v0) sd)
           ∧ (encoder_1 m = DTIRobertaEncoder (args m) (source_dictionary_1 task) v1
              ∨ ∃ sd, encoder_1 m
                      = load_state_dict
                          (DTIRobertaEncoder (args m) (source_dictionary_1 task) v1) sd)).
Proof.
  intros Hmol Hpro Hinit. split.
  - intros Hnone. unfold build_model, base_architecture.
    rewrite Hmol, Hpro, Hinit. simpl.
    rewrite (hasattr_false _ _ Hnone). simpl.
    rewrite MoleculeEncoder_absent; [done|].
    destruct (negb _); by rewrite ?lookup_insert_ne.
  - intros m rg' (Hargs & He0 & He1 & _)%build_model_Ok. split; [done|].
    apply MoleculeEncoder_Ok in He0 as (v0 & Hv0 & He0).
    apply ProteinEncoder_Ok in He1 as (v1 & Hv1 & He1).
    by exists v0, v1.
Qed.

Lemma build_model_default_positions_witness :
  Sample.build Sample.bare_args ∅ = Raise (AttributeError "max_positions_molecule")
  ∧ ∀ m rg', Sample.build Sample.full_args Sample.all_tracked = Ok (m, rg') →
      args m = Sample.full_args.
Proof.
  split.
  - apply (build_model_default_positions (λ a, a) Sample.make_encoder
             (λ _, Sample.target) (λ self _, self) Sample.files
             Sample.bare_args Sample.dictionaries ∅);
      reflexivity.
  - intros m rg' Hrun.
    apply (build_model_default_positions (λ a, a) Sample.make_encoder
             (λ _, Sample.target) (λ self _, self) Sample.files
             Sample.full_args Sample.dictionaries Sample.all_tracked
             eq_refl eq_refl eq_refl) in Hrun as [Hargs _].
    exact Hargs.
Defined.

(** C8.  When [build_model] returns, gradient tracking is off for every
    parameter of the first 4 children of the sentence encoder of either
    branch and, within each later child, for every parameter of its first 12
    children; the flag of every other parameter is what it was, so one that
    was tracked still is. *)
Theorem build_model_freezes `{Scalar F} {V dictionary : Type}
    (roberta_base_architecture : namespace F → namespace F)
    (DTIRobertaEncoder : namespace F → dictionary → pyattr F → encoder F)
    (state_dict : encoder F → gmap string V)
    (load_state_dict : encoder F → gmap string V → encoder F)
    (load_checkpoint_to_cpu : string → option (gmap string (pydict V)))
    (a : namespace F) (task : task dictionary) (rg rg' : grad_flags) (m : model F) :
  build_model roberta_base_architecture DTIRobertaEncoder state_dict load_state_dict
    load_checkpoint_to_cpu a task rg
  = Ok (m, rg') →
  ∀ p : positive,
    (p ∈ frozen_prefix (sentence_encoder (encoder_0 m))
     ∨ p ∈ frozen_prefix (sentence_encoder (encoder_1 m)) →
     rg' !! p = Some false)
    ∧ (p ∉ frozen_prefix (sentence_encoder (encoder_0 m)) →
       p ∉ frozen_prefix (sentence_encoder (encoder_1 m)) →
       rg' !! p = rg !! p).
Proof.
  intros (_ & _ & _ & ->)%build_model_Ok p. rewrite !freeze_lookup. split.
  - intros [Hin|Hin].
    + destruct (decide (p ∈ frozen_prefix (sentence_encoder (encoder_1 m)))); [done|].
      by rewrite decide_True.
    + by rewrite decide_True.
  - intros Hnin0 Hnin1. by rewrite !decide_False.
Qed.

Lemma build_model_freezes_witness :
  ∃ m rg',
    Sample.build Sample.full_args Sample.all_tracked = Ok (m, rg')
    ∧ rg' !! 1004%positive = Some false
    ∧ rg' !! 2016%positive = Some false
    ∧ rg' !! 1017%positive = Some true
    ∧ rg' !! 2050%positive = Some true.
Proof.
  destruct (Sample.build Sample.full_args Sample.all_tracked) as [[m rg']|e] eqn:Hrun;
    [|by vm_compute in Hrun].
  exists m, rg'. split; [done|].
  pose proof (build_model_freezes _ _ _ _ _ _ _ _ _ _ Hrun) as Hfrozen.
  assert (sentence_encoder (encoder_0 m) = Sample.sentence 1000
          ∧ sentence_encoder (encoder_1 m) = Sample.sentence 2000) as [Hse0 Hse1].
  { vm_compute in Hrun. injection Hrun as <- _. by vm_compute. }
  rewrite Hse0, Hse1 in Hfrozen. split_and!.
  - apply (Hfrozen 1004%positive). left. apply (bool_decide_unpack _). by vm_compute.
  - apply (Hfrozen 2016%positive). right. apply (bool_decide_unpack _). by vm_compute.
  - destruct (Hfrozen 1017%positive) as [_ Hkeep].
    rewrite Hkeep; [reflexivity|..]; apply (bool_decide_unpack _); by vm_compute.
  - destruct (Hfrozen 2050%positive) as [_ Hkeep].
    rewrite Hkeep; [reflexivity|..]; apply (bool_decide_unpack _); by vm_compute.
Defined.

(** * Further properties *)

(** ** The forward pass: what it raises, what it needs, what it returns *)

#[local] Arguments cat1 : simpl never.
#[local] Arguments vadd : simpl never.
#[local] Arguments smul : simpl never.
#[local] Arguments select_first : simpl never.
#[local] Arguments unsqueeze1 : simpl never.

Section RaisesOnly.
Context `{Scalar F}.

Lemma raises_only_Ok {A} P (a : A) : raises_only P (Ok a).
Proof. by intros e. Qed.

Lemma raises_only_Raise {A} (P : pyerr → Prop) e : P e → raises_only (A:=A) P (Raise e).
Proof. by intros HP e' [= <-]. Qed.

Lemma raises_only_bind {A B} P (r : result A) (f : A → result B) :
  raises_only P r → (∀ a, r = Ok a → raises_only P (f a)) → raises_only P (r ≫= f).
Proof.
  intros Hr Hf e. destruct r as [a|e']; simpl.
  - by apply Hf.
  - intros [= ->]. by apply Hr.
Qed.

Lemma raises_only_fmap {A B} P (r : result A) (f : A → B) :
  raises_only P r → raises_only P (f <$> r).
Proof. intros Hr e. destruct r as [a|e']; simpl; [done|]. intros [= ->]. by apply Hr. Qed.

Lemma raises_only_traverse {A B} P (f : A → result B) (l : list A) :
  (∀ a, raises_only P (f a)) → raises_only P (traverse f l).
Proof.
  intros Hf. induction l as [|a l IH]; simpl; [apply raises_only_Ok|].
  apply raises_only_bind; [done|]. intros b _.
  apply raises_only_bind; [done|]. intros bs _. apply raises_only_Ok.
Qed.

Lemma raises_only_broadcast {A B C} P (f : A → B → result C) l1 l2 :
  P RuntimeError → (∀ a b, raises_only P (f a b)) → raises_only P (broadcast f l1 l2).
Proof.
  intros HP Hf. unfold broadcast.
  destruct (decide _); [by apply raises_only_traverse|].
  destruct l1 as [|a [|a' l1]], l2 as [|b [|b' l2]];
    try (by apply raises_only_Raise); by apply raises_only_traverse.
Qed.

Lemma raises_only_vadd P (u v : pyval F) : P RuntimeError → raises_only P (vadd u v).
Proof.
  intros HP. unfold vadd. destruct u, v; try apply raises_only_Ok.
  apply raises_only_fmap, raises_only_broadcast; [done|]. intros r1 r2.
  apply raises_only_broadcast; [done|]. intros a b. apply raises_only_Ok.
Qed.

Lemma raises_only_cat1 P (u v : pyval F) :
  P RuntimeError → P TypeError → raises_only P (cat1 u v).
Proof.
  intros HR HT. unfold cat1. destruct u, v; try (by apply raises_only_Raise).
  destruct (decide _); [apply raises_only_Ok|by apply raises_only_Raise].
Qed.

Lemma raises_only_select_first P (x : tensor3 F) :
  P IndexError → raises_only P (select_first x).
Proof.
  intros HP. unfold select_first. apply raises_only_traverse. intros [|r l]; simpl;
    [by apply raises_only_Raise|apply raises_only_Ok].
Qed.
End RaisesOnly.


Section ForwardErrors.
Context `{Scalar F}.
Implicit Types (self : model F) (kw : forward_kwargs F).

Lemma forward_error_tensor self kw :
  forward_error self kw IndexError ∧ forward_error self kw RuntimeError
  ∧ forward_error self kw TypeError.
Proof. unfold forward_error. auto 10. Qed.

(** The part of [forward] under a named head, from the input on. *)
Lemma raises_only_head self kw name (input : result (tensor3 F)) :
  classification_head_name kw = Some name →
  raises_only (forward_error self kw) input →
  raises_only (forward_error self kw)
    (x ← input;
     scale ← getattr (args self) "grad_multiply";
     let x := GradMultiply_apply x scale in
     head ← getitem (classification_heads self) name;
     Ok (Some (head x))).
Proof.
  intros Hname Hinput. apply raises_only_bind; [done|]. intros x _.
  unfold getattr, getitem.
  destruct (args self !! "grad_multiply") as [scale|] eqn:Hscale; simpl.
  - destruct (classification_heads self !! name) as [head|] eqn:Hhead; simpl.
    + apply raises_only_Ok.
    + apply raises_only_Raise. unfold forward_error.
      do 5 right. exists name. by rewrite Hscale.
  - apply raises_only_Raise. unfold forward_error.
    do 4 right. left. by rewrite Hname.
Qed.
End ForwardErrors.

(** X1.  Whatever [forward] raises is an exception of a tensor operation
    ([IndexError], [RuntimeError], [TypeError]) or one of three of its own:
    [UnboundLocalError] for [x], and then no head was named;
    [AttributeError] for [grad_multiply], and then the arguments lack it;
    [KeyError] for the head name, and then no head is registered under it
    (and [grad_multiply] was there).  The encoders and the heads are the
    framework's and are taken as functions: what they may raise themselves
    is not counted. *)
Theorem forward_raises `{Scalar F} (self : model F) t0 t1 kw :
  raises_only (forward_error self kw) (forward self t0 t1 kw).
Proof.
  destruct (forward_error_tensor self kw) as (HI & HR & HT).
  unfold forward.
  destruct (get_only_mol_cls kw).
  { destruct (enc_call _ _ _ _). apply raises_only_bind.
    - by apply raises_only_select_first.
    - intros c _. apply raises_only_Ok. }
  destruct (use_only_mlp kw); simpl.
  - destruct (classification_head_name kw) as [name|] eqn:Hname.
    + apply raises_only_bind.
      * apply raises_only_head; [done|].
        destruct (_ =? _).
        -- repeat (apply raises_only_bind; [by auto using raises_only_vadd, raises_only_cat1|];
                   intros ? _).
           apply raises_only_Ok.
        -- apply raises_only_bind; [by apply raises_only_cat1|]. intros c _.
           apply raises_only_Ok.
      * intros [x|] Hx.
        -- simpl.
           repeat (apply raises_only_bind; [by apply raises_only_vadd|]; intros ? _).
           apply raises_only_Ok.
        -- apply raises_only_Raise. unfold forward_error. do 3 right. left.
           exfalso. revert Hx. clear.
           destruct (if _ =? _ then _ else _); simpl; [|done].
           unfold getattr, getitem.
           destruct (args self !! _); simpl; [|done].
           by destruct (classification_heads self !! _).
    + simpl. apply raises_only_Raise. unfold forward_error. do 3 right. by left.
  - destruct (enc_call (encoder_0 self) _ _ _) as [x_0 extra_0].
    destruct (enc_call (encoder_1 self) _ _ _) as [x_1 extra_1].
    destruct (classification_head_name kw) as [name|] eqn:Hname.
    + apply raises_only_bind.
      * apply raises_only_head; [done|].
        destruct (_ =? _);
          repeat (apply raises_only_bind;
                    [by auto using raises_only_vadd, raises_only_cat1,
                          raises_only_select_first|];
                  intros ? _);
          apply raises_only_Ok.
      * intros [x|] Hx.
        -- simpl.
           repeat (apply raises_only_bind; [by apply raises_only_select_first|];
                   intros ? _).
           apply raises_only_Ok.
        -- exfalso. revert Hx. clear.
           destruct (if _ =? _ then _ else _); simpl; [|done].
           unfold getattr, getitem.
           destruct (args self !! _); simpl; [|done].
           by destruct (classification_heads self !! _).
    + simpl. apply raises_only_Raise. unfold forward_error. do 3 right. by left.
Qed.

(** What a returning call outside the short-circuit mode went through. *)
Lemma forward_Ok_head `{Scalar F} (self : model F) t0 t1 kw v :
  get_only_mol_cls kw = false →
  forward self t0 t1 kw = Ok v →
  ∃ name head scale input out_0 out_1,
    classification_head_name kw = Some name
    ∧ classification_heads self !! name = Some head
    ∧ args self !! "grad_multiply" = Some scale
    ∧ v = RetTriple (head input) out_0 out_1.
Proof.
  intros Hmol. unfold forward. rewrite Hmol.
  assert (∀ name (input : result (tensor3 F)) (k : tensor3 F → result (forward_ret F)),
            (x ← (x ← input;
                  scale ← getattr (args self) "grad_multiply";
                  let x := GradMultiply_apply x scale in
                  head ← getitem (classification_heads self) name;
                  Ok (Some (head x)));
             x ← from_option (UnboundLocalError "x") x; k x) = Ok v →
            (∀ x, k x = Ok v → ∃ out_0 out_1, v = RetTriple x out_0 out_1) →
            ∃ head scale input out_0 out_1,
              classification_heads self !! name = Some head
              ∧ args self !! "grad_multiply" = Some scale
              ∧ v = RetTriple (head input) out_0 out_1) as Hhead.
  { intros name input k Hrun Hk. destruct input as [x|]; simpl in Hrun; [|done].
    unfold getattr, getitem in Hrun.
    destruct (args self !! "grad_multiply") as [scale|]; simpl in Hrun; [|done].
    destruct (classification_heads self !! name) as [head|]; simpl in Hrun; [|done].
    destruct (Hk _ Hrun) as (out_0 & out_1 & ->). by exists head, scale, x, out_0, out_1. }
  destruct (use_only_mlp kw); simpl.
  - destruct (classification_head_name kw) as [name|]; [|done].
    intros Hrun. exists name.
    destruct (Hhead name _ _ Hrun) as (head & scale & input & out_0 & out_1 & ?);
      [|by exists head, scale, input, out_0, out_1].
    intros x. destruct (vadd (smul _ (cls_0 kw)) _); simpl; [|done].
    destruct (vadd (smul _ (cls_1 kw)) _); simpl; [|done].
    intros [= <-]. by eexists _, _.
  - destruct (enc_call (encoder_0 self) _ _ _) as [x_0 extra_0].
    destruct (enc_call (encoder_1 self) _ _ _) as [x_1 extra_1].
    destruct (classification_head_name kw) as [name|]; [|done].
    intros Hrun. exists name.
    destruct (Hhead name _ _ Hrun) as (head & scale & input & out_0 & out_1 & ?);
      [|by exists head, scale, input, out_0, out_1].
    intros x. destruct (select_first x_0); simpl; [|done].
    destruct (select_first x_1); simpl; [|done].
    intros [= <-]. by eexists _, _.
Qed.

(** X2.  Outside the short-circuit mode [forward] returns only when a head
    is named, registered under that name, and [args.grad_multiply] exists;
    what it returns is then a triple led by the output of that head. *)
Theorem forward_returns_only_with_head `{Scalar F} (self : model F) t0 t1 kw v :
  get_only_mol_cls kw = false →
  forward self t0 t1 kw = Ok v →
  ∃ name head scale input out_0 out_1,
    classification_head_name kw = Some name
    ∧ classification_heads self !! name = Some head
    ∧ args self !! "grad_multiply" = Some scale
    ∧ v = RetTriple (head input) out_0 out_1.
Proof. apply forward_Ok_head. Qed.

Lemma forward_returns_only_with_head_witness :
  ∃ head input out_0 out_1,
    classification_heads Sample.dti !! "h" = Some head
    ∧ RetTriple [[[1; 2; 3; 4]]]%Q (Tens [[1; 2]]%Q) (Tens [[3; 4]]%Q)
      = RetTriple (head input) out_0 out_1.
Proof.
  destruct (forward_returns_only_with_head Sample.dti (Sample.tokens 3) (Sample.tokens 4)
              (Sample.kwargs "no" (Some "h") false)
              (RetTriple [[[1; 2; 3; 4]]]%Q (Tens [[1; 2]]%Q) (Tens [[3; 4]]%Q))
              eq_refl)
    as (name & head & scale & input & out_0 & out_1 & Hname & Hhead & Hscale & Hv).
  { vm_compute. reflexivity. }
  injection Hname as <-. by exists head, input, out_0, out_1.
Defined.

(** X3.  With [get_only_mol_cls] set, [forward] runs the molecule encoder
    alone and returns the first position of its output, whatever the other
    keywords, the heads and the arguments of the model are; only an output
    without positions makes it raise. *)
Theorem forward_only_mol_cls `{Scalar F} (self : model F) t0 t1 kw :
  get_only_mol_cls kw = true →
  forward self t0 t1 kw
  = RetCls <$> pooled (encoder_0 self) t0
                 (if classification_head_name kw is Some _ then true
                  else features_only kw)
                 (return_all_hiddens kw)
  ∧ raises_only (λ e, e = IndexError) (forward self t0 t1 kw).
Proof.
  intros Hmol.
  assert (forward self t0 t1 kw
          = RetCls <$> pooled (encoder_0 self) t0
                         (if classification_head_name kw is Some _ then true
                          else features_only kw)
                         (return_all_hiddens kw)) as Heq.
  { unfold forward, pooled. rewrite Hmol.
    destruct (enc_call _ _ _ _) as [x_0 extra_0]. simpl.
    by destruct (select_first x_0). }
  split; [done|]. rewrite Heq. apply raises_only_fmap.
  by apply raises_only_select_first.
Qed.

Lemma forward_only_mol_cls_witness :
  forward Sample.dti (Sample.tokens 3) (Sample.tokens 4)
    (Sample2.bare_kwargs "mol_pro" (Some "unregistered") true true)
  = Ok (RetCls [[1; 2]]%Q).
Proof.
  destruct (forward_only_mol_cls Sample.dti (Sample.tokens 3) (Sample.tokens 4)
              (Sample2.bare_kwargs "mol_pro" (Some "unregistered") true true) eq_refl)
    as [Heq _].
  rewrite Heq. reflexivity.
Defined.

(** X4.  In precomputed mode with a head named, a Python number left for
    [cls_1] (its default is [0]) makes the call raise [TypeError] in every
    mode but [mol_pro], and so do numbers for [cls_0], [cls_1] and
    [knn_cls_0] in mode [mol_pro]: [torch.cat] is given something that is
    not a tensor, before the head is even looked up. *)
Theorem forward_mlp_number `{Scalar F} (self : model F) t0 t1 kw name c1 :
  get_only_mol_cls kw = false →
  use_only_mlp kw = true →
  classification_head_name kw = Some name →
  cls_1 kw = Num c1 →
  (use_which_embedding kw ≠ "mol_pro" → forward self t0 t1 kw = Raise TypeError)
  ∧ (∀ c0 k0, cls_0 kw = Num c0 → knn_cls_0 kw = Num k0 →
       forward self t0 t1 kw = Raise TypeError).
Proof.
  intros Hmol Hmlp Hname Hc1. unfold forward. rewrite Hmol, Hmlp, Hname, Hc1. simpl.
  split.
  - intros Hmode%String.eqb_neq. by rewrite Hmode.
  - intros c0 k0 -> ->. destruct (_ =? _); [|done].
    unfold smul, vadd, cat1. by destruct (knn_cls_1 kw).
Qed.

Lemma forward_mlp_number_witness :
  forward Sample.dti (Sample.tokens 3) (Sample.tokens 4)
    (Sample2.bare_kwargs "no" (Some "h") true false)
  = Raise TypeError
  ∧ forward Sample.dti (Sample.tokens 3) (Sample.tokens 4)
      (Sample2.bare_kwargs "mol_pro" (Some "h") true false)
    = Raise TypeError.
Proof.
  split.
  - destruct (forward_mlp_number Sample.dti (Sample.tokens 3) (Sample.tokens 4)
                (Sample2.bare_kwargs "no" (Some "h") true false) "h" 0%Q
                eq_refl eq_refl eq_refl eq_refl) as [Hplain _].
    apply Hplain. discriminate.
  - destruct (forward_mlp_number Sample.dti (Sample.tokens 3) (Sample.tokens 4)
                (Sample2.bare_kwargs "mol_pro" (Some "h") true false) "h" 0%Q
                eq_refl eq_refl eq_refl eq_refl) as [_ Hnumbers].
    by apply (Hnumbers 0%Q 0%Q).
Defined.

Section Shapes.
Context `{Scalar F}.

Lemma has_shape_rows {A B} rows w1 w2
    (t1 : list (list A)) (t2 : list (list B)) :
  length t1 = rows ∧ Forall (λ row, length row = w1) t1 →
  length t2 = rows ∧ Forall (λ row, length row = w2) t2 →
  Forall2 (λ r1 r2, length r1 = w1 ∧ length r2 = w2) t1 t2.
Proof.
  intros [Hlen1 Hrows1] [Hlen2 Hrows2]. subst rows.
  revert t2 Hlen2 Hrows2. induction Hrows1 as [|r1 t1 Hr1 _ IH];
    intros [|r2 t2] Hlen2 Hrows2; try discriminate.
  - constructor.
  - apply Forall_cons in Hrows2 as [Hr2 Hrows2].
    constructor; [done|]. apply IH; [|done]. simpl in Hlen2. lia.
Qed.

Lemma has_shape_map rows width (f : F → F) (t : tensor F) :
  has_shape rows width t → has_shape rows width (map (map f) t).
Proof.
  intros [Hlen Hrows]. split; [by rewrite length_map|].
  apply Forall_fmap. eapply Forall_impl; [done|]. intros row Hrow. simpl.
  by rewrite length_map.
Qed.

Lemma has_shape_zip_with rows w1 w2 w (f : list F → list F → list F)
    (t1 t2 : tensor F) :
  (∀ r1 r2, length r1 = w1 → length r2 = w2 → length (f r1 r2) = w) →
  has_shape rows w1 t1 → has_shape rows w2 t2 →
  has_shape rows w (zip_with f t1 t2).
Proof.
  intros Hf Ht1 Ht2.
  pose proof (has_shape_rows rows w1 w2 t1 t2 Ht1 Ht2) as Hrows.
  destruct Ht1 as [<- _]. clear Ht2. split.
  - induction Hrows; simpl; [done|]. by f_equal.
  - induction Hrows as [|r1 r2 t1 t2 [Hr1 Hr2] _ IH]; simpl; constructor; auto.
Qed.

(** A blend has the shape of the embedding it blends. *)
Lemma branch_fused_shape rows width (scale w : F) (e : tensor F) (k : pyval F) :
  has_shape rows width e → fits rows width k →
  ∃ f, branch_fused scale w (Tens e) k = Ok (Tens f) ∧ has_shape rows width f.
Proof.
  intros He Hk. destruct k as [b|t]; simpl in Hk.
  - rewrite branch_fused_number. eexists. split; [done|]. by apply has_shape_map.
  - pose proof (has_shape_rows rows width width e t He Hk) as Hrows.
    rewrite branch_fused_same_shape.
    + eexists. split; [done|].
      apply (has_shape_zip_with rows width width); [|done..].
      intros r1 r2 Hr1 Hr2. rewrite length_zip_with. lia.
    + eapply Forall2_impl; [done|]. intros r1 r2 [-> ->]. done.
Qed.

Lemma cat1_shape rows w1 w2 (a b : tensor F) :
  has_shape rows w1 a → has_shape rows w2 b →
  ∃ c, cat1 (Tens a) (Tens b) = Ok c ∧ has_shape rows (w1 + w2) c.
Proof.
  intros Ha Hb. exists (zip_with app a b). split.
  - unfold cat1. destruct Ha as [-> _], Hb as [Hlen _]. by rewrite decide_True.
  - apply (has_shape_zip_with rows w1 w2); [|done..].
    intros r1 r2 <- <-. apply length_app.
Qed.

Lemma unsqueeze1_shape rows width (c : tensor F) :
  has_shape rows width c → head_input_shape rows width (unsqueeze1 c).
Proof.
  intros [Hlen Hrows]. unfold unsqueeze1. split; [by rewrite length_map|].
  apply Forall_fmap. eapply Forall_impl; [done|]. intros row Hrow. by exists row.
Qed.
End Shapes.

(** X5.  In full mode, with the head registered and [args.grad_multiply]
    there, pooled embeddings of [rows] x [w0] and [rows] x [w1] always give
    a result: the head is called on [rows] entries of one position,
    [w0 + w1] wide, and the pooled embeddings are returned as they are.  In
    mode [mol_pro] the neighbour embeddings must be numbers or have the
    shape of the embedding they are blended with; in the other modes they
    may be anything. *)
Theorem forward_full_shape `{Scalar F} (self : model F) t0 t1 kw name head scale
    (rows w0 w1 : nat) (e0 e1 : tensor F) :
  get_only_mol_cls kw = false →
  use_only_mlp kw = false →
  classification_head_name kw = Some name →
  args self !! "grad_multiply" = Some scale →
  classification_heads self !! name = Some head →
  pooled (encoder_0 self) t0 true (return_all_hiddens kw) = Ok e0 →
  pooled (encoder_1 self) t1 true (return_all_hiddens kw) = Ok e1 →
  has_shape rows w0 e0 →
  has_shape rows w1 e1 →
  (use_which_embedding kw = "mol_pro" →
   fits rows w0 (knn_cls_0 kw) ∧ fits rows w1 (knn_cls_1 kw)) →
  ∃ input,
    forward self t0 t1 kw = Ok (RetTriple (head input) (Tens e0) (Tens e1))
    ∧ head_input_shape rows (w0 + w1) input.
Proof.
  intros Hmol Hmlp Hname Hscale Hhead He0 He1 Hs0 Hs1 Hknn.
  destruct (String.eqb_spec (use_which_embedding kw) "mol_pro") as [Hmode|Hmode].
  - destruct (Hknn Hmode) as [Hk0 Hk1].
    destruct (branch_fused_shape rows w0 (alpha kw) (knn_embedding_weight_0 kw)
                e0 (knn_cls_0 kw) Hs0 Hk0) as (f0 & Hf0 & Hsf0).
    destruct (branch_fused_shape rows w1 (alpha kw) (knn_embedding_weight_1 kw)
                e1 (knn_cls_1 kw) Hs1 Hk1) as (f1 & Hf1 & Hsf1).
    destruct (cat1_shape rows w0 w1 f0 f1 Hsf0 Hsf1) as (c & Hc & Hsc).
    exists (unsqueeze1 c). split; [|by apply unsqueeze1_shape].
    by eapply forward_full_mol_pro.
  - destruct (cat1_shape rows w0 w1 e0 e1 Hs0 Hs1) as (c & Hc & Hsc).
    exists (unsqueeze1 c). split; [|by apply unsqueeze1_shape].
    by eapply forward_full_plain.
Qed.

Lemma forward_full_shape_witness :
  ∃ input,
    forward Sample.dti (Sample.tokens 3) (Sample.tokens 4)
      (Sample.kwargs "mol_pro" (Some "h") false)
    = Ok (RetTriple input (Tens [[1; 2]]%Q) (Tens [[3; 4]]%Q))
    ∧ head_input_shape 1 4 input.
Proof.
  apply (forward_full_shape Sample.dti (Sample.tokens 3) (Sample.tokens 4)
           (Sample.kwargs "mol_pro" (Some "h") false) "h" (λ x, x) (PFloat 1%Q)
           1 2 2 [[1; 2]]%Q [[3; 4]]%Q);
    try reflexivity; try (split; [reflexivity|by repeat constructor]).
  intros _. split; (split; [reflexivity|by repeat constructor]).
Defined.

(** ** Registering a head *)

Section RegisterFacts.
Context `{Scalar F}.
Context (RobertaClassificationHead :
           pyattr F → pyattr F → option Z → pyattr F → pyattr F → pyattr F →
           pyattr F → pyattr F → classification_head F).

Lemma with_heads_lookup (self : model F) heads name :
  classification_heads (with_heads self heads) !! name
  = head_forward <$> heads !! name.
Proof. unfold with_heads. simpl. apply lookup_fmap. Qed.
End RegisterFacts.

(** X6.  With an integer [encoder_embed_dim] [d] and the five other
    arguments it reads, [my_register_classification_head] stores under the
    name a head built for an input [2 * d] wide, with inner width
    [inner_dim], or [d] when [inner_dim] is [None] or [0]; it replaces what
    was under that name and leaves every other name alone; and a following
    [forward] under that name calls the new head. *)
Theorem my_register_classification_head_registers `{Scalar F}
    (RobertaClassificationHead :
       pyattr F → pyattr F → option Z → pyattr F → pyattr F → pyattr F →
       pyattr F → pyattr F → classification_head F)
    (self : model F) heads name num_classes inner_dim
    (d : Z) activation_fn pooler_dropout q_noise qn_block_size do_spectral_norm :
  args self !! "encoder_embed_dim" = Some (PInt d) →
  args self !! "pooler_activation_fn" = Some activation_fn →
  args self !! "pooler_dropout" = Some pooler_dropout →
  args self !! "quant_noise_pq" = Some q_noise →
  args self !! "quant_noise_pq_block_size" = Some qn_block_size →
  args self !! "spectral_norm_classification_head" = Some do_spectral_norm →
  let new_head :=
    RobertaClassificationHead (PInt (2 * d))
      (PInt (match inner_dim with
             | Some z => if (z =? 0)%Z then d else z
             | None => d
             end))
      num_classes activation_fn pooler_dropout q_noise qn_block_size do_spectral_norm in
  ∃ heads',
    (my_register_classification_head RobertaClassificationHead (args self) heads name
       num_classes inner_dim).2 = Ok heads'
    ∧ heads' !! name = Some new_head
    ∧ (∀ other, other ≠ name → heads' !! other = heads !! other)
    ∧ ∀ t0 t1 kw scale e0 e1 c,
        get_only_mol_cls kw = false →
        use_only_mlp kw = false →
        classification_head_name kw = Some name →
        use_which_embedding kw ≠ "mol_pro" →
        args self !! "grad_multiply" = Some scale →
        pooled (encoder_0 self) t0 true (return_all_hiddens kw) = Ok e0 →
        pooled (encoder_1 self) t1 true (return_all_hiddens kw) = Ok e1 →
        cat1 (Tens e0) (Tens e1) = Ok c →
        forward (with_heads self heads') t0 t1 kw
        = Ok (RetTriple (head_forward new_head (unsqueeze1 c)) (Tens e0) (Tens e1)).
Proof.
  intros Hd Hact Hdrop Hqn Hqnb Hsn new_head.
  exists (<[name := new_head]> heads). split_and!.
  - unfold my_register_classification_head, getattr, new_head. simpl.
    rewrite Hd, Hact, Hdrop, Hqn, Hqnb, Hsn. simpl.
    destruct inner_dim as [z|]; [|done]. by destruct (z =? 0)%Z.
  - apply lookup_insert_eq.
  - intros other Hne. by apply lookup_insert_ne.
  - intros t0 t1 kw scale e0 e1 c Hmol Hmlp Hname Hmode Hscale He0 He1 Hc.
    apply (forward_full_plain (with_heads self (<[name := new_head]> heads))
             t0 t1 kw name (head_forward new_head) scale e0 e1 c); try done.
    by rewrite with_heads_lookup, lookup_insert_eq.
Qed.

Lemma my_register_classification_head_registers_witness :
  ∃ heads',
    (my_register_classification_head Sample2.make_head Sample2.head_args
       {["h" := Sample2.make_head PNone PNone None PNone PNone PNone PNone PNone]}
       "h" (Some 2) (Some 0)).2 = Ok heads'
    ∧ (out_proj_out_features <$> heads' !! "h") = Some 2
    ∧ (dense_out_features <$> heads' !! "h") = Some 768
    ∧ forward (with_heads Sample2.dti heads') (Sample.tokens 3) (Sample.tokens 4)
        (Sample.kwargs "no" (Some "h") false)
      = Ok (RetTriple [[[1; 2; 3; 4]]]%Q (Tens [[1; 2]]%Q) (Tens [[3; 4]]%Q)).
Proof.
  destruct (my_register_classification_head_registers Sample2.make_head Sample2.dti
              {["h" := Sample2.make_head PNone PNone None PNone PNone PNone PNone PNone]}
              "h" (Some 2) (Some 0) 768 (PStr "tanh") (PFloat 0%Q) (PFloat 0%Q)
              (PInt 8) (PBool false) eq_refl eq_refl eq_refl eq_refl eq_refl eq_refl)
    as (heads' & Hrun & Hnew & _ & Hforward).
  exists heads'. split_and!.
  - exact Hrun.
  - by rewrite Hnew.
  - by rewrite Hnew.
  - apply (Hforward _ _ _ (PFloat 1%Q) [[1; 2]]%Q [[3; 4]]%Q [[1; 2; 3; 4]]%Q);
      try reflexivity.
    discriminate.
Defined.

(** X7.  [my_register_classification_head] logs at most one warning, and
    logs it exactly when a head is already under the name and the
    [num_classes] or the [inner_dim] passed differs from the width that head
    reports.  The comparison is on the argument as passed: re-registering
    with [inner_dim] left at [None] always warns, even when the new head
    comes out with the inner width of the old one. *)
Theorem my_register_classification_head_warns `{Scalar F}
    (RobertaClassificationHead :
       pyattr F → pyattr F → option Z → pyattr F → pyattr F → pyattr F →
       pyattr F → pyattr F → classification_head F)
    (a : namespace F) heads name num_classes inner_dim :
  let warnings :=
    (my_register_classification_head RobertaClassificationHead a heads name
       num_classes inner_dim).1 in
  (length warnings ≤ 1)%nat
  ∧ (heads !! name = None → warnings = [])
  ∧ (∀ prev, heads !! name = Some prev →
       (warnings = [] ↔ num_classes = Some (out_proj_out_features prev)
                        ∧ inner_dim = Some (dense_out_features prev)))
  ∧ (∀ prev, heads !! name = Some prev →
       num_classes = None ∨ inner_dim = None → length warnings = 1%nat).
Proof.
  unfold my_register_classification_head. simpl.
  destruct (heads !! name) as [prev|]; [|by split_and!; [simpl; lia|..]].
  destruct (decide (num_classes = Some (out_proj_out_features prev))) as [Hn|Hn],
           (decide (inner_dim = Some (dense_out_features prev))) as [Hi|Hi].
  - rewrite !bool_decide_eq_false_2 by (by intros ?). simpl. split_and!.
    + lia.
    + done.
    + by intros ? [= <-].
    + intros ? [= <-] [->| ->]; done.
  - rewrite (bool_decide_eq_true_2 (inner_dim ≠ _)) by done.
    rewrite orb_true_r. simpl. split_and!; [lia|done| |done].
    intros ? [= <-]. split; [done|]. by intros [_ ?].
  - rewrite (bool_decide_eq_true_2 (num_classes ≠ _)) by done. simpl.
    split_and!; [lia|done| |done].
    intros ? [= <-]. split; [done|]. by intros [? _].
  - rewrite (bool_decide_eq_true_2 (num_classes ≠ _)) by done. simpl.
    split_and!; [lia|done| |done].
    intros ? [= <-]. split; [done|]. by intros [? _].
Qed.

Lemma my_register_classification_head_warns_witness :
  (my_register_classification_head Sample2.make_head Sample2.head_args
     {["h" := Sample2.make_head (PInt 1536) (PInt 768) (Some 2)
                PNone PNone PNone PNone PNone]}
     "h" (Some 2) None).1
  = ["re-registering head " +:+ double_quote +:+ "h" +:+ double_quote
     +:+ " with num_classes 2 (prev: 2) and inner_dim None (prev: 768)"]
  ∧ (my_register_classification_head Sample2.make_head Sample2.head_args
       {["h" := Sample2.make_head (PInt 1536) (PInt 768) (Some 2)
                  PNone PNone PNone PNone PNone]}
       "h" (Some 2) (Some 768)).1 = [].
Proof.
  split.
  - reflexivity.
  - destruct (my_register_classification_head_warns Sample2.make_head Sample2.head_args
                {["h" := Sample2.make_head (PInt 1536) (PInt 768) (Some 2)
                           PNone PNone PNone PNone PNone]}
                "h" (Some 2) (Some 768)) as (_ & _ & Hiff & _).
    by apply (Hiff _ eq_refl).
Defined.

(** ** More on the weight transfer *)

Section TransferMore.
Context {V : Type}.
Implicit Types (src : pydict V) (sd : gmap string V) (keys : list string).

#[local] Arguments drop_chars : simpl never.
#[local] Arguments String.prefix : simpl never.
#[local] Arguments String.length : simpl never.

Lemma transfers_dom sd1 sd2 key : dom sd1 = dom sd2 → transfers sd1 key = transfers sd2 key.
Proof.
  intros Hdom. unfold transfers. f_equal. apply bool_decide_ext.
  by rewrite <- !elem_of_dom, Hdom.
Qed.

Lemma transfer_fold_count src keys sd0 sd i :
  Forall (λ key, key ∈ dict_keys src) keys →
  dom sd = dom sd0 →
  ∃ sd', foldl (transfer_key src) (Ok (sd, i)) keys
         = Ok (sd', (i + length (filter (λ key, transfers sd0 key = true) keys))%nat).
Proof.
  intros Hkeys. revert sd i.
  induction Hkeys as [|key keys Hin _ IH]; intros sd i Hdom; cbn [foldl].
  { exists sd. rewrite filter_nil. simpl. by rewrite Nat.add_0_r. }
  assert (∃ sd1, transfer_key src (Ok (sd, i)) key
                 = Ok (sd1, if transfers sd0 key then S i else i)
                 ∧ dom sd1 = dom sd0) as (sd1 & -> & Hdom1).
  { rewrite <- (transfers_dom sd sd0 key Hdom). unfold transfer_key, transfers.
    change (String.length "encoder" + 1)%nat with 8%nat. simpl.
    destruct (String.prefix "encoder" key); simpl; [|by exists sd].
    destruct (bool_decide_reflect (is_Some (sd !! drop_chars 8 key))) as [Hsome|Hnone];
      [|by exists sd].
    destruct (dict_get_is_Some _ _ Hin) as [v ->]. simpl.
    eexists. split; [done|]. rewrite dom_insert_L, <- Hdom.
    apply elem_of_dom in Hsome. by apply subseteq_union_1_L, singleton_subseteq_l. }
  destruct (IH sd1 (if transfers sd0 key then S i else i) Hdom1) as [sd' ->].
  exists sd'. do 2 f_equal.
  destruct (transfers sd0 key) eqn:Hkey.
  - rewrite filter_cons_True by done. simpl. lia.
  - rewrite filter_cons_False; [done|]. by rewrite Hkey.
Qed.

(** The count is the number of checkpoint keys transferred. *)
Lemma transfer_count src sd :
  ∃ sd', transfer src sd
         = Ok (sd', length (filter (λ key, transfers sd key = true) (dict_keys src))).
Proof.
  destruct (transfer_fold_count src (dict_keys src) sd sd 0) as [sd' Hrun];
    [by apply Forall_forall|done|].
  by exists sd'.
Qed.

Lemma source_for_dom_free keys k key :
  source_for keys k = Some key → String.prefix "encoder" key = true ∧ drop_chars 8 key = k.
Proof.
  intros [_ Hreach]%source_for_elem. unfold reaches in Hreach.
  apply andb_true_iff in Hreach as [? ?%bool_decide_eq_true_1]. done.
Qed.

(** Running the loop on its own result changes nothing. *)
Lemma transfer_idempotent src sd sd' n :
  transfer src sd = Ok (sd', n) → transfer src sd' = Ok (sd', n).
Proof.
  intros Hrun.
  destruct (transfer_lookup src sd) as (sdA & nA & HrunA & HsdA).
  destruct (transfer_Ok src sd) as (sdD & nD & HrunD & Hdom).
  destruct (transfer_count src sd) as (sdC & HrunC).
  rewrite Hrun in HrunA, HrunD, HrunC.
  injection HrunA as <- <-. injection HrunD as <- <-. injection HrunC as _ Hn.
  destruct (transfer_lookup src sd') as (sdB & nB & HrunB & HsdB).
  destruct (transfer_count src sd') as (sdC' & HrunC').
  rewrite HrunB in HrunC'. injection HrunC' as _ HnB.
  rewrite HrunB. do 2 f_equal.
  - apply map_eq. intros k. rewrite HsdB, HsdA.
    destruct (sd !! k) as [v|]; simpl; [|done].
    by destruct (source_for (dict_keys src) k ≫= dict_get src).
  - rewrite HnB, Hn. f_equal. apply list_filter_iff. intros key.
    by rewrite (transfers_dom sd' sd key Hdom).
Qed.
End TransferMore.

Section RenameNoDup.
Context {V : Type}.
Implicit Types (d : pydict V) (k : string).

Lemma dict_delete_NoDup d k : NoDup (dict_keys d) → NoDup (dict_keys (dict_delete d k)).
Proof.
  induction d as [|[k0 v0] d IH]; [done|].
  change (dict_keys ((k0, v0) :: d)) with (k0 :: dict_keys d).
  intros [Hnin Hnd]%NoDup_cons.
  simpl. destruct (decide (k0 = k)); [done|].
  change (dict_keys ((k0, v0) :: dict_delete d k)) with (k0 :: dict_keys (dict_delete d k)).
  apply NoDup_cons. split; [|by apply IH].
  intros Hin. by apply Hnin, (dict_delete_keys d k).
Qed.

Lemma dict_set_NoDup d k v : NoDup (dict_keys d) → NoDup (dict_keys (dict_set d k v)).
Proof.
  induction d as [|[k0 v0] d IH].
  { intros _. apply NoDup_singleton. }
  change (dict_keys ((k0, v0) :: d)) with (k0 :: dict_keys d).
  intros [Hnin Hnd]%NoDup_cons.
  simpl. destruct (decide (k0 = k)) as [->|Hne].
  - change (dict_keys ((k, v) :: d)) with (k :: dict_keys d). by apply NoDup_cons.
  - change (dict_keys ((k0, v0) :: dict_set d k v)) with (k0 :: dict_keys (dict_set d k v)).
    apply NoDup_cons. split; [|by apply IH].
    intros [Hin| ->]%dict_set_keys; [by apply Hnin|done].
Qed.

Lemma rename_key_NoDup d old new d' :
  NoDup (dict_keys d) → rename_key d old new = Ok d' → NoDup (dict_keys d').
Proof.
  intros Hnd. unfold rename_key, dict_pop.
  destruct (dict_contains d old); [|by intros [= <-]].
  destruct (dict_get d old) as [v|]; simpl; [|done].
  intros [= <-]. by apply dict_set_NoDup, dict_delete_NoDup.
Qed.
End RenameNoDup.

Section UpgradeMore.
Context {V : Type}.
Context (load_checkpoint_to_cpu : string → option (gmap string (pydict V))).
Implicit Types (src : pydict V) (sd : gmap string V).

(** X8.  The weight transfer fails in two ways only: with
    [IOError "Model file not found: <path>"] when there is no file at the
    path, and with [KeyError "model"] when the checkpoint read from it has
    no ["model"] entry.  In every other case it returns, whatever the
    checkpoint's and the target's keys are. *)
Theorem upgrade_state_dict_raises sd path e :
  upgrade_state_dict_with_roberta_weights load_checkpoint_to_cpu sd path = Raise e
  ↔ (load_checkpoint_to_cpu path = None
     ∧ e = IOError ("Model file not found: " +:+ path))
    ∨ (∃ state, load_checkpoint_to_cpu path = Some state
                ∧ state !! "model" = None ∧ e = KeyError "model").
Proof.
  split.
  - destruct (load_checkpoint_to_cpu path) as [state|] eqn:Hload.
    + destruct (state !! "model") as [src|] eqn:Hmodel.
      * destruct (upgrade_state_dict_unfold load_checkpoint_to_cpu sd path state src
                    Hload Hmodel) as (rw & renamed & _ & _ & -> & _).
        destruct (transfer_Ok renamed sd) as (sd' & n & -> & _). done.
      * unfold upgrade_state_dict_with_roberta_weights, getitem.
        rewrite Hload. simpl. rewrite Hmodel. simpl. intros [= <-].
        right. by exists state.
    + unfold upgrade_state_dict_with_roberta_weights. rewrite Hload. simpl.
      intros [= <-]. by left.
  - unfold upgrade_state_dict_with_roberta_weights, getitem.
    intros [[-> ->]|(state & -> & Hmodel & ->)]; simpl; [done|].
    by rewrite Hmodel.
Qed.

(** X9.  Loading the same checkpoint into the state dict the function
    returned gives that state dict again, with the same count: a second
    transfer changes nothing. *)
Theorem upgrade_state_dict_idempotent sd path sd' n :
  upgrade_state_dict_with_roberta_weights load_checkpoint_to_cpu sd path = Ok (sd', n) → upgrade_state_dict_with_roberta_weights load_checkpoint_to_cpu sd' path = Ok (sd', n).
Proof.
  intros Hrun.
  destruct (load_checkpoint_to_cpu path) as [state|] eqn:Hload.
  2:{ unfold upgrade_state_dict_with_roberta_weights in Hrun.
      by rewrite Hload in Hrun. }
  destruct (state !! "model") as [src|] eqn:Hmodel.
  2:{ unfold upgrade_state_dict_with_roberta_weights, getitem in Hrun.
      rewrite Hload in Hrun. simpl in Hrun. by rewrite Hmodel in Hrun. }
  destruct (upgrade_state_dict_unfold load_checkpoint_to_cpu sd path state src
              Hload Hmodel) as (rw & renamed & Hrw & Hrenamed & Hsd & _).
  destruct (upgrade_state_dict_unfold load_checkpoint_to_cpu sd' path state src
              Hload Hmodel) as (rw' & renamed' & Hrw' & Hrenamed' & -> & _).
  rewrite Hrw in Hrw'. injection Hrw' as <-.
  rewrite Hrenamed in Hrenamed'. injection Hrenamed' as <-.
  apply (transfer_idempotent _ sd). by rewrite <- Hsd.
Qed.

(** X10.  The count the function logs is the number of checkpoint keys,
    after the two renames, that begin with ["encoder"] and whose remainder
    after the first eight characters is a key of the target: it counts
    the checkpoint keys written, not the target entries that changed. *)
Theorem upgrade_state_dict_count sd path state src :
  load_checkpoint_to_cpu path = Some state →
  state !! "model" = Some src →
  ∃ renamed_weight renamed sd',
    rename_key src "encoder.sentence_encoder.layernorm_embedding.weight"
      "encoder.sentence_encoder.emb_layer_norm.weight" = Ok renamed_weight
    ∧ rename_key renamed_weight "encoder.sentence_encoder.layernorm_embedding.bias"
        "encoder.sentence_encoder.emb_layer_norm.bias" = Ok renamed
    ∧ upgrade_state_dict_with_roberta_weights load_checkpoint_to_cpu sd path
      = Ok (sd', length (filter (λ key, transfers sd key = true) (dict_keys renamed))).
Proof.
  intros Hload Hmodel.
  destruct (upgrade_state_dict_unfold load_checkpoint_to_cpu sd path state src
              Hload Hmodel) as (rw & renamed & Hrw & Hrenamed & -> & _).
  destruct (transfer_count renamed sd) as [sd' Hrun].
  by exists rw, renamed, sd'.
Qed.

(** X11.  A checkpoint in the old naming, with the embedding layer norm
    under [layernorm_embedding], is loaded into a target in the new
    naming: the target's [sentence_encoder.emb_layer_norm.weight] (and
    [.bias]) receives the checkpoint's [layernorm_embedding] value, also
    when the checkpoint has an entry under the new name as well, and a
    target entry under the old name is left as it was.  Stated for a
    checkpoint with each key once whose keys beginning with ["encoder"]
    begin with ["encoder."]. *)
Theorem upgrade_state_dict_legacy_layer_norm sd path state src w b old_w old_b :
  load_checkpoint_to_cpu path = Some state →
  state !! "model" = Some src →
  NoDup (dict_keys src) →
  Forall (λ key, String.prefix "encoder" key = true →
                 String.prefix "encoder." key = true) (dict_keys src) →
  dict_get src "encoder.sentence_encoder.layernorm_embedding.weight" = Some w →
  dict_get src "encoder.sentence_encoder.layernorm_embedding.bias" = Some b →
  sd !! "sentence_encoder.emb_layer_norm.weight" = Some old_w →
  sd !! "sentence_encoder.emb_layer_norm.bias" = Some old_b →
  ∃ sd' n, upgrade_state_dict_with_roberta_weights load_checkpoint_to_cpu sd path = Ok (sd', n)
    ∧ sd' !! "sentence_encoder.emb_layer_norm.weight" = Some w
    ∧ sd' !! "sentence_encoder.emb_layer_norm.bias" = Some b
    ∧ sd' !! "sentence_encoder.layernorm_embedding.weight"
      = sd !! "sentence_encoder.layernorm_embedding.weight"
    ∧ sd' !! "sentence_encoder.layernorm_embedding.bias"
      = sd !! "sentence_encoder.layernorm_embedding.bias".
Proof.
  intros Hload Hmodel Hnd Hwf Hw Hb Hold_w Hold_b.
  destruct (upgrade_state_dict_unfold load_checkpoint_to_cpu sd path state src
              Hload Hmodel) as (rw & renamed & Hrw & Hrenamed & -> & Hkeys).
  assert (Forall (λ key, String.prefix "encoder" key = true →
                         String.prefix "encoder." key = true) (dict_keys renamed)) as Hwf'.
  { rewrite Forall_forall in Hwf. apply Forall_forall. intros key Hin.
    destruct (Hkeys key Hin) as [Hsrc|[->| ->]]; [by apply Hwf|done..]. }
  destruct (transfer_spec_transfer renamed sd Hwf') as [n ->].
  assert (NoDup (dict_keys rw)) as Hnd' by by eapply rename_key_NoDup.
  assert ("encoder.sentence_encoder.layernorm_embedding.weight"
          ≠ "encoder.sentence_encoder.emb_layer_norm.weight") as Hne_w by done.
  assert ("encoder.sentence_encoder.layernorm_embedding.bias"
          ≠ "encoder.sentence_encoder.emb_layer_norm.bias") as Hne_b by done.
  assert (∀ k, dict_get renamed k
               = if decide (k = "encoder.sentence_encoder.emb_layer_norm.bias")
                 then Some b
                 else if decide (k = "encoder.sentence_encoder.layernorm_embedding.bias")
                 then None
                 else if decide (k = "encoder.sentence_encoder.emb_layer_norm.weight")
                 then Some w
                 else if decide (k = "encoder.sentence_encoder.layernorm_embedding.weight")
                 then None else dict_get src k) as Hget.
  { intros k.
    rewrite (rename_key_get rw _ _ renamed k Hnd' Hne_b Hrenamed).
    rewrite (rename_key_get src _ _ rw _ Hnd Hne_w Hrw), Hw.
    rewrite decide_False, decide_False, Hb by done.
    destruct (decide (k = "encoder.sentence_encoder.emb_layer_norm.bias")); [done|].
    destruct (decide (k = "encoder.sentence_encoder.layernorm_embedding.bias")); [done|].
    by rewrite (rename_key_get src _ _ rw k Hnd Hne_w Hrw), Hw. }
  exists (spec_transfer renamed sd), n. split; [done|].
  unfold spec_transfer. rewrite !map_lookup_imap, Hold_w, Hold_b. simpl.
  rewrite !Hget.
  split_and!; [done..| |].
  - by destruct (sd !! "sentence_encoder.layernorm_embedding.weight").
  - by destruct (sd !! "sentence_encoder.layernorm_embedding.bias").
Qed.

(** X12.  Every entry of the returned state dict is either the entry the
    target had under that key, or the value of a checkpoint key (after
    the renames) that begins with ["encoder"] and has the target key after
    its first eight characters.  So checkpoint entries outside the
    encoder (decoder, heads) never reach the target. *)
Theorem upgrade_state_dict_provenance sd path sd' n k v :
  upgrade_state_dict_with_roberta_weights load_checkpoint_to_cpu sd path = Ok (sd', n) →
  sd' !! k = Some v →
  sd !! k = Some v
  ∨ ∃ state src renamed_weight renamed key,
      load_checkpoint_to_cpu path = Some state
      ∧ state !! "model" = Some src
      ∧ rename_key src "encoder.sentence_encoder.layernorm_embedding.weight"
          "encoder.sentence_encoder.emb_layer_norm.weight" = Ok renamed_weight
      ∧ rename_key renamed_weight "encoder.sentence_encoder.layernorm_embedding.bias"
          "encoder.sentence_encoder.emb_layer_norm.bias" = Ok renamed
      ∧ key ∈ dict_keys renamed
      ∧ String.prefix "encoder" key = true
      ∧ drop_chars 8 key = k
      ∧ dict_get renamed key = Some v.
Proof.
  intros Hrun Hk.
  destruct (load_checkpoint_to_cpu path) as [state|] eqn:Hload.
  2:{ unfold upgrade_state_dict_with_roberta_weights in Hrun.
      by rewrite Hload in Hrun. }
  destruct (state !! "model") as [src|] eqn:Hmodel.
  2:{ unfold upgrade_state_dict_with_roberta_weights, getitem in Hrun.
      rewrite Hload in Hrun. simpl in Hrun. by rewrite Hmodel in Hrun. }
  destruct (upgrade_state_dict_unfold load_checkpoint_to_cpu sd path state src
              Hload Hmodel) as (rw & renamed & Hrw & Hrenamed & Hsd & _).
  rewrite Hsd in Hrun.
  destruct (transfer_lookup renamed sd) as (sdA & nA & HrunA & HsdA).
  rewrite Hrun in HrunA. injection HrunA as <- <-.
  rewrite HsdA in Hk.
  destruct (sd !! k) as [v0|]; simpl in Hk; [|done].
  destruct (source_for (dict_keys renamed) k) as [key|] eqn:Hsource; simpl in Hk.
  - pose proof (source_for_elem _ _ _ Hsource) as [Hin _].
    apply source_for_dom_free in Hsource as [Hprefix Hdrop].
    destruct (dict_get_is_Some _ _ Hin) as [v1 Hv1].
    rewrite Hv1 in Hk. simpl in Hk. injection Hk as <-.
    right. by exists state, src, rw, renamed, key.
  - left. done.
Qed.
End UpgradeMore.

Lemma upgrade_state_dict_raises_witness :
  upgrade_state_dict_with_roberta_weights Sample2.legacy_files Sample2.new_target "none.pt"
  = Raise (IOError "Model file not found: none.pt")
  ∧ upgrade_state_dict_with_roberta_weights Sample2.legacy_files Sample2.new_target "empty.pt"
    = Raise (KeyError "model").
Proof.
  split.
  - apply upgrade_state_dict_raises. left. split; reflexivity.
  - apply upgrade_state_dict_raises. right. exists ∅. split_and!; reflexivity.
Defined.

Lemma upgrade_state_dict_idempotent_witness :
  upgrade_state_dict_with_roberta_weights Sample.files Sample2.loaded_target "roberta.pt"
  = Ok (Sample2.loaded_target, 2%nat).
Proof.
  apply (upgrade_state_dict_idempotent Sample.files Sample.target). reflexivity.
Defined.

Lemma upgrade_state_dict_count_witness :
  ∃ sd', upgrade_state_dict_with_roberta_weights Sample.files Sample.target "roberta.pt"
         = Ok (sd', 2%nat).
Proof.
  destruct (upgrade_state_dict_count Sample.files Sample.target "roberta.pt"
              {["model" := Sample.roberta_checkpoint]} Sample.roberta_checkpoint
              eq_refl eq_refl) as (rw & renamed & sd' & Hrw & Hrenamed & Hrun).
  injection Hrw as <-. injection Hrenamed as <-.
  exists sd'. rewrite Hrun. reflexivity.
Defined.

Lemma upgrade_state_dict_legacy_layer_norm_witness :
  ∃ sd' n,
    upgrade_state_dict_with_roberta_weights Sample2.legacy_files Sample2.new_target "legacy.pt"
    = Ok (sd', n)
    ∧ sd' !! "sentence_encoder.emb_layer_norm.weight" = Some 11%nat
    ∧ sd' !! "sentence_encoder.emb_layer_norm.bias" = Some 12%nat
    ∧ sd' !! "sentence_encoder.layernorm_embedding.weight" = Some 3%nat
    ∧ sd' !! "sentence_encoder.layernorm_embedding.bias" = None.
Proof.
  apply (upgrade_state_dict_legacy_layer_norm Sample2.legacy_files Sample2.new_target
           "legacy.pt" {["model" := Sample2.legacy_checkpoint]} Sample2.legacy_checkpoint
           11%nat 12%nat 1%nat 2%nat); try reflexivity.
  - apply (bool_decide_unpack _). by vm_compute.
  - unfold dict_keys. simpl.
    repeat (apply Forall_cons_2; [by vm_compute|]). apply Forall_nil_2.
Defined.

Lemma upgrade_state_dict_provenance_witness :
  Sample.target !! "sentence_encoder.emb_layer_norm.weight" = Some 11%nat
  ∨ ∃ state src renamed_weight renamed key,
      Sample.files "roberta.pt" = Some state
      ∧ state !! "model" = Some src
      ∧ rename_key src "encoder.sentence_encoder.layernorm_embedding.weight"
          "encoder.sentence_encoder.emb_layer_norm.weight" = Ok renamed_weight
      ∧ rename_key renamed_weight "encoder.sentence_encoder.layernorm_embedding.bias"
          "encoder.sentence_encoder.emb_layer_norm.bias" = Ok renamed
      ∧ key ∈ dict_keys renamed
      ∧ String.prefix "encoder" key = true
      ∧ drop_chars 8 key = "sentence_encoder.emb_layer_norm.weight"
      ∧ dict_get renamed key = Some 11%nat.
Proof.
  apply (upgrade_state_dict_provenance Sample.files Sample.target "roberta.pt"
           Sample2.loaded_target 2%nat); reflexivity.
Defined.

(** ** More on building the model *)

Section BuildMore.
Context `{Scalar F} {V dictionary : Type}.
Context (roberta_base_architecture : namespace F → namespace F)
        (DTIRobertaEncoder : namespace F → dictionary → pyattr F → encoder F)
        (state_dict : encoder F → gmap string V)
        (load_state_dict : encoder F → gmap string V → encoder F).
Implicit Types (load : string → option (gmap string (pydict V))) (a : namespace F).

Local Abbreviation build load :=
  (build_model roberta_base_architecture DTIRobertaEncoder state_dict
     load_state_dict load).
Local Abbreviation MoleculeEncoder load :=
  (MoleculeEncoderFromPretrainedRoberta DTIRobertaEncoder state_dict
     load_state_dict load).
Local Abbreviation ProteinEncoder load :=
  (ProteinEncoderFromPretrainedRoberta DTIRobertaEncoder state_dict
     load_state_dict load).

Lemma upgrade_state_dict_ext load load' (sd : gmap string V) path :
  load path = load' path →
  upgrade_state_dict_with_roberta_weights load sd path
  = upgrade_state_dict_with_roberta_weights load' sd path.
Proof. intros Heq. unfold upgrade_state_dict_with_roberta_weights. by rewrite Heq. Qed.

Lemma upgrade_state_dict_dom load (sd sd' : gmap string V) path n :
  upgrade_state_dict_with_roberta_weights load sd path = Ok (sd', n) → dom sd' = dom sd.
Proof.
  intros Hrun.
  destruct (load path) as [state|] eqn:Hload.
  2:{ unfold upgrade_state_dict_with_roberta_weights in Hrun. by rewrite Hload in Hrun. }
  destruct (state !! "model") as [src|] eqn:Hmodel.
  2:{ unfold upgrade_state_dict_with_roberta_weights, getitem in Hrun.
      rewrite Hload in Hrun. simpl in Hrun. by rewrite Hmodel in Hrun. }
  destruct (upgrade_state_dict_unfold load sd path state src Hload Hmodel)
    as (rw & renamed & _ & _ & Hsd & _).
  destruct (transfer_Ok renamed sd) as (sd1 & n1 & Hrun1 & Hdom).
  rewrite Hsd, Hrun1 in Hrun. by injection Hrun as <- <-.
Qed.

Lemma checkpoints_read_molecule a path :
  truthy (getattr_default a "init_protein_encoder_only" (PBool false)) = false →
  a !! "pretrained_molecule_roberta_checkpoint" = Some (PStr path) →
  path ∈ checkpoints_read a.
Proof.
  intros Hflag Hpath. unfold checkpoints_read. rewrite Hflag, Hpath.
  apply elem_of_app. left. apply list_elem_of_here.
Qed.

Lemma checkpoints_read_protein a path :
  truthy (getattr_default a "init_molecule_encoder_only" (PBool false)) = false →
  a !! "pretrained_protein_roberta_checkpoint" = Some (PStr path) →
  path ∈ checkpoints_read a.
Proof.
  intros Hflag Hpath. unfold checkpoints_read. rewrite Hflag, Hpath.
  apply elem_of_app. right. apply list_elem_of_here.
Qed.

Lemma MoleculeEncoder_ext load load' a dict :
  (∀ path, path ∈ checkpoints_read a → load path = load' path) →
  MoleculeEncoder load a dict = MoleculeEncoder load' a dict.
Proof.
  intros Hsame. unfold MoleculeEncoderFromPretrainedRoberta.
  destruct (getattr a "max_positions_molecule") as [v|]; simpl; [|done].
  destruct (truthy _) eqn:Hflag; [done|].
  destruct (negb _); [done|]. unfold getattr.
  destruct (a !! "pretrained_molecule_roberta_checkpoint") as [[| | | |path]|] eqn:Hpath;
    simpl; try done.
  by rewrite (upgrade_state_dict_ext load load' _ path)
    by by apply Hsame, checkpoints_read_molecule.
Qed.

Lemma ProteinEncoder_ext load load' a dict :
  (∀ path, path ∈ checkpoints_read a → load path = load' path) →
  ProteinEncoder load a dict = ProteinEncoder load' a dict.
Proof.
  intros Hsame. unfold ProteinEncoderFromPretrainedRoberta.
  destruct (getattr a "max_positions_protein") as [v|]; simpl; [|done].
  destruct (truthy _) eqn:Hflag; [done|].
  destruct (negb _); [done|]. unfold getattr.
  destruct (a !! "pretrained_protein_roberta_checkpoint") as [[| | | |path]|] eqn:Hpath;
    simpl; try done.
  by rewrite (upgrade_state_dict_ext load load' _ path)
    by by apply Hsame, checkpoints_read_protein.
Qed.

(** The arguments the constructors are called with, when a model is
    built. *)
Lemma build_model_unfold load a task rg :
  hasattr a "pretrained_molecule_roberta_checkpoint" = true →
  hasattr a "pretrained_protein_roberta_checkpoint" = true →
  truthy (getattr_default a "init_molecule_encoder_only" (PBool false))
  && truthy (getattr_default a "init_protein_encoder_only" (PBool false)) = false →
  is_Some (roberta_base_architecture a !! "max_positions_molecule") →
  is_Some (roberta_base_architecture a !! "max_positions_protein") →
  build load a task rg
  = (encoder_0 ← MoleculeEncoder load (roberta_base_architecture a)
                   (source_dictionary_0 task);
     encoder_1 ← ProteinEncoder load (roberta_base_architecture a)
                   (source_dictionary_1 task);
     Ok ({| args := roberta_base_architecture a;
            encoder_0 := encoder_0;
            encoder_1 := encoder_1;
            classification_heads := ∅ |},
         freeze (freeze rg (sentence_encoder encoder_0)) (sentence_encoder encoder_1))).
Proof.
  intros Hmol Hpro Hflags [v0 Hv0] [v1 Hv1]. unfold build_model, base_architecture.
  rewrite Hmol, Hpro, Hflags. simpl.
  rewrite (hasattr_true _ _ _ Hv0). simpl.
  by rewrite (hasattr_true _ _ _ Hv1).
Qed.

Lemma build_model_heads load a task rg m rg' :
  build load a task rg = Ok (m, rg') → classification_heads m = ∅.
Proof.
  unfold build_model.
  destruct (negb (hasattr a "pretrained_molecule_roberta_checkpoint")); [done|].
  destruct (negb (hasattr a "pretrained_protein_roberta_checkpoint")); [done|].
  destruct (_ && _); [done|]. cbv zeta.
  destruct (MoleculeEncoder load _ _) as [e0|]; simpl; [|done].
  destruct (ProteinEncoder load _ _) as [e1|]; simpl; [|done].
  by intros [= <- _].
Qed.

(** X13.  [build_model] opens no file but the checkpoints of the branches
    it loads: with two loaders that agree on the paths in
    [checkpoints_read] it gives the same result.  In particular, under
    [init_protein_encoder_only] the molecule checkpoint is never opened
    (it may be missing), and under [init_molecule_encoder_only] the
    protein checkpoint is not. *)
Theorem build_model_reads_only load load' a task rg :
  (∀ path, path ∈ checkpoints_read (roberta_base_architecture a) →
           load path = load' path) →
  build load a task rg = build load' a task rg.
Proof.
  intros Hsame. unfold build_model, base_architecture.
  destruct (negb (hasattr a "pretrained_molecule_roberta_checkpoint")); [done|].
  destruct (negb (hasattr a "pretrained_protein_roberta_checkpoint")); [done|].
  destruct (_ && _); [done|].
  set (a' := roberta_base_architecture a) in *. cbv zeta.
  set (a1 := if negb (hasattr a' "max_positions_molecule") then _ else a').
  set (a2 := if negb (hasattr a1 "max_positions_protein") then _ else a1).
  assert (checkpoints_read a2 = checkpoints_read a') as Hread.
  { unfold a2, a1, checkpoints_read, getattr_default.
    destruct (negb (hasattr a' _)), (negb (hasattr _ _));
      by rewrite ?lookup_insert_ne by done. }
  rewrite <- Hread in Hsame.
  by rewrite (MoleculeEncoder_ext load load' a2 _ Hsame),
    (ProteinEncoder_ext load load' a2 _ Hsame).
Qed.

(** X14.  A missing checkpoint file stops [build_model] with the
    [IOError] that names it: the molecule checkpoint first, whatever the
    state of the protein one; the protein checkpoint when the molecule
    branch was loaded or skipped.  Stated for arguments that pass the
    three assertions and carry both limits and both paths as strings. *)
Theorem build_model_missing_checkpoint load a task rg path_0 path_1 :
  hasattr a "pretrained_molecule_roberta_checkpoint" = true →
  hasattr a "pretrained_protein_roberta_checkpoint" = true →
  truthy (getattr_default a "init_molecule_encoder_only" (PBool false))
  && truthy (getattr_default a "init_protein_encoder_only" (PBool false)) = false →
  is_Some (roberta_base_architecture a !! "max_positions_molecule") →
  is_Some (roberta_base_architecture a !! "max_positions_protein") →
  roberta_base_architecture a !! "pretrained_molecule_roberta_checkpoint"
  = Some (PStr path_0) →
  roberta_base_architecture a !! "pretrained_protein_roberta_checkpoint"
  = Some (PStr path_1) →
  (truthy (getattr_default (roberta_base_architecture a)
             "init_protein_encoder_only" (PBool false)) = false →
   load path_0 = None →
   build load a task rg = Raise (IOError ("Model file not found: " +:+ path_0)))
  ∧ (truthy (getattr_default (roberta_base_architecture a)
               "init_molecule_encoder_only" (PBool false)) = false →
     truthy (getattr_default (roberta_base_architecture a)
               "init_protein_encoder_only" (PBool false)) = true
     ∨ (∃ state, load path_0 = Some state ∧ is_Some (state !! "model")) →
     load path_1 = None →
     build load a task rg = Raise (IOError ("Model file not found: " +:+ path_1))).
Proof.
  intros Hmol Hpro Hflags Hv0 Hv1 Hpath_0 Hpath_1.
  rewrite (build_model_unfold load a task rg Hmol Hpro Hflags Hv0 Hv1).
  destruct Hv0 as [v0 Hv0], Hv1 as [v1 Hv1].
  set (a' := roberta_base_architecture a) in *.
  unfold MoleculeEncoderFromPretrainedRoberta, ProteinEncoderFromPretrainedRoberta, getattr.
  rewrite Hv0, Hv1, Hpath_0, Hpath_1,
    (hasattr_true _ _ _ Hpath_0), (hasattr_true _ _ _ Hpath_1). simpl.
  split.
  - intros -> Hnone. unfold upgrade_state_dict_with_roberta_weights.
    rewrite Hnone. reflexivity.
  - intros -> Hfirst Hnone.
    assert (upgrade_state_dict_with_roberta_weights load
              (state_dict (DTIRobertaEncoder a' (source_dictionary_1 task) v1)) path_1
            = Raise (IOError ("Model file not found: " +:+ path_1))) as ->.
    { unfold upgrade_state_dict_with_roberta_weights. rewrite Hnone. reflexivity. }
    destruct Hfirst as [->|(state & Hload & src & Hmodel)]; [reflexivity|].
    destruct (truthy (getattr_default a' "init_protein_encoder_only" (PBool false)));
      [reflexivity|].
    destruct (upgrade_state_dict_unfold load
                (state_dict (DTIRobertaEncoder a' (source_dictionary_0 task) v0))
                path_0 state src Hload Hmodel) as (rw & renamed & _ & _ & -> & _).
    by destruct (transfer_Ok renamed
                   (state_dict (DTIRobertaEncoder a' (source_dictionary_0 task) v0)))
      as (sd' & n & -> & _).
Qed.

(** X15.  When neither [init_..._encoder_only] flag is set, the model
    that is built has each encoder loaded, through
    [load_state_dict(_, strict=False)], with the state dict the weight
    transfer returned for its checkpoint, and that state dict has exactly
    the keys of the encoder's own [state_dict()]: no key is missing from
    it and none is unexpected. *)
Theorem build_model_loaded_keys load a task rg m rg' :
  build load a task rg = Ok (m, rg') →
  truthy (getattr_default (args m) "init_protein_encoder_only" (PBool false)) = false →
  truthy (getattr_default (args m) "init_molecule_encoder_only" (PBool false)) = false →
  ∃ v0 v1 path_0 path_1 sd0 sd1 n0 n1,
    args m !! "max_positions_molecule" = Some v0
    ∧ args m !! "max_positions_protein" = Some v1
    ∧ args m !! "pretrained_molecule_roberta_checkpoint" = Some (PStr path_0)
    ∧ args m !! "pretrained_protein_roberta_checkpoint" = Some (PStr path_1)
    ∧ upgrade_state_dict_with_roberta_weights load
        (state_dict (DTIRobertaEncoder (args m) (source_dictionary_0 task) v0)) path_0
      = Ok (sd0, n0)
    ∧ upgrade_state_dict_with_roberta_weights load
        (state_dict (DTIRobertaEncoder (args m) (source_dictionary_1 task) v1)) path_1
      = Ok (sd1, n1)
    ∧ encoder_0 m
      = load_state_dict (DTIRobertaEncoder (args m) (source_dictionary_0 task) v0) sd0
    ∧ encoder_1 m
      = load_state_dict (DTIRobertaEncoder (args m) (source_dictionary_1 task) v1) sd1
    ∧ dom sd0 = dom (state_dict (DTIRobertaEncoder (args m) (source_dictionary_0 task) v0))
    ∧ dom sd1 = dom (state_dict (DTIRobertaEncoder (args m) (source_dictionary_1 task) v1)).
Proof.
  intros Hrun Hflag_p Hflag_m.
  destruct (build_model_Ok _ _ _ _ load _ _ _ _ _ Hrun) as (_ & He0 & He1 & _).
  revert He0 He1.
  unfold MoleculeEncoderFromPretrainedRoberta, ProteinEncoderFromPretrainedRoberta, getattr.
  rewrite Hflag_p, Hflag_m.
  destruct (args m !! "max_positions_molecule") as [v0|]; simpl; [|done].
  destruct (args m !! "max_positions_protein") as [v1|]; simpl; [|done].
  destruct (negb _); [done|].
  destruct (args m !! "pretrained_molecule_roberta_checkpoint") as [[| | | |path_0]|];
    simpl; try done.
  destruct (upgrade_state_dict_with_roberta_weights load _ path_0)
    as [[sd0 n0]|] eqn:Hsd0; simpl; [|done].
  intros [= He0].
  destruct (negb _); [done|].
  destruct (args m !! "pretrained_protein_roberta_checkpoint") as [[| | | |path_1]|];
    simpl; try done.
  destruct (upgrade_state_dict_with_roberta_weights load _ path_1)
    as [[sd1 n1]|] eqn:Hsd1; simpl; [|done].
  intros [= He1].
  exists v0, v1, path_0, path_1, sd0, sd1, n0, n1.
  split_and!; try done.
  - eapply upgrade_state_dict_dom, Hsd0.
  - eapply upgrade_state_dict_dom, Hsd1.
Qed.

(** X16.  A model fresh from [build_model] has no classification head:
    until one is registered, [forward] returns only in the short-circuit
    mode, and every other call raises. *)
Theorem build_model_no_head load a task rg m rg' t0 t1 kw :
  build load a task rg = Ok (m, rg') →
  get_only_mol_cls kw = false →
  ∃ e, forward m t0 t1 kw = Raise e.
Proof.
  intros Hrun Hmol.
  destruct (forward m t0 t1 kw) as [v|e] eqn:Hforward; [|by exists e].
  destruct (forward_Ok_head m t0 t1 kw v Hmol Hforward)
    as (name & head & scale & input & out_0 & out_1 & _ & Hhead & _).
  by rewrite (build_model_heads _ _ _ _ _ _ Hrun) in Hhead.
Qed.
End BuildMore.

Lemma build_model_reads_only_witness :
  Sample2.build_with Sample.files Sample2.only_protein_args Sample.all_tracked
  = Sample2.build_with Sample2.other_files Sample2.only_protein_args Sample.all_tracked.
Proof.
  apply (build_model_reads_only (λ args, args) Sample.make_encoder (λ _, Sample.target)
           (λ self _, self) Sample.files Sample2.other_files Sample2.only_protein_args).
  intros path Hin.
  assert (checkpoints_read Sample2.only_protein_args = ["roberta.pt"]) as Hread
    by reflexivity.
  rewrite Hread in Hin. apply list_elem_of_singleton in Hin as ->. reflexivity.
Defined.

Lemma build_model_missing_checkpoint_witness :
  Sample2.build_with Sample.files Sample2.missing_molecule_args Sample.all_tracked
  = Raise (IOError "Model file not found: none.pt").
Proof.
  apply (proj1 (build_model_missing_checkpoint (λ args, args) Sample.make_encoder
                  (λ _, Sample.target) (λ self _, self) Sample.files
                  Sample2.missing_molecule_args Sample.dictionaries Sample.all_tracked
                  "none.pt" "roberta.pt" eq_refl eq_refl eq_refl
                  (ex_intro _ (PInt 512) eq_refl) (ex_intro _ (PInt 1024) eq_refl)
                  eq_refl eq_refl));
    reflexivity.
Defined.

Lemma build_model_loaded_keys_witness :
  ∃ m rg' (sd0 : gmap string nat) n0,
    Sample.build Sample.full_args Sample.all_tracked = Ok (m, rg')
    ∧ upgrade_state_dict_with_roberta_weights Sample.files Sample.target "roberta.pt"
      = Ok (sd0, n0)
    ∧ dom sd0 = dom Sample.target.
Proof.
  destruct (Sample.build Sample.full_args Sample.all_tracked) as [[m rg']|e] eqn:Hrun;
    [|by vm_compute in Hrun].
  assert (args m = Sample.full_args) as Hargs.
  { vm_compute in Hrun. injection Hrun as <- _. by vm_compute. }
  destruct (build_model_loaded_keys _ _ _ _ _ _ _ _ _ _ Hrun)
    as (v0 & v1 & path_0 & path_1 & sd0 & sd1 & n0 & n1
        & _ & _ & Hpath_0 & _ & Hsd0 & _ & _ & _ & Hdom0 & _).
  { by rewrite Hargs. }
  { by rewrite Hargs. }
  rewrite Hargs in Hpath_0. injection Hpath_0 as <-.
  by exists m, rg', sd0, n0.
Defined.

Lemma build_model_no_head_witness :
  ∃ m rg' e,
    Sample.build Sample.full_args Sample.all_tracked = Ok (m, rg')
    ∧ forward m (Sample.tokens 3) (Sample.tokens 3) (Sample.kwargs "no" (Some "h") false)
      = Raise e.
Proof.
  destruct (Sample.build Sample.full_args Sample.all_tracked) as [[m rg']|e] eqn:Hrun;
    [|by vm_compute in Hrun].
  destruct (build_model_no_head _ _ _ _ _ _ _ _ _ _ (Sample.tokens 3) (Sample.tokens 3)
              (Sample.kwargs "no" (Some "h") false) Hrun eq_refl) as [e He].
  by exists m, rg', e.
Defined.

(** ** More on freezing *)

Section FreezeMore.
Implicit Types (rg : grad_flags) (p : positive) (m : module).

Lemma elem_of_concat_map {A B} (f : A → list B) (l : list A) (x : B) :
  x ∈ concat (map f l) ↔ ∃ i a, l !! i = Some a ∧ x ∈ f a.
Proof.
  induction l as [|c l IH]; simpl.
  - split; [by intros ?%elem_of_nil|by intros (i & a & ? & _)].
  - rewrite elem_of_app, IH. split.
    + intros [Hin|(i & a & Hi & Hin)]; [by exists 0%nat, c|by exists (S i), a].
    + intros ([|i] & a & Hi & Hin); [left; by injection Hi as ->|right; by exists i, a].
Qed.

Lemma NoDup_concat_map_disjoint {A B} (f : A → list B) (l : list A) i j a b x :
  NoDup (concat (map f l)) →
  l !! i = Some a → l !! j = Some b → i ≠ j → x ∈ f a → x ∈ f b → False.
Proof.
  revert i j. induction l as [|c l IH]; intros i j; simpl; [done|].
  intros (_ & Hdisjoint & Hnd)%NoDup_app Hi Hj Hne Ha Hb.
  destruct i as [|i], j as [|j]; simpl in Hi, Hj; try done.
  - injection Hi as ->. apply (Hdisjoint x Ha), elem_of_concat_map. by exists j, b.
  - injection Hj as ->. apply (Hdisjoint x Hb), elem_of_concat_map. by exists i, a.
  - apply (IH i j Hnd Hi Hj); [congruence|done..].
Qed.

Lemma NoDup_concat_map_lookup {A B} (f : A → list B) (l : list A) i a :
  NoDup (concat (map f l)) → l !! i = Some a → NoDup (f a).
Proof.
  revert i. induction l as [|c l IH]; intros i; simpl; [done|].
  intros (Hc & _ & Hnd)%NoDup_app Hi.
  destruct i as [|i]; simpl in Hi; [by injection Hi as <-|by apply (IH i)].
Qed.

(** The frozen parameters, by position in the tree. *)
Lemma elem_of_frozen_prefix m p :
  p ∈ frozen_prefix m
  ↔ (∃ i c, children m !! i = Some c ∧ (i < 4)%nat ∧ p ∈ parameters c)
    ∨ (∃ i c j cc, children m !! i = Some c ∧ (4 ≤ i)%nat
         ∧ children c !! j = Some cc ∧ (j < 12)%nat ∧ p ∈ parameters cc).
Proof.
  unfold frozen_prefix. rewrite elem_of_app, !elem_of_concat_map.
  split.
  - intros [(i & c & [Hi Hlt]%lookup_take_Some & Hin)|(i & c & Hi & Hin)].
    + left. by exists i, c.
    + rewrite lookup_drop in Hi.
      apply elem_of_concat_map in Hin as (j & cc & [Hj Hlt]%lookup_take_Some & Hin).
      right. exists (4 + i)%nat, c, j, cc. split_and!; [done|lia|done..].
  - intros [(i & c & Hi & Hlt & Hin)|(i & c & j & cc & Hi & Hle & Hj & Hlt & Hin)].
    + left. exists i, c. split; [by apply lookup_take_Some|done].
    + right. exists (i - 4)%nat, c. split.
      * rewrite lookup_drop. by replace (4 + (i - 4))%nat with i by lia.
      * apply elem_of_concat_map. exists j, cc. split; [by apply lookup_take_Some|done].
Qed.

Lemma elem_of_parameters_child m i c p :
  children m !! i = Some c → p ∈ parameters c → p ∈ concat (map parameters (children m)).
Proof. intros Hi Hin. apply elem_of_concat_map. by exists i, c. Qed.

(** X17.  What the freezing loops of [build_model] leave as it was, in a
    sentence encoder none of whose parameters is shared: the encoder's own
    direct parameters, the direct parameters of every child from the
    fifth on (a fifth child without sub-modules is not frozen at all),
    and the sub-children from the thirteenth on. *)
Theorem freeze_spares rg own cs p :
  NoDup (parameters (Module own cs)) →
  p ∈ own
  ∨ (∃ i own_i cs_i, cs !! i = Some (Module own_i cs_i) ∧ (4 ≤ i)%nat
       ∧ (p ∈ own_i
          ∨ ∃ j cc, cs_i !! j = Some cc ∧ (12 ≤ j)%nat ∧ p ∈ parameters cc)) →
  freeze rg (Module own cs) !! p = rg !! p.
Proof.
  intros Hnd Hp. rewrite freeze_lookup.
  destruct (decide (p ∈ frozen_prefix (Module own cs))) as [Hfrozen|]; [exfalso|done].
  simpl in Hnd. apply NoDup_app in Hnd as (_ & Hdisjoint & Hnd).
  apply elem_of_frozen_prefix in Hfrozen. simpl in Hfrozen.
  assert (∀ i c, cs !! i = Some c →
            (i < 4)%nat ∧ p ∈ parameters c
            ∨ (∃ j cc, children c !! j = Some cc ∧ (j < 12)%nat ∧ p ∈ parameters cc) →
            p ∈ parameters c) as Hup.
  { intros i [own' cs'] Hi [[_ ?]|(j & cc & Hj & _ & Hin)]; [done|].
    simpl. apply elem_of_app. right. apply elem_of_concat_map. by exists j, cc. }
  destruct Hp as [Hown|(i & own_i & cs_i & Hi & Hle & Hp)].
  - apply (Hdisjoint p Hown).
    destruct Hfrozen as [(i & c & Hi & _ & Hin)|(i & c & j & cc & Hi & _ & Hj & Hlt & Hin)].
    + by apply (elem_of_parameters_child (Module own cs) i c).
    + apply (elem_of_parameters_child (Module own cs) i c); [done|].
      apply (Hup i c Hi). right. by exists j, cc.
  - assert (p ∈ parameters (Module own_i cs_i)) as Hchild.
    { simpl. apply elem_of_app. destruct Hp as [?|(j & cc & Hj & _ & Hin)]; [by left|].
      right. apply elem_of_concat_map. by exists j, cc. }
    destruct Hfrozen as [(i' & c & Hi' & Hlt & Hin)
                        |(i' & c & j' & cc' & Hi' & _ & Hj' & Hlt & Hin)].
    + apply (NoDup_concat_map_disjoint parameters cs i i' _ _ p Hnd Hi Hi');
        [lia|done..].
    + destruct (decide (i = i')) as [<-|Hne].
      2:{ apply (NoDup_concat_map_disjoint parameters cs i i' _ _ p Hnd Hi Hi');
            [done..|].
          apply (Hup i' c Hi'). right. by exists j', cc'. }
      rewrite Hi in Hi'. injection Hi' as <-. simpl in Hj'.
      pose proof (NoDup_concat_map_lookup parameters cs i _ Hnd Hi) as Hnd_i.
      simpl in Hnd_i. apply NoDup_app in Hnd_i as (_ & Hdisjoint_i & Hnd_i).
      destruct Hp as [Hown|(j & cc & Hj & Hge & Hin_j)].
      * apply (Hdisjoint_i p Hown), elem_of_concat_map. by exists j', cc'.
      * apply (NoDup_concat_map_disjoint parameters cs_i j j' _ _ p Hnd_i Hj Hj');
          [lia|done..].
Qed.
End FreezeMore.

Lemma freeze_spares_witness :
  freeze Sample.all_tracked (Sample.sentence 1000) !! 1050%positive = Some true
  ∧ freeze Sample.all_tracked (Sample.sentence 1000) !! 1017%positive = Some true.
Proof.
  assert (NoDup (parameters (Sample.sentence 1000))) as Hnd
    by (apply (bool_decide_unpack _); by vm_compute).
  unfold Sample.sentence in *. split.
  - rewrite (freeze_spares Sample.all_tracked _ _ 1050%positive Hnd); [reflexivity|].
    right. eexists 4%nat, _, _. split; [reflexivity|]. split; [lia|].
    left. apply list_elem_of_here.
  - rewrite (freeze_spares Sample.all_tracked _ _ 1017%positive Hnd); [reflexivity|].
    right. eexists 4%nat, _, _. split; [reflexivity|]. split; [lia|].
    right. exists 12%nat, (Sample.layer 1000 17). split; [reflexivity|]. split; [lia|].
    apply list_elem_of_here.
Defined.

(** ** The other extractors of the hub wrapper *)

Section HubMore.
Context `{Scalar F}.
Implicit Types (self : model F) (t : token_tensor).

(** The two length checks every checked extractor begins with: [tac]
    closes the goals in which one of them stops the call. *)
Ltac hub_checks t0 t1 tac :=
  destruct (size_last (if decide (dim t0 = 1%nat) then unsqueeze0 t0 else t0))
    as [?n|?e]; simpl; [|tac];
  match goal with
  | |- context [decide (?n > max_positions (encoder_0 ?self))%Z] =>
      destruct (decide (n > max_positions (encoder_0 self))%Z); [tac|]
  end;
  destruct (size_last (if decide (dim t1 = 1%nat) then unsqueeze0 t1 else t1))
    as [?n|?e]; simpl; [|tac];
  match goal with
  | |- context [decide (?n > max_positions (encoder_1 ?self))%Z] =>
      destruct (decide (n > max_positions (encoder_1 self))%Z); [tac|]
  end.

Lemma unpack5_raises (m : result (forward_ret F)) : ∃ e, m ≫= unpack5 = Raise e.
Proof. destruct m as [[c|x out_0 out_1]|e]; simpl; by eexists. Qed.

(** What the extractors get back from the model: a triple whose second
    and third components are the two first-position embeddings. *)
Lemma model_call_Ok self t0 t1 k0 k1 rah name mode v :
  model_call self t0 t1 k0 k1 rah name mode = Ok v →
  ∃ name' head input e0 e1,
    name = Some name'
    ∧ v = RetTriple (head input) (Tens e0) (Tens e1)
    ∧ classification_heads self !! name' = Some head
    ∧ pooled (encoder_0 self) t0 true rah = Ok e0
    ∧ pooled (encoder_1 self) t1 true rah = Ok e1.
Proof.
  unfold model_call. intros Hrun. destruct name as [name'|].
  - apply forward_full_returns with (name := name') in Hrun
      as (head & input & e0 & e1 & -> & Hhead & He0 & He1); [|reflexivity..].
    by exists name', head, input, e0, e1.
  - by rewrite forward_no_head in Hrun.
Qed.

(** In full mode and a mode other than ["mol_pro"], the neighbour
    embeddings passed to the model are not looked at. *)
Lemma model_call_no_knn self t0 t1 k0 k1 k0' k1' rah name mode :
  mode ≠ "mol_pro" →
  model_call self t0 t1 k0 k1 rah name mode
  = model_call self t0 t1 k0' k1' rah name mode.
Proof.
  intros Hmode%String.eqb_neq. unfold model_call, forward. simpl.
  destruct (enc_call (encoder_0 self) t0 _ _) as [x_0 extra_0].
  destruct (enc_call (encoder_1 self) t1 _ _) as [x_1 extra_1].
  destruct name as [name'|]; [|done]. by rewrite Hmode.
Qed.

(** X18.  The two extractors that unpack five values from the model,
    [myextract_features_separate_cls_attn] and
    [myextract_features_separate_knn_cls], never return with this model:
    its [forward] gives three values.  Where the three-value extractor
    [myextract_features_separate_cls] returns, the five-value one raises
    the unpacking [ValueError]. *)
Theorem myextract_features_separate_five_values self t0 t1 k0 k1 rah name mode :
  (∃ e, myextract_features_separate_cls_attn self t0 t1 rah name = Raise e)
  ∧ (∃ e, myextract_features_separate_knn_cls self t0 t1 k0 k1 rah name mode = Raise e)
  ∧ (∀ v, myextract_features_separate_cls self t0 t1 rah name = Ok v →
          myextract_features_separate_cls_attn self t0 t1 rah name
          = Raise (ValueError "not enough values to unpack (expected 5, got 3)")).
Proof.
  unfold myextract_features_separate_cls_attn, myextract_features_separate_knn_cls,
    myextract_features_separate_cls. cbv zeta.
  hub_checks t0 t1 ltac:(split_and!; [by eexists..|done]).
  split_and!; [apply unpack5_raises..|].
  intros v. by destruct (model_call _ _ _ _ _ _ _ _) as [[c|x out_0 out_1]|e].
Qed.

(** X19.  [myextract_features_separate_spec_pro] makes no use of the
    hidden state it is given: [final_hidden_1] reaches [forward] as
    [knn_cls_0], which the default mode does not read, so with a tensor
    the call is [myextract_features_separate]; with a number it raises
    [AttributeError] at [.to] wherever that one returns. *)
Theorem myextract_features_separate_spec_pro_unused self t0 t1 rah name :
  (∀ final_hidden_1,
     myextract_features_separate_spec_pro self t0 t1 (Tens final_hidden_1) rah name
     = myextract_features_separate self t0 t1 rah name)
  ∧ (∀ x v,
       myextract_features_separate self t0 t1 rah name = Ok v →
       myextract_features_separate_spec_pro self t0 t1 (Num x) rah name
       = Raise (AttributeError "to")).
Proof.
  unfold myextract_features_separate_spec_pro, myextract_features_separate. cbv zeta.
  hub_checks t0 t1 ltac:(done).
  split; [|done]. intros final_hidden_1.
  change (forward self ?a ?b _)
    with (model_call self a b default_knn_cls_0 default_knn_cls_1 rah name "no").
  change (use_which_embedding forward_defaults) with "no".
  rewrite (model_call_no_knn self _ _ (Tens final_hidden_1) default_knn_cls_1
             default_knn_cls_0 default_knn_cls_1) by done.
  by destruct (model_call _ _ _ _ _ _ _ _) as [[c|x out_0 out_1]|e].
Qed.

(** X20.  With [return_all_hiddens=True] none of the four extractors that
    read [extra_0["inner_states"]] returns: what [forward] gives in that
    place is the first-position embedding, a tensor, and indexing it by
    a string raises [IndexError]. *)
Theorem myextract_features_separate_all_hiddens self t0 t1 final_hidden_1 name :
  (∃ e, myextract_features_separate self t0 t1 true name = Raise e)
  ∧ (∃ e, myextract_features_separate_batch self t0 t1 true name = Raise e)
  ∧ (∃ e, myextract_features_separate_pro_hidden self t0 t1 true name = Raise e)
  ∧ (∃ e, myextract_features_separate_spec_pro self t0 t1 final_hidden_1 true name
          = Raise e)
  ∧ (∀ v, myextract_features_separate_cls self t0 t1 true name = Ok v →
          myextract_features_separate self t0 t1 true name = Raise IndexError).
Proof.
  unfold myextract_features_separate, myextract_features_separate_batch,
    myextract_features_separate_pro_hidden, myextract_features_separate_spec_pro,
    myextract_features_separate_cls. cbv zeta.
  change (forward self ?a ?b _)
    with (model_call self a b default_knn_cls_0 default_knn_cls_1 true name "no").
  change (use_which_embedding forward_defaults) with "no".
  assert (∀ A (m : result (forward_ret F)),
            ∃ e, (r ← m; '(features, extra_0, extra_1) ← unpack3 r;
                  inner_states (A:=A) extra_0) = Raise e) as Hraise.
  { intros A [[c|x [x0|out_0] out_1]|e]; simpl; by eexists. }
  split_and!.
  - hub_checks t0 t1 ltac:(by eexists).
    destruct (model_call _ _ _ _ _ _ _ _) as [[c|x [x0|out_0] out_1]|e]; simpl;
      by eexists.
  - apply Hraise.
  - hub_checks t0 t1 ltac:(by eexists).
    apply Hraise.
  - hub_checks t0 t1 ltac:(by eexists).
    destruct final_hidden_1 as [x|h]; simpl; [by eexists|]. apply Hraise.
  - intros v.
    hub_checks t0 t1 ltac:(done).
    destruct (model_call _ _ _ _ _ _ _ _) as [r|e] eqn:Hcall; simpl; [|done].
    apply model_call_Ok in Hcall as (name' & head & input & e0 & e1 & _ & -> & _).
    done.
Qed.

(** X21.  Without [return_all_hiddens], the three checked extractors give
    three views of one call: [myextract_features_separate] the first
    component of what [myextract_features_separate_cls] returns, the
    output of the named head, and [myextract_features_separate_pro_hidden]
    the third, which is the first-position output of the protein encoder
    on the (batched) tokens; so the latter needs a registered head too,
    although it does not return what the head computes. *)
Theorem myextract_features_separate_views self t0 t1 name :
  myextract_features_separate self t0 t1 false name
  = (λ v, v.1.1) <$> myextract_features_separate_cls self t0 t1 false name
  ∧ myextract_features_separate_pro_hidden self t0 t1 false name
    = (λ v, v.2) <$> myextract_features_separate_cls self t0 t1 false name
  ∧ (∀ features out_0 out_1,
       myextract_features_separate_cls self t0 t1 false name
       = Ok (features, out_0, out_1) →
       ∃ name' head input e0 e1,
         name = Some name'
         ∧ classification_heads self !! name' = Some head
         ∧ features = head input
         ∧ pooled (encoder_0 self)
             (if decide (dim t0 = 1%nat) then unsqueeze0 t0 else t0) true false = Ok e0
         ∧ out_0 = Tens e0
         ∧ pooled (encoder_1 self)
             (if decide (dim t1 = 1%nat) then unsqueeze0 t1 else t1) true false = Ok e1
         ∧ out_1 = Tens e1).
Proof.
  unfold myextract_features_separate, myextract_features_separate_pro_hidden,
    myextract_features_separate_cls. cbv zeta.
  change (forward self ?a ?b _)
    with (model_call self a b default_knn_cls_0 default_knn_cls_1 false name "no").
  change (use_which_embedding forward_defaults) with "no".
  hub_checks t0 t1 ltac:(done).
  destruct (model_call _ _ _ _ _ _ _ _) as [r|e] eqn:Hcall; simpl; [|done].
  apply model_call_Ok in Hcall as (name' & head & input & e0 & e1 & -> & -> & Hhead & ? & ?).
  simpl. split_and!; [done..|].
  intros features out_0 out_1 [= <- <- <-]. by exists name', head, input, e0, e1.
Qed.

(** X22.  [myextract_features_separate_batch] is
    [myextract_features_separate] without the batching of rank-1 tokens
    and without the two length checks: on tokens within the limits, the
    checked extractor gives what the unchecked one gives on the batched
    tokens. *)
Theorem myextract_features_separate_batch_agrees self t0 t1 rah name (n0 n1 : nat) :
  last (tok_shape t0) = Some n0 →
  last (tok_shape t1) = Some n1 →
  (Z.of_nat n0 ≤ max_positions (encoder_0 self))%Z →
  (Z.of_nat n1 ≤ max_positions (encoder_1 self))%Z →
  myextract_features_separate self t0 t1 rah name
  = myextract_features_separate_batch self
      (if decide (dim t0 = 1%nat) then unsqueeze0 t0 else t0)
      (if decide (dim t1 = 1%nat) then unsqueeze0 t1 else t1) rah name.
Proof.
  intros Hn0 Hn1 Hle0 Hle1.
  unfold myextract_features_separate, myextract_features_separate_batch. cbv zeta.
  rewrite (size_last_normalised t0 n0 Hn0), (size_last_normalised t1 n1 Hn1). simpl.
  rewrite !decide_False by lia.
  change (forward self ?a ?b _)
    with (model_call self a b default_knn_cls_0 default_knn_cls_1 rah name "no").
  change (use_which_embedding forward_defaults) with "no".
  by destruct (model_call _ _ _ _ _ _ _ _) as [[c|x out_0 out_1]|e].
Qed.

(** X23.  [mypredict_separate] passes on neither of its two optional
    arguments: whatever [head] is given, the prediction is made by the
    head registered as ["sentence_classification_head"], and
    [log_softmax] is applied to it, with [return_logits] or without.  If
    no head has that name, the call raises although [head] may be
    registered. *)
Theorem mypredict_separate_fixed_head (log_softmax : tensor3 F → tensor3 F)
    self t0 t1 return_logits head :
  (∀ v, mypredict_separate log_softmax self t0 t1 return_logits head = Ok v →
        ∃ h input,
          classification_heads self !! "sentence_classification_head" = Some h
          ∧ v = log_softmax (h input))
  ∧ (classification_heads self !! "sentence_classification_head" = None →
     ∃ e, mypredict_separate log_softmax self t0 t1 return_logits head = Raise e).
Proof.
  assert (∀ v, mypredict_separate log_softmax self t0 t1 return_logits head = Ok v →
            ∃ h input,
              classification_heads self !! "sentence_classification_head" = Some h
              ∧ v = log_softmax (h input)) as Hfixed.
  { intros v. unfold mypredict_separate, myextract_features_separate. cbv zeta.
    change (forward self ?a ?b _)
      with (model_call self a b default_knn_cls_0 default_knn_cls_1 false
              (Some "sentence_classification_head") "no").
    hub_checks t0 t1 ltac:(done).
    destruct (model_call _ _ _ _ _ _ _ _) as [r|e] eqn:Hcall; simpl; [|done].
    apply model_call_Ok in Hcall
      as (name' & h & input & e0 & e1 & [= <-] & -> & Hhead & _).
    simpl. intros [= <-]. by exists h, input. }
  split; [done|]. intros Hnone.
  destruct (mypredict_separate _ _ _ _ _ _) as [v|e] eqn:Hrun; [|by exists e].
  destruct (Hfixed v eq_refl) as (h & input & Hh & _). by rewrite Hnone in Hh.
Qed.
End HubMore.

Lemma myextract_features_separate_five_values_witness :
  myextract_features_separate_cls_attn Sample.dti (Sample.tokens 3) (Sample.tokens 3)
    false (Some "h")
  = Raise (ValueError "not enough values to unpack (expected 5, got 3)").
Proof.
  destruct (myextract_features_separate_cls Sample.dti (Sample.tokens 3) (Sample.tokens 3)
              false (Some "h")) as [v|e] eqn:Hcls; [|by vm_compute in Hcls].
  exact (proj2 (proj2 (myextract_features_separate_five_values Sample.dti
                         (Sample.tokens 3) (Sample.tokens 3) (Num 0%Q) (Num 0%Q)
                         false (Some "h") "no")) v Hcls).
Defined.

Lemma myextract_features_separate_spec_pro_unused_witness :
  myextract_features_separate_spec_pro Sample.dti (Sample.tokens 3) (Sample.tokens 3)
    (Num 0%Q) false (Some "h")
  = Raise (AttributeError "to").
Proof.
  destruct (myextract_features_separate Sample.dti (Sample.tokens 3) (Sample.tokens 3)
              false (Some "h")) as [v|e] eqn:Hrun; [|by vm_compute in Hrun].
  exact (proj2 (myextract_features_separate_spec_pro_unused Sample.dti
                  (Sample.tokens 3) (Sample.tokens 3) false (Some "h")) 0%Q v Hrun).
Defined.

Lemma myextract_features_separate_all_hiddens_witness :
  myextract_features_separate Sample.dti (Sample.tokens 3) (Sample.tokens 3)
    true (Some "h")
  = Raise IndexError.
Proof.
  destruct (myextract_features_separate_cls Sample.dti (Sample.tokens 3) (Sample.tokens 3)
              true (Some "h")) as [v|e] eqn:Hcls; [|by vm_compute in Hcls].
  destruct (myextract_features_separate_all_hiddens Sample.dti (Sample.tokens 3)
              (Sample.tokens 3) (Num 0%Q) (Some "h")) as (_ & _ & _ & _ & Hindex).
  exact (Hindex v Hcls).
Defined.

Lemma myextract_features_separate_views_witness :
  ∃ features out_0 out_1 head input e1,
    myextract_features_separate_cls Sample.dti (Sample.tokens 3) (Sample.tokens 3)
      false (Some "h") = Ok (features, out_0, out_1)
    ∧ classification_heads Sample.dti !! "h" = Some head
    ∧ features = head input
    ∧ pooled Sample.pro_encoder (unsqueeze0 (Sample.tokens 3)) true false = Ok e1
    ∧ out_1 = Tens e1.
Proof.
  destruct (myextract_features_separate_cls Sample.dti (Sample.tokens 3) (Sample.tokens 3)
              false (Some "h")) as [[[features out_0] out_1]|e] eqn:Hcls;
    [|by vm_compute in Hcls].
  destruct (myextract_features_separate_views Sample.dti (Sample.tokens 3)
              (Sample.tokens 3) (Some "h")) as (_ & _ & Hviews).
  destruct (Hviews features out_0 out_1 Hcls)
    as (name' & head & input & e0 & e1 & [= <-] & Hhead & -> & _ & _ & He1 & ->).
  by exists (head input), out_0, (Tens e1), head, input, e1.
Defined.

Lemma myextract_features_separate_batch_agrees_witness :
  myextract_features_separate Sample.dti (Sample.tokens 3) (Sample.tokens 3)
    false (Some "h")
  = myextract_features_separate_batch Sample.dti (unsqueeze0 (Sample.tokens 3))
      (unsqueeze0 (Sample.tokens 3)) false (Some "h").
Proof.
  apply (myextract_features_separate_batch_agrees Sample.dti (Sample.tokens 3)
           (Sample.tokens 3) false (Some "h") 3 3); [reflexivity..| |]; by vm_compute.
Defined.

Lemma mypredict_separate_fixed_head_witness :
  ∃ e, mypredict_separate (λ x, x) Sample.dti (Sample.tokens 3) (Sample.tokens 3) true "h"
       = Raise e.
Proof.
  apply (proj2 (mypredict_separate_fixed_head (λ x, x) Sample.dti (Sample.tokens 3)
                  (Sample.tokens 3) true "h")).
  reflexivity.
Defined.

(** ** Encoding and decoding *)

Section TextMore.
Context {dictionary : Type}.
Context (encode_line : dictionary → string → token_tensor)
        (dictionary_string : dictionary → list Z → string)
        (bos eos : dictionary → Z)
        (bpe_encode bpe_decode : string → string).
Context (source_dictionary source_dictionary_0 source_dictionary_1 : dictionary).

Lemma string_app_assoc (s1 s2 s3 : string) : (s1 +:+ s2) +:+ s3 = s1 +:+ (s2 +:+ s3).
Proof.
  induction s1 as [|c s1 IH]; [done|].
  change (String c ((s1 +:+ s2) +:+ s3) = String c (s1 +:+ (s2 +:+ s3))).
  by rewrite IH.
Qed.

(** X24.  [encode] is [myencode_share] on the BPE encodings of its
    sentences, and the line it hands to the dictionary is the one its
    docstring shows: [<s> a </s>] for one sentence, [<s> a </s> </s> b
    </s>] for a pair, [<s> a </s> b </s>] for a pair without
    separator. *)
Theorem encode_bpe_then_share sentence addl_sentences no_separator :
  encode encode_line bpe_encode source_dictionary sentence addl_sentences no_separator
  = myencode_share encode_line source_dictionary (bpe_encode sentence)
      (map bpe_encode addl_sentences) no_separator
  ∧ encode encode_line bpe_encode source_dictionary sentence [] no_separator
    = encode_line source_dictionary ("<s> " +:+ bpe_encode sentence +:+ " </s>")
  ∧ (∀ s, encode encode_line bpe_encode source_dictionary sentence [s] false
          = encode_line source_dictionary
              ("<s> " +:+ bpe_encode sentence +:+ " </s> </s> " +:+ bpe_encode s
               +:+ " </s>"))
  ∧ (∀ s, encode encode_line bpe_encode source_dictionary sentence [s] true
          = encode_line source_dictionary
              ("<s> " +:+ bpe_encode sentence +:+ " </s> " +:+ bpe_encode s
               +:+ " </s>")).
Proof.
  split_and!.
  - unfold encode, myencode_share. cbv zeta. f_equal.
    generalize ("<s> " +:+ bpe_encode sentence +:+ " </s>").
    induction addl_sentences as [|s l IH]; intros line; [done|]. apply IH.
  - done.
  - intros s. unfold encode. cbv zeta. f_equal. cbn [foldl negb].
    rewrite !string_app_assoc. reflexivity.
  - intros s. unfold encode. cbv zeta. f_equal. cbn [foldl negb].
    rewrite !string_app_assoc. reflexivity.
Qed.

(** X25.  [myencode_separate_batch] encodes the sentences pairwise and
    stops at the end of the shorter list: with [n] the smaller of the two
    lengths it returns the molecule encodings of the first [n] molecule
    sentences and the protein encodings of the first [n] protein
    sentences, in order; the surplus of the longer list is dropped
    without a word. *)
Theorem myencode_separate_batch_pairs (sentence_0 sentence_1 : list string) :
  let n := Nat.min (length sentence_0) (length sentence_1) in
  myencode_separate_batch encode_line source_dictionary_0 source_dictionary_1
    sentence_0 sentence_1
  = (map (myencode_mol encode_line source_dictionary_0) (take n sentence_0),
     map (myencode_pro encode_line source_dictionary_1) (take n sentence_1)).
Proof.
  cbv zeta. unfold myencode_separate_batch.
  change (map ?f ?l) with (f <$> l).
  enough (∀ acc0 acc1,
            foldl (λ '(tokens_0_list, tokens_1_list) '(s_0, s_1),
                     ((tokens_0_list
                       ++ [encode_line source_dictionary_0
                             ("<s> " +:+ s_0 +:+ " </s>")])%list,
                      (tokens_1_list
                       ++ [encode_line source_dictionary_1
                             ("<s> " +:+ s_1 +:+ " </s>")])%list))
              (acc0, acc1) (zip sentence_0 sentence_1)
            = ((acc0 ++ (myencode_mol encode_line source_dictionary_0
                         <$> take (Nat.min (length sentence_0) (length sentence_1))
                               sentence_0))%list,
               (acc1 ++ (myencode_pro encode_line source_dictionary_1
                         <$> take (Nat.min (length sentence_0) (length sentence_1))
                               sentence_1))%list)) as Hloop
    by apply (Hloop [] []).
  revert sentence_1.
  induction sentence_0 as [|s_0 l0 IH]; intros [|s_1 l1] acc0 acc1; simpl;
    rewrite ?app_nil_r; try done.
  rewrite IH, <- !app_assoc. done.
Qed.

Lemma np_split_from_concat {A} start (l : list A) cuts :
  concat (np_split_from start l cuts) = l.
Proof.
  revert start l. induction cuts as [|c cuts IH]; intros start l; simpl.
  - by rewrite app_nil_r.
  - by rewrite IH, take_drop.
Qed.

Lemma np_split_from_length {A} start (l : list A) cuts :
  length (np_split_from start l cuts) = S (length cuts).
Proof.
  revert start l. induction cuts as [|c cuts IH]; intros start l; simpl; [done|].
  by rewrite IH.
Qed.

Lemma elem_of_nonzero_from (g : nat → nat) (mask : list bool) (j : nat) :
  j ∈ imap (λ i (b : bool), if b then [g i] else []) mask ≫= id
  ↔ ∃ i, j = g i ∧ mask !! i = Some true.
Proof.
  revert g. induction mask as [|b mask IH]; intros g.
  - split; [by intros ?%elem_of_nil|by intros (i & _ & ?)].
  - rewrite imap_cons, bind_cons, elem_of_app. unfold compose. rewrite (IH (λ i, g (S i))).
    split.
    + intros [Hin|(i & -> & Hi)]; [|by exists (S i)].
      destruct b; [|by apply elem_of_nil in Hin].
      apply list_elem_of_singleton in Hin as ->. by exists 0%nat.
    + intros ([|i] & -> & Hi); [|right; by exists i].
      injection Hi as ->. left. apply list_elem_of_here.
Qed.

Lemma elem_of_nonzero (mask : list bool) (j : nat) :
  j ∈ nonzero mask ↔ mask !! j = Some true.
Proof.
  unfold nonzero. rewrite (elem_of_nonzero_from (λ i, i)). split.
  - by intros (i & -> & ?).
  - intros ?. by exists j.
Qed.

(** X26.  [decode] fails in two ways only: with [AssertionError] on a
    tensor that is not of rank 1, and with [IndexError] on an empty one
    (reading [tokens[0]]); on every other tensor it returns.  The
    dictionary's [string] and the BPE's [decode] are the framework's and
    are taken as functions. *)
Theorem decode_raises tokens e :
  decode dictionary_string bos eos bpe_decode source_dictionary tokens = Raise e
  ↔ (dim tokens ≠ 1%nat ∧ e = AssertionError)
    ∨ (dim tokens = 1%nat ∧ tok_data tokens = [] ∧ e = IndexError).
Proof.
  unfold decode. destruct (Nat.eqb_spec (dim tokens) 1) as [Hdim|Hdim]; simpl.
  - destruct (tok_data tokens) as [|first data]; simpl.
    + split; [intros [= <-]; by right|]. by intros [[? _]|(_ & _ & ->)].
    + split.
      * by destruct (map _ (np_split _ _)) as [|s [|s' l]].
      * by intros [[? _]|(_ & ? & _)].
  - split; [intros [= <-]; by left|]. by intros [[_ ->]|[? _]].
Qed.

(** X27.  What [decode] returns for a non-empty tensor of rank 1.  With
    [body] the tokens after a leading [bos] is removed, the tokens are
    cut after every [eos] that is followed by another [eos], and nowhere
    else; the pieces, put together again, are [body], so no token is lost
    or repeated; each piece is turned into text by the dictionary and the
    BPE.  Without two [eos] in a row the whole of [body] comes back as
    one sentence, with them a list of at least two. *)
Theorem decode_segments tokens first :
  dim tokens = 1%nat →
  head (tok_data tokens) = Some first →
  let body :=
    if (first =? bos source_dictionary)%Z then drop 1 (tok_data tokens)
    else tok_data tokens in
  let text := λ s, bpe_decode (dictionary_string source_dictionary s) in
  ∃ cuts,
    (∀ c, c ∈ cuts
          ↔ ∃ i, c = S i ∧ body !! i = Some (eos source_dictionary)
                 ∧ body !! S i = Some (eos source_dictionary))
    ∧ concat (np_split body cuts) = body
    ∧ length (np_split body cuts) = S (length cuts)
    ∧ decode dictionary_string bos eos bpe_decode source_dictionary tokens
      = Ok (match np_split body cuts with
            | [s] => OneSentence (text s)
            | pieces => Sentences (map text pieces)
            end)
    ∧ ((∀ i, ¬ (body !! i = Some (eos source_dictionary)
                ∧ body !! S i = Some (eos source_dictionary))) →
       decode dictionary_string bos eos bpe_decode source_dictionary tokens
       = Ok (OneSentence (text body)))
    ∧ ((∃ i, body !! i = Some (eos source_dictionary)
             ∧ body !! S i = Some (eos source_dictionary)) →
       ∃ l, decode dictionary_string bos eos bpe_decode source_dictionary tokens
            = Ok (Sentences l)
            ∧ (2 ≤ length l)%nat).
Proof.
  intros Hdim Hfirst body text.
  set (eos_mask := map (λ t, (t =? eos source_dictionary)%Z) body).
  set (doc_mask := zip_with andb (drop 1 eos_mask) (take (length eos_mask - 1) eos_mask)).
  set (cuts := map S (nonzero doc_mask)).
  assert (∀ i, eos_mask !! i = Some true ↔ body !! i = Some (eos source_dictionary))
    as Heos.
  { intros i. unfold eos_mask. change (map ?f ?l) with (f <$> l).
    rewrite list_lookup_fmap. destruct (body !! i) as [t|]; simpl; [|done].
    split.
    - intros [= ->%Z.eqb_eq]. done.
    - intros [= ->]. by rewrite Z.eqb_refl. }
  assert (∀ i, doc_mask !! i = Some true
               ↔ body !! i = Some (eos source_dictionary)
                 ∧ body !! S i = Some (eos source_dictionary)) as Hdoc.
  { intros i. unfold doc_mask. rewrite lookup_zip_with_Some, <- !Heos. split.
    - intros (x & y & Hxy & Hx & Hy).
      symmetry in Hxy. apply andb_true_iff in Hxy as [-> ->].
      rewrite lookup_drop in Hx. apply lookup_take_Some in Hy as [Hy _]. done.
    - intros [Hi HS]. exists true, true. split; [done|].
      rewrite lookup_drop. split; [done|].
      apply lookup_take_Some. split; [done|].
      apply lookup_lt_Some in HS. lia. }
  assert (∀ c, c ∈ cuts
               ↔ ∃ i, c = S i ∧ body !! i = Some (eos source_dictionary)
                      ∧ body !! S i = Some (eos source_dictionary)) as Hcuts.
  { intros c. unfold cuts. change (map ?f ?l) with (f <$> l).
    rewrite list_elem_of_fmap. split.
    - intros (i & -> & Hi%elem_of_nonzero%Hdoc). by exists i.
    - intros (i & -> & Hi). exists i. split; [done|]. by apply elem_of_nonzero, Hdoc. }
  assert (decode dictionary_string bos eos bpe_decode source_dictionary tokens
          = Ok (match np_split body cuts with
                | [s] => OneSentence (text s)
                | pieces => Sentences (map text pieces)
                end)) as Hdecode.
  { unfold decode. rewrite Hdim, Hfirst. simpl.
    fold body. fold eos_mask. fold doc_mask. fold cuts.
    by destruct (np_split body cuts) as [|s [|s' l]]. }
  exists cuts. split_and!; [done| | |done| |].
  - apply np_split_from_concat.
  - apply np_split_from_length.
  - intros Hnone. rewrite Hdecode.
    destruct cuts as [|c cuts'] eqn:Hc; [done|].
    destruct (proj1 (Hcuts c)) as (i & _ & Hi); [apply list_elem_of_here|].
    by destruct (Hnone i).
  - intros (i & Hi). rewrite Hdecode.
    pose proof (np_split_from_length 0 body cuts) as Hlen.
    assert (cuts ≠ []) as Hne.
    { intros Hnil. assert (S i ∈ cuts) as Hin by (apply Hcuts; by exists i).
      rewrite Hnil in Hin. by apply elem_of_nil in Hin. }
    unfold np_split in *.
    destruct (np_split_from 0 body cuts) as [|s [|s' l]] eqn:Hsplit.
    + done.
    + destruct cuts; [done|]. simpl in Hlen. lia.
    + eexists. split; [done|]. simpl. lia.
Qed.
End TextMore.

Lemma decode_raises_witness : Sample2.decode_tokens Sample2.no_tokens = Raise IndexError.
Proof.
  apply decode_raises. right. split_and!; reflexivity.
Defined.

Lemma decode_segments_witness :
  ∃ l, Sample2.decode_tokens Sample2.pair_tokens = Ok (Sentences l) ∧ (2 ≤ length l)%nat.
Proof.
  destruct (decode_segments Sample2.dictionary_string (λ _, 0) (λ _, 2) (λ s, s) ()
              Sample2.pair_tokens 0 eq_refl eq_refl)
    as (cuts & _ & _ & _ & _ & _ & Hmany).
  apply Hmany. exists 2%nat. split; reflexivity.
Defined.
